(** * Weight conversion scripts of web-mujoco-gym: a shallow embedding

    The repository holds Python scripts that read a PyTorch PPO
    checkpoint and re-serialise its tensors:

    - [pretrained_models/convert_weights_v2.py]  (module [ConvertWeightsV2])
    - [pretrained_models/convert_weights.py]     (modules [ConvertWeights]
                                                  and [ConvertWeightsMain])
    - [download-pretrained-humanoid.py]          (module [DownloadPretrainedHumanoid])
    - [convert-weights-example.py]               (module [ConvertWeightsExample])

    What the scripts do before they hold a checkpoint in memory (HTTP
    downloads, [torch.load], [sb3.PPO.load]) is not embedded: each
    function is transcribed from the loaded object on.

    The file first fixes the pieces of the Python, PyTorch and JSON run
    time the scripts rely on (exceptions, insertion-ordered dicts, strided
    tensors, a file store), then transcribes the scripts function by
    function, and finally states and proves their properties.

    Console output ([print]) is not modelled; an expression that is
    evaluated only to be printed is kept whenever it can raise. *)

From Stdlib Require Import String Ascii List ZArith Lia Bool.
From Stdlib Require Import SpecFloat.
From stdpp Require Import gmap strings.
Import ListNotations.

Local Open Scope string_scope.
Local Open Scope nat_scope.

(* ===================================================================== *)
(** * Python run time *)
(* ===================================================================== *)

Module Py.

(** The exceptions the scripts can meet, with the argument Python prints. *)
Inductive exn : Type :=
| KeyError (key : string)
| IndexError (msg : string)
| RuntimeError (msg : string)
| ValueError (msg : string)
| AttributeError (msg : string).

(** [type(e).__name__] *)
Definition exn_class (e : exn) : string :=
  match e with
  | KeyError _ => "KeyError"
  | IndexError _ => "IndexError"
  | RuntimeError _ => "RuntimeError"
  | ValueError _ => "ValueError"
  | AttributeError _ => "AttributeError"
  end.

(** A computation either raises or returns. *)
Definition res (A : Type) : Type := (exn + A)%type.

Definition raise {A} (e : exn) : res A := inl e.
Definition ret {A} (a : A) : res A := inr a.
Definition bind {A B} (m : res A) (k : A -> res B) : res B :=
  match m with
  | inl e => inl e
  | inr a => k a
  end.

(** ** Insertion-ordered dictionaries

    A [dict] built by the scripts is kept as the list of its items in
    insertion order. Assigning to a key that is present replaces the
    value in place; assigning to a new key appends. *)
Definition dict (V : Type) : Type := list (string * V).

Fixpoint dict_get {V} (d : dict V) (k : string) : option V :=
  match d with
  | [] => None
  | (k', v) :: d' => if String.eqb k' k then Some v else dict_get d' k
  end.

Fixpoint dict_set {V} (d : dict V) (k : string) (v : V) : dict V :=
  match d with
  | [] => [(k, v)]
  | (k', v') :: d' =>
      if String.eqb k' k then (k', v) :: d' else (k', v') :: dict_set d' k v
  end.

(** [d.get(k, default)] *)
Definition dict_get_default {V} (d : dict V) (k : string) (default : V) : V :=
  match dict_get d k with Some v => v | None => default end.

(** ** Strings *)

(** [s.startswith(p)] *)
Definition startswith (s p : string) : bool := String.prefix p s.

(** [s.endswith(p)] *)
Definition endswith (s p : string) : bool :=
  let n := String.length s in
  let m := String.length p in
  (m <=? n) && String.eqb (String.substring (n - m) m s) p.

(** [p in s] for strings: [p] occurs in [s] at some position. *)
Fixpoint str_contains (s p : string) : bool :=
  String.prefix p s
  || match s with
     | EmptyString => false
     | String _ s' => str_contains s' p
     end.

(** [os.path.join(a, b)] on a POSIX system. *)
Definition path_join (a b : string) : string :=
  if startswith b "/" then b
  else if String.eqb a "" || endswith a "/" then a ++ b
  else a ++ "/" ++ b.

End Py.

(* ===================================================================== *)
(** * JSON documents *)
(* ===================================================================== *)

Module Json.

(** What [json.dump] is handed by the scripts: integers, floats, strings,
    lists and objects. A number read from a tensor is a float; a file
    holds the document itself, its field order included. *)
#[warnings="-register-all"]
Inductive json : Type :=
| JInt (n : Z)
| JFloat (x : spec_float)
| JString (s : string)
| JList (items : list json)
| JObject (fields : list (string * json)).

(** [j[i0][i1]...] on nested lists. *)
Fixpoint jget (j : json) (idx : list nat) : option json :=
  match idx with
  | [] => Some j
  | i :: idx' =>
      match j with
      | JList items =>
          match nth_error items i with
          | Some x => jget x idx'
          | None => None
          end
      | _ => None
      end
  end.

(** The length of a JSON list ([None] for anything else). *)
Definition jlen (j : json) : option nat :=
  match j with
  | JList items => Some (length items)
  | _ => None
  end.

End Json.

(* ===================================================================== *)
(** * PyTorch tensors *)
(* ===================================================================== *)

Module Torch.
Import Py Json.

(** Elements are IEEE 754 binary32 values ([torch.float32], the type of
    [torch.randn] and of the checkpoint), in the Standard Library's
    specification of floating-point numbers. *)
Definition float : Type := spec_float.
Definition prec : Z := 24.
Definition emax : Z := 128.
Definition f32_add : float -> float -> float := SFadd prec emax.
Definition f32_mul : float -> float -> float := SFmul prec emax.
Definition f32_zero : float := S754_zero false.
Definition f32_one : float := S754_finite false 8388608 (-23).

(** A tensor is a strided view of a storage: each dimension has a size
    and a stride, and element [(i0, .., ik)] is
    [storage[offset + i0*stride0 + .. + ik*stridek]]. A read past the end
    of the storage, which no tensor built by PyTorch performs, gives
    zero. *)
Record tensor : Type := mk_tensor {
  dims : list (nat * nat);
  offset : nat;
  storage : list float
}.

(** [t.shape] and [t.stride()] *)
Definition sizes (t : tensor) : list nat := map fst (dims t).
Definition strides (t : tensor) : list nat := map snd (dims t).

Definition numel_of (sz : list nat) : nat := fold_right Nat.mul 1 sz.

(** [t.numel()] *)
Definition numel (t : tensor) : nat := numel_of (sizes t).

(** Row-major strides of a freshly allocated tensor. *)
Fixpoint contiguous_strides (sz : list nat) : list nat :=
  match sz with
  | [] => []
  | _ :: sz' => numel_of sz' :: contiguous_strides sz'
  end.

(** A fresh tensor holding [vals] in row-major order. *)
Definition of_values (sz : list nat) (vals : list float) : tensor :=
  mk_tensor (combine sz (contiguous_strides sz)) 0 vals.

#[global] Instance tensor_inhabited : Inhabited tensor :=
  populate (of_values [] []).

(** The storage position of index [idx], relative to the offset. *)
Fixpoint flat_index (idx : list nat) (ds : list (nat * nat)) : nat :=
  match idx, ds with
  | i :: idx', (_, k) :: ds' => i * k + flat_index idx' ds'
  | _, _ => 0
  end.

(** [t[i0, .., ik].item()] *)
Definition get (t : tensor) (idx : list nat) : float :=
  nth (offset t + flat_index idx (dims t)) (storage t) f32_zero.

(** [t.T]: the view with the dimensions reversed (for a matrix, its
    transpose). Nothing is copied: sizes and strides are reversed. *)
Definition T (t : tensor) : tensor :=
  mk_tensor (rev (dims t)) (offset t) (storage t).

(** [t.numpy()] and [t.detach()] share the tensor's memory and layout
    (the tensors of a loaded state dict carry no gradient, so [numpy]
    does not raise). *)
Definition numpy (t : tensor) : tensor := t.
Definition detach (t : tensor) : tensor := t.

Fixpoint tolist_at (st : list float) (ds : list (nat * nat)) (off : nat)
  : json :=
  match ds with
  | [] => JFloat (nth off st f32_zero)
  | (n, k) :: ds' =>
      JList (map (fun i => tolist_at st ds' (off + i * k)) (seq 0 n))
  end.

(** [a.tolist()]: nested lists, one level per dimension. *)
Definition tolist (t : tensor) : json :=
  tolist_at (storage t) (dims t) (offset t).

(** [list(t.shape)] *)
Definition shape_list (t : tensor) : json :=
  JList (map (fun n => JInt (Z.of_nat n)) (sizes t)).

Fixpoint elements_at (st : list float) (ds : list (nat * nat)) (off : nat)
  : list float :=
  match ds with
  | [] => [nth off st f32_zero]
  | (n, k) :: ds' =>
      flat_map (fun i => elements_at st ds' (off + i * k)) (seq 0 n)
  end.

(** The elements in row-major order ([t.flatten().tolist()]). *)
Definition elements (t : tensor) : list float :=
  elements_at (storage t) (dims t) (offset t).

(** [t[0]] *)
Definition index0 (t : tensor) : res tensor :=
  match dims t with
  | [] => raise (IndexError "invalid index of a 0-dim tensor")
  | (n, _) :: ds' =>
      if n =? 0
      then raise (IndexError "index 0 is out of bounds for dimension 0 with size 0")
      else ret (mk_tensor ds' (offset t) (storage t))
  end.

(** [t[:k]] *)
Definition slice_to (k : nat) (t : tensor) : res tensor :=
  match dims t with
  | [] => raise (IndexError "slice() cannot be applied to a 0-dim tensor.")
  | (n, s) :: ds' =>
      ret (mk_tensor ((Nat.min k n, s) :: ds') (offset t) (storage t))
  end.

(** ** Element-wise operations and broadcasting *)

(** Broadcasting of two shapes, on the reversed size lists: trailing
    dimensions are aligned, equal sizes are kept and a size 1 stretches. *)
Fixpoint broadcast_rev (a b : list nat) : option (list nat) :=
  match a, b with
  | [], _ => Some b
  | _, [] => Some a
  | x :: a', y :: b' =>
      match broadcast_rev a' b' with
      | None => None
      | Some r =>
          if x =? y then Some (x :: r)
          else if x =? 1 then Some (y :: r)
          else if y =? 1 then Some (x :: r)
          else None
      end
  end.

Definition broadcast_shapes (a b : list nat) : option (list nat) :=
  option_map (@rev nat) (broadcast_rev (rev a) (rev b)).

(** Dimensions of [t.expand(target)], reversed: a stretched or added
    dimension gets stride 0. *)
Fixpoint expand_rev (ds : list (nat * nat)) (target : list nat)
  : list (nat * nat) :=
  match target with
  | [] => []
  | n :: target' =>
      match ds with
      | (s, k) :: ds' => (n, if s =? n then k else 0) :: expand_rev ds' target'
      | [] => (n, 0) :: expand_rev [] target'
      end
  end.

Definition expand (t : tensor) (target : list nat) : tensor :=
  mk_tensor (rev (expand_rev (rev (dims t)) (rev target)))
            (offset t) (storage t).

(** A unary element-wise function ([torch.tanh], [torch.exp]). *)
Definition map_tensor (f : float -> float) (t : tensor) : tensor :=
  of_values (sizes t) (map f (elements t)).

(** A binary element-wise operator ([a + b], [a * b]). *)
Definition pointwise (f : float -> float -> float) (a b : tensor)
  : res tensor :=
  match broadcast_shapes (sizes a) (sizes b) with
  | None =>
      raise (RuntimeError
        "The size of tensor a must match the size of tensor b at non-singleton dimension")
  | Some sz =>
      ret (of_values sz (zip_with f (elements (expand a sz))
                                     (elements (expand b sz))))
  end.

Definition add : tensor -> tensor -> res tensor := pointwise f32_add.
Definition mul : tensor -> tensor -> res tensor := pointwise f32_mul.

(** What PyTorch leaves to its numerical back end: the matrix product
    (rank dispatch, accumulation order) and the rounding of [tanh] and
    [exp] at finite non-zero arguments. The scripts are transcribed
    over an arbitrary back end. *)
Record backend : Type := mk_backend {
  matmul : tensor -> tensor -> res tensor;
  tanh_finite : bool -> positive -> Z -> float;
  exp_finite : bool -> positive -> Z -> float
}.

(** [tanh] and [exp] at the IEEE special values. *)
Definition f32_tanh (be : backend) (x : float) : float :=
  match x with
  | S754_zero s => S754_zero s
  | S754_infinity s => if s then SFopp f32_one else f32_one
  | S754_nan => S754_nan
  | S754_finite s m e => tanh_finite be s m e
  end.

Definition f32_exp (be : backend) (x : float) : float :=
  match x with
  | S754_zero _ => f32_one
  | S754_infinity s => if s then f32_zero else S754_infinity false
  | S754_nan => S754_nan
  | S754_finite s m e => exp_finite be s m e
  end.

(** [torch.tanh(t)], [torch.exp(t)] *)
Definition tanh (be : backend) : tensor -> tensor := map_tensor (f32_tanh be).
Definition exp (be : backend) : tensor -> tensor := map_tensor (f32_exp be).

(** The random generator is an explicit stream of standard-normal
    samples; [randn rng pos sz] is the tensor of shape [sz] filled
    with the samples from position [pos] on. *)
Definition randn (rng : nat -> float) (pos : nat) (sz : list nat) : tensor :=
  of_values sz (map rng (seq pos (numel_of sz))).

(** [torch.randn_like(t)] *)
Definition randn_like (rng : nat -> float) (pos : nat) (t : tensor) : tensor :=
  randn rng pos (sizes t).

End Torch.

(* ===================================================================== *)
(** * Files *)
(* ===================================================================== *)

Module OS.
Import Py Json.

(** Durable storage: the directories that exist and the JSON document
    each file holds. Opening a file with mode ['w'] and dumping a
    document into it replaces whatever the path held. Failures of the
    operating system itself (a full disk, a path that cannot be opened)
    are outside the model: the two operations below always succeed. *)
Record filesystem : Type := mk_fs {
  dirs : gset string;
  files : gmap string json
}.

(** A script step: it may raise, and it leaves a file system behind
    whether it raises or not. *)
Definition io (A : Type) : Type := filesystem -> res A * filesystem.

Definition io_ret {A} (a : A) : io A := fun fs => (inr a, fs).

Definition io_bind {A B} (m : io A) (k : A -> io B) : io B :=
  fun fs =>
    match m fs with
    | (inl e, fs') => (inl e, fs')
    | (inr a, fs') => k a fs'
    end.

(** A computation that touches no file. *)
Definition lift {A} (m : res A) : io A := fun fs => (m, fs).

(** [os.makedirs(d, exist_ok=True)] on a path that can be made. The call
    raises [FileNotFoundError] on the empty path, and [FileExistsError]
    or [NotADirectoryError] where the path or a path above it is a
    file; like a full disk, these are left out:
    [Contract.can_be_made] says of a path and a storage that the call
    goes through. The directories the call makes above [d] are not
    recorded. *)
Definition makedirs (d : string) : io unit :=
  fun fs => (inr tt, mk_fs ({[ d ]} ∪ dirs fs) (files fs)).

(** [with open(path, 'w') as f: json.dump(doc, f)] *)
Definition write_json (path : string) (doc : json) : io unit :=
  fun fs => (inr tt, mk_fs (dirs fs) (<[ path := doc ]> (files fs))).

End OS.

Declare Scope res_scope.
Delimit Scope res_scope with res.
Notation "x <- e ;; k" := (Py.bind e (fun x => k))
  (at level 100, e at next level, right associativity) : res_scope.
Notation "e ;; k" := (Py.bind e (fun _ => k))
  (at level 100, right associativity) : res_scope.

Declare Scope io_scope.
Delimit Scope io_scope with io.
Notation "x <- e ;; k" := (OS.io_bind e (fun x => k))
  (at level 100, e at next level, right associativity) : io_scope.
Notation "e ;; k" := (OS.io_bind e (fun _ => k))
  (at level 100, right associativity) : io_scope.

(* ===================================================================== *)
(** * pretrained_models/convert_weights_v2.py *)
(* ===================================================================== *)

Module ConvertWeightsV2.
Import Py Json Torch OS.

(** [state_dict[key]] *)
Definition getitem (state_dict : gmap string tensor) (key : string)
  : res tensor :=
  match state_dict !! key with
  | Some t => ret t
  | None => raise (KeyError key)
  end.

(** Lines 33-39: the actor's dictionary. *)
Definition actor_weights_of (state_dict : gmap string tensor)
  : res (dict json) :=
  (let actor_weights : dict json := [] in
   t <- getitem state_dict "actor_mean.0.weight" ;;
   let actor_weights := dict_set actor_weights "dense_1_kernel" (tolist (numpy (T t))) in
   t <- getitem state_dict "actor_mean.0.bias" ;;
   let actor_weights := dict_set actor_weights "dense_1_bias" (tolist (numpy t)) in
   t <- getitem state_dict "actor_mean.2.weight" ;;
   let actor_weights := dict_set actor_weights "dense_2_kernel" (tolist (numpy (T t))) in
   t <- getitem state_dict "actor_mean.2.bias" ;;
   let actor_weights := dict_set actor_weights "dense_2_bias" (tolist (numpy t)) in
   t <- getitem state_dict "actor_mean.4.weight" ;;
   let actor_weights := dict_set actor_weights "output_kernel" (tolist (numpy (T t))) in
   t <- getitem state_dict "actor_mean.4.bias" ;;
   let actor_weights := dict_set actor_weights "output_bias" (tolist (numpy t)) in
   ret actor_weights)%res.

(** Lines 47-53: the critic's dictionary. *)
Definition critic_weights_of (state_dict : gmap string tensor)
  : res (dict json) :=
  (let critic_weights : dict json := [] in
   t <- getitem state_dict "critic.0.weight" ;;
   let critic_weights := dict_set critic_weights "dense_1_kernel" (tolist (numpy (T t))) in
   t <- getitem state_dict "critic.0.bias" ;;
   let critic_weights := dict_set critic_weights "dense_1_bias" (tolist (numpy t)) in
   t <- getitem state_dict "critic.2.weight" ;;
   let critic_weights := dict_set critic_weights "dense_2_kernel" (tolist (numpy (T t))) in
   t <- getitem state_dict "critic.2.bias" ;;
   let critic_weights := dict_set critic_weights "dense_2_bias" (tolist (numpy t)) in
   t <- getitem state_dict "critic.4.weight" ;;
   let critic_weights := dict_set critic_weights "output_kernel" (tolist (numpy (T t))) in
   t <- getitem state_dict "critic.4.bias" ;;
   let critic_weights := dict_set critic_weights "output_bias" (tolist (numpy t)) in
   ret critic_weights)%res.

(** Lines 61-64: the log-standard-deviation document. *)
Definition actor_logstd_of (state_dict : gmap string tensor)
  : res (dict json) :=
  (t <- getitem state_dict "actor_logstd" ;;
   let shape_ := shape_list t in
   t <- getitem state_dict "actor_logstd" ;;
   ret [("shape", shape_); ("values", tolist (numpy t))])%res.

(** Lines 71-81: the architecture record, all constants. *)
Definition model_info : dict json :=
  [ ("input_dim", JInt 376);
    ("action_dim", JInt 17);
    ("hidden_dim", JInt 64);
    ("architecture", JString "PPO");
    ("source", JString "CleanRL Humanoid-v4");
    ("actor_layers", JList [JInt 376; JInt 64; JInt 64; JInt 17]);
    ("critic_layers", JList [JInt 376; JInt 64; JInt 64; JInt 1]);
    ("activation", JString "tanh");
    ("format", JString "json_weights") ].

(** [extract_weights_to_json(state_dict, output_dir)], lines 26-87. *)
Definition extract_weights_to_json
    (state_dict : gmap string tensor) (output_dir : string) : io bool :=
  (makedirs output_dir ;;
   (* Actor weights *)
   actor_weights <- lift (actor_weights_of state_dict) ;;
   write_json (path_join output_dir "actor_weights.json") (JObject actor_weights) ;;
   (* Critic weights *)
   critic_weights <- lift (critic_weights_of state_dict) ;;
   write_json (path_join output_dir "critic_weights.json") (JObject critic_weights) ;;
   (* Actor logstd *)
   actor_logstd <- lift (actor_logstd_of state_dict) ;;
   write_json (path_join output_dir "actor_logstd.json") (JObject actor_logstd) ;;
   (* Model architecture info *)
   write_json (path_join output_dir "model_info.json") (JObject model_info) ;;
   io_ret true)%io.

(** Lines 97-99: the actor's forward pass on [test_input]. *)
Definition actor_forward (be : backend) (state_dict : gmap string tensor)
    (test_input : tensor) : res tensor :=
  (w <- getitem state_dict "actor_mean.0.weight" ;;
   m <- matmul be test_input (T w) ;;
   b <- getitem state_dict "actor_mean.0.bias" ;;
   s <- add m b ;;
   let actor_h1 := tanh be s in
   w <- getitem state_dict "actor_mean.2.weight" ;;
   m <- matmul be actor_h1 (T w) ;;
   b <- getitem state_dict "actor_mean.2.bias" ;;
   s <- add m b ;;
   let actor_h2 := tanh be s in
   w <- getitem state_dict "actor_mean.4.weight" ;;
   m <- matmul be actor_h2 (T w) ;;
   b <- getitem state_dict "actor_mean.4.bias" ;;
   add m b)%res.

(** Lines 106-108: the critic's forward pass on [test_input]. *)
Definition critic_forward (be : backend) (state_dict : gmap string tensor)
    (test_input : tensor) : res tensor :=
  (w <- getitem state_dict "critic.0.weight" ;;
   m <- matmul be test_input (T w) ;;
   b <- getitem state_dict "critic.0.bias" ;;
   s <- add m b ;;
   let critic_h1 := tanh be s in
   w <- getitem state_dict "critic.2.weight" ;;
   m <- matmul be critic_h1 (T w) ;;
   b <- getitem state_dict "critic.2.bias" ;;
   s <- add m b ;;
   let critic_h2 := tanh be s in
   w <- getitem state_dict "critic.4.weight" ;;
   m <- matmul be critic_h2 (T w) ;;
   b <- getitem state_dict "critic.4.bias" ;;
   add m b)%res.

(** Lines 115-117, for a [noise] tensor already drawn:
    [actor_std = exp(actor_logstd)] and
    [sampled_action = actor_output + actor_std * noise]. *)
Definition sample_action (be : backend)
    (actor_output actor_logstd noise : tensor) : res (tensor * tensor) :=
  (let actor_std := exp be actor_logstd in
   p <- mul actor_std noise ;;
   sampled_action <- add actor_output p ;;
   ret (actor_std, sampled_action))%res.

(** [t[0][:5].tolist()], evaluated for a [print]. *)
Definition head5 (t : tensor) : res json :=
  (r <- index0 t ;; r <- slice_to 5 r ;; ret (tolist r))%res.

(** [test_weights(state_dict)], lines 89-121. The generator's samples are
    the stream [rng]: [test_input] takes the first 376, the noise the
    following ones. *)
Definition test_weights (be : backend) (rng : nat -> float)
    (state_dict : gmap string tensor) : res unit :=
  (let test_input := randn rng 0 [1; 376] in
   actor_output <- actor_forward be state_dict test_input ;;
   head5 actor_output ;;
   critic_output <- critic_forward be state_dict test_input ;;
   r <- index0 critic_output ;;
   (* Test action sampling with logstd *)
   actor_logstd <- getitem state_dict "actor_logstd" ;;
   let noise := randn_like rng 376 actor_output in
   r <- sample_action be actor_output actor_logstd noise ;;
   let actor_std := fst r in
   let sampled_action := snd r in
   head5 actor_logstd ;;
   head5 actor_std ;;
   head5 sampled_action ;;
   ret tt)%res.

(** [main()], lines 123-150, from the loaded [state_dict] on. The
    [except Exception] clause swallows whatever was raised; the result
    is the exception it printed, if any. Files written before the
    exception stay. *)
Definition main (be : backend) (rng : nat -> float)
    (state_dict : gmap string tensor) (fs : filesystem)
  : option exn * filesystem :=
  let output_dir := "weights_json" in
  match test_weights be rng state_dict with
  | inl e => (Some e, fs)
  | inr _ =>
      match extract_weights_to_json state_dict output_dir fs with
      | (inl e, fs') => (Some e, fs')
      | (inr success, fs') => (None, fs')
      end
  end.

End ConvertWeightsV2.

(* ===================================================================== *)
(** * pretrained_models/convert_weights.py *)
(* ===================================================================== *)

Module ConvertWeights.
Import Py Json Torch.

(** A [tf.Variable]: its name, its static shape and the array it holds. *)
Record variable : Type := mk_variable {
  var_name : string;
  var_shape : list nat;
  var_value : tensor
}.

(** A Keras layer with its [layer.weights], and a model as its
    [model.layers]. *)
Record layer : Type := mk_layer {
  layer_name : string;
  weights : list variable
}.

Definition model : Type := list layer.

(** What [weight.name] is for the variable [kind] (["kernel"] or
    ["bias"]) of the layer [layer]. The script does not fix it: it is
    given by the Keras that is installed, and no version is pinned. *)
Definition naming : Type := string -> string -> string.

(** The Keras 2 API ([tf.keras] up to TensorFlow 2.15, or with
    [TF_USE_LEGACY_KERAS=1]) names a variable after its layer:
    ["actor_dense_1/kernel:0"]. *)
Definition keras2_names : naming :=
  fun layer kind => layer ++ "/" ++ kind ++ ":0".

(** Keras 3 ([tf.keras] from TensorFlow 2.16 on) names it ["kernel"];
    the layer appears in [weight.path] only. *)
Definition keras3_names : naming :=
  fun layer kind => kind.

(** [tf.keras.layers.Dense(units, name=name)] applied to an input of width
    [in_dim]: a kernel of shape [(in_dim, units)] drawn by the
    initialiser [glorot] for this layer and a zero bias of shape
    [(units,)], named as [names] says. *)
Definition Dense (names : naming) (glorot : string -> list nat -> tensor)
    (units : nat) (name : string) (in_dim : nat) : layer :=
  mk_layer name
    [ mk_variable (names name "kernel") [in_dim; units]
                  (glorot name [in_dim; units]);
      mk_variable (names name "bias") [units]
                  (of_values [units] (repeat f32_zero units)) ].

(** [tf.keras.Input(shape=(input_dim,), name=name)]: a layer without
    weights. *)
Definition Input (name : string) : layer := mk_layer name [].

(** [create_tfjs_model(state_dict)], lines 25-86; the checkpoint is not
    looked at. *)
Definition create_tfjs_model (names : naming)
    (glorot : string -> list nat -> tensor)
    (state_dict : gmap string tensor) : model * model :=
  let input_dim := 376 in
  let hidden_dim := 64 in
  let action_dim := 17 in
  let actor_model :=
    [ Input "actor_input";
      Dense names glorot hidden_dim "actor_dense_1" input_dim;
      Dense names glorot hidden_dim "actor_dense_2" hidden_dim;
      Dense names glorot action_dim "actor_mean" hidden_dim ] in
  let critic_model :=
    [ Input "critic_input";
      Dense names glorot hidden_dim "critic_dense_1" input_dim;
      Dense names glorot hidden_dim "critic_dense_2" hidden_dim;
      Dense names glorot 1 "critic_value" hidden_dim ] in
  (actor_model, critic_model).

(** Lines 93-109. *)
Definition weight_mapping : dict string :=
  [ ("actor_mean.0.weight", "actor_dense_1/kernel:0");
    ("actor_mean.0.bias", "actor_dense_1/bias:0");
    ("actor_mean.2.weight", "actor_dense_2/kernel:0");
    ("actor_mean.2.bias", "actor_dense_2/bias:0");
    ("actor_mean.4.weight", "actor_mean/kernel:0");
    ("actor_mean.4.bias", "actor_mean/bias:0");
    ("critic.0.weight", "critic_dense_1/kernel:0");
    ("critic.0.bias", "critic_dense_1/bias:0");
    ("critic.2.weight", "critic_dense_2/kernel:0");
    ("critic.2.bias", "critic_dense_2/bias:0");
    ("critic.4.weight", "critic_value/kernel:0");
    ("critic.4.bias", "critic_value/bias:0") ].

(** [weight.assign(tensor)]: the shapes must agree. *)
Definition assign (w : variable) (value : tensor) : res variable :=
  if bool_decide (var_shape w = sizes value)
  then ret (mk_variable (var_name w) (var_shape w) value)
  else raise (ValueError ("Cannot assign value to variable ' " ++ var_name w
                          ++ "': Shape mismatch."))%string.

(** Lines 123-127: the first weight of the layer with the wanted name is
    assigned, then the loop over this layer's weights is left. *)
Fixpoint assign_in_weights (ws : list variable) (tf_name : string)
    (value : tensor) : res (list variable) :=
  match ws with
  | [] => ret []
  | w :: ws' =>
      if String.eqb (var_name w) tf_name
      then (w' <- assign w value ;; ret (w' :: ws'))%res
      else (ws'' <- assign_in_weights ws' tf_name value ;; ret (w :: ws''))%res
  end.

(** Lines 122-127: every layer of the model is searched. *)
Fixpoint assign_in_layers (ls : list layer) (tf_name : string)
    (value : tensor) : res (list layer) :=
  match ls with
  | [] => ret []
  | l :: ls' =>
      (ws <- assign_in_weights (weights l) tf_name value ;;
       ls'' <- assign_in_layers ls' tf_name value ;;
       ret (mk_layer (layer_name l) ws :: ls''))%res
  end.

(** Lines 113-127 (actor) and 131-145 (critic): one pass over
    [weight_mapping.items()] for the names that start with [prefix]. *)
Fixpoint convert_items (prefix : string) (state_dict : gmap string tensor)
    (items : list (string * string)) (m : model) : res model :=
  match items with
  | [] => ret m
  | (pytorch_name, tf_name) :: items' =>
      if startswith pytorch_name prefix then
        match state_dict !! pytorch_name with
        | Some t =>
            let tensor := numpy t in
            let tensor :=
              if str_contains pytorch_name "weight" then T tensor else tensor in
            (m' <- assign_in_layers m tf_name tensor ;;
             convert_items prefix state_dict items' m')%res
        | None => convert_items prefix state_dict items' m
        end
      else convert_items prefix state_dict items' m
  end.

(** [convert_weights(state_dict, actor_model, critic_model)], lines
    88-153. The models are updated in place; the result holds them as
    they are on return, with the returned [actor_logstd]. *)
Definition convert_weights (state_dict : gmap string tensor)
    (actor_model critic_model : model)
  : res (model * model * option tensor) :=
  (actor_model' <- convert_items "actor_mean" state_dict weight_mapping actor_model ;;
   critic_model' <- convert_items "critic" state_dict weight_mapping critic_model ;;
   let actor_logstd :=
     match state_dict !! "actor_logstd" with
     | Some t => Some (numpy t)
     | None => None
     end in
   ret (actor_model', critic_model', actor_logstd))%res.

(** The variable of a model that carries a given name: the first one, in
    layer order. *)
Definition find_variable (m : model) (name : string) : option variable :=
  List.find (fun w => String.eqb (var_name w) name) (flat_map weights m).

End ConvertWeights.

(* ===================================================================== *)
(** * pretrained_models/convert_weights.py: the test pass, saving, [main] *)
(* ===================================================================== *)

Module ConvertWeightsMain.
Import Py Json Torch OS ConvertWeights.

(** The [activation] argument of the [Dense] layers of
    [create_tfjs_model] (lines 40, 46, 53, 66, 72, 79): ['tanh'] for the
    four hidden layers, [None] for the two output layers. The record
    [layer] holds the name and the weights of a layer, so the activation
    a layer was declared with is found by its name. *)
Definition activation_of (name : string) : option string :=
  if String.eqb name "actor_dense_1" || String.eqb name "actor_dense_2"
     || String.eqb name "critic_dense_1" || String.eqb name "critic_dense_2"
  then Some "tanh"
  else None.

(** A layer applied to its input: a dense layer computes
    [activation(inputs . kernel + bias)]; an input layer, which has no
    weights, hands its input on. *)
Definition call_layer (be : backend) (l : layer) (inputs : tensor)
  : res tensor :=
  match weights l with
  | [kernel; bias] =>
      (x <- matmul be inputs (var_value kernel) ;;
       x <- add x (var_value bias) ;;
       match activation_of (layer_name l) with
       | Some _ => ret (tanh be x)
       | None => ret x
       end)%res
  | _ => ret inputs
  end.

(** [model(test_input)] (lines 214-215): the layers in order. *)
Fixpoint call_model (be : backend) (m : model) (inputs : tensor)
  : res tensor :=
  match m with
  | [] => ret inputs
  | l :: m' => (x <- call_layer be l inputs ;; call_model be m' x)%res
  end.

(** Storage as [save_tfjs_models] sees it: the file system, and the
    models [tf.saved_model.save] has written, each kept as the model
    that was saved under its path. Saving is taken to succeed, as
    writing a file is. *)
Record storage : Type := mk_storage {
  saved_models : gmap string model;
  fs : filesystem
}.

(** [tf.saved_model.save(m, path)] *)
Definition saved_model_save (m : model) (path : string) (st : storage)
  : storage :=
  mk_storage (<[ path := m ]> (saved_models st))
             (mk_fs ({[ path ]} ∪ dirs (fs st)) (files (fs st))).

(** A step on the file system. *)
Definition on_fs (step : io unit) (st : storage) : storage :=
  mk_storage (saved_models st) (snd (step (fs st))).

(** Lines 184-192. *)
Definition model_info : dict json :=
  [ ("input_dim", JInt 376);
    ("action_dim", JInt 17);
    ("hidden_dim", JInt 64);
    ("architecture", JString "PPO");
    ("source", JString "CleanRL Humanoid-v4");
    ("actor_layers", JList [JInt 376; JInt 64; JInt 64; JInt 17]);
    ("critic_layers", JList [JInt 376; JInt 64; JInt 64; JInt 1]) ].

(** [save_tfjs_models(actor_model, critic_model, actor_logstd,
    output_dir)], lines 155-193. *)
Definition save_tfjs_models (actor_model critic_model : model)
    (actor_logstd : option tensor) (output_dir : string) (st : storage)
  : storage :=
  let st := on_fs (makedirs output_dir) st in
  (* Save actor model *)
  let actor_path := path_join output_dir "actor" in
  let st := saved_model_save actor_model actor_path st in
  (* Save critic model *)
  let critic_path := path_join output_dir "critic" in
  let st := saved_model_save critic_model critic_path st in
  (* Save actor_logstd as JSON *)
  let st :=
    match actor_logstd with
    | Some actor_logstd =>
        let logstd_path := path_join output_dir "actor_logstd.json" in
        on_fs (write_json logstd_path
                 (JObject [ ("shape", shape_list actor_logstd);
                            ("values", tolist actor_logstd) ])) st
    | None => st
    end in
  (* Save model info *)
  let info_path := path_join output_dir "model_info.json" in
  on_fs (write_json info_path (JObject model_info)) st.

(** Lines 204-220 of [main]: the models are created, converted and
    called on one random input; [actor_output[0][:5]] and
    [critic_output[0]] are evaluated for printing. The result holds the
    converted models and the log-standard-deviation. *)
Definition convert_and_test (be : backend) (names : naming)
    (glorot : string -> list nat -> tensor) (rng : nat -> float)
    (state_dict : gmap string tensor)
  : res (model * model * option tensor) :=
  (let models := create_tfjs_model names glorot state_dict in
   r <- convert_weights state_dict (fst models) (snd models) ;;
   let actor_model := fst (fst r) in
   let critic_model := snd (fst r) in
   let actor_logstd := snd r in
   let test_input := randn rng 0 [1; 376] in
   actor_output <- call_model be actor_model test_input ;;
   critic_output <- call_model be critic_model test_input ;;
   row <- index0 actor_output ;;
   slice_to 5 row ;;
   index0 critic_output ;;
   ret (actor_model, critic_model, actor_logstd))%res.

(** [main()], lines 195-231, from the loaded [state_dict] on. The
    [except Exception] clause swallows whatever was raised; the result
    is the exception it printed, if any. *)
Definition main (be : backend) (names : naming)
    (glorot : string -> list nat -> tensor)
    (rng : nat -> float) (state_dict : gmap string tensor) (st : storage)
  : option exn * storage :=
  let output_dir := "tfjs_models" in
  match convert_and_test be names glorot rng state_dict with
  | inl e => (Some e, st)
  | inr (actor_model, critic_model, actor_logstd) =>
      (None, save_tfjs_models actor_model critic_model actor_logstd
               output_dir st)
  end.

End ConvertWeightsMain.

(* ===================================================================== *)
(** * download-pretrained-humanoid.py *)
(* ===================================================================== *)

Module DownloadPretrainedHumanoid.
Import Py Json Torch OS.

(** What [torch.load] can return: a tensor, a dictionary, a module with a
    [state_dict()] method, or some other object. *)
#[warnings="-register-all"]
Inductive pyobj : Type :=
| PyTensor (t : tensor)
| PyDict (items : list (string * pyobj))
| PyModule (state : list (string * pyobj))
| PyOther.

(** Lines 62-81. *)
Definition layer_mapping : dict string :=
  [ ("actor.0.weight", "actor_fc1_weight");
    ("actor.0.bias", "actor_fc1_bias");
    ("actor.2.weight", "actor_fc2_weight");
    ("actor.2.bias", "actor_fc2_bias");
    ("actor.4.weight", "actor_fc3_weight");
    ("actor.4.bias", "actor_fc3_bias");
    ("actor_mean.weight", "actor_mean_weight");
    ("actor_mean.bias", "actor_mean_bias");
    ("actor_logstd", "actor_logstd");
    ("critic.0.weight", "critic_fc1_weight");
    ("critic.0.bias", "critic_fc1_bias");
    ("critic.2.weight", "critic_fc2_weight");
    ("critic.2.bias", "critic_fc2_bias");
    ("critic.4.weight", "critic_fc3_weight");
    ("critic.4.bias", "critic_fc3_bias") ].

(** Lines 52-56: where the state dict is taken from. *)
Definition state_dict_of (checkpoint : pyobj) : pyobj :=
  match checkpoint with
  | PyDict items =>
      match dict_get items "model_state_dict" with
      | Some sd => sd
      | None => checkpoint
      end
  | PyModule state => PyDict state
  | _ => checkpoint
  end.

(** [state_dict.items()] *)
Definition items_of (state_dict : pyobj) : res (list (string * pyobj)) :=
  match state_dict with
  | PyDict items => ret items
  | _ => raise (AttributeError "object has no attribute 'items'")
  end.

(** [layer_mapping.get(key, key)] *)
Definition save_key_of (key : string) : string :=
  dict_get_default layer_mapping key key.

(** Lines 84-89: the loop over the items, from [weights_json] on. *)
Fixpoint convert_each (items : list (string * pyobj))
    (weights_json : dict json) : dict json :=
  match items with
  | [] => weights_json
  | (key, PyTensor tensor) :: items' =>
      let save_key := save_key_of key in
      convert_each items'
        (dict_set weights_json save_key (tolist (numpy (detach tensor))))
  | _ :: items' => convert_each items' weights_json
  end.

(** Lines 99-111. *)
Definition metadata : dict json :=
  [ ("model", JString "PPO");
    ("environment", JString "Humanoid-v4");
    ("state_dim", JInt 376);
    ("action_dim", JInt 17);
    ("architecture",
      JObject [ ("actor_hidden_dims", JList [JInt 256; JInt 256]);
                ("critic_hidden_dims", JList [JInt 256; JInt 256]);
                ("activation", JString "tanh") ]);
    ("source", JString "CleanRL");
    ("training_steps", JInt 10000000) ].

(** [convert_to_tfjs_format(model_path)], lines 43-114, from the object
    [torch.load] returned on. *)
Definition convert_to_tfjs_format (checkpoint : pyobj) : io unit :=
  (let state_dict := state_dict_of checkpoint in
   let weights_json : dict json := [] in
   items <- lift (items_of state_dict) ;;
   let weights_json := convert_each items weights_json in
   let output_path := "pretrained_models/humanoid_ppo_weights.json" in
   write_json output_path (JObject weights_json) ;;
   write_json "pretrained_models/model_metadata.json" (JObject metadata))%io.

End DownloadPretrainedHumanoid.

(* ===================================================================== *)
(** * convert-weights-example.py *)
(* ===================================================================== *)

Module ConvertWeightsExample.
Import Py Json Torch OS.

(** A module of a [torch.nn.Sequential]: a linear layer with its
    [weight] and [bias], or a module without parameters (an
    activation). *)
Inductive module : Type :=
| Linear (weight bias : tensor)
| Activation.

(** What the script reads of [model.policy]: the two [Sequential]s of
    [mlp_extractor] and the two output layers. *)
Record policy : Type := mk_policy {
  policy_net : list module;
  extractor_value_net : list module;
  action_net : module;
  value_net : module
}.

(** [seq[i]] on a [Sequential] *)
Definition getitem (seq : list module) (i : nat) : res module :=
  match nth_error seq i with
  | Some m => ret m
  | None => raise (IndexError "index out of range")
  end.

(** [m.weight] and [m.bias] *)
Definition weight_of (m : module) : res tensor :=
  match m with
  | Linear weight _ => ret weight
  | Activation => raise (AttributeError "object has no attribute 'weight'")
  end.

Definition bias_of (m : module) : res tensor :=
  match m with
  | Linear _ bias => ret bias
  | Activation => raise (AttributeError "object has no attribute 'bias'")
  end.

(** [seq[i].weight.detach().numpy()] and [seq[i].bias.detach().numpy()] *)
Definition weight_at (seq : list module) (i : nat) : res tensor :=
  (m <- getitem seq i ;; w <- weight_of m ;; ret (numpy (detach w)))%res.

Definition bias_at (seq : list module) (i : nat) : res tensor :=
  (m <- getitem seq i ;; b <- bias_of m ;; ret (numpy (detach b)))%res.

(** Lines 25-41: the dictionary [weights], its entries evaluated in
    order. *)
Definition weights_of (p : policy) : res (dict tensor) :=
  (let weights : dict tensor := [] in
   t <- weight_at (policy_net p) 0 ;;
   let weights := dict_set weights "actor_fc1_weight" t in
   t <- bias_at (policy_net p) 0 ;;
   let weights := dict_set weights "actor_fc1_bias" t in
   t <- weight_at (policy_net p) 2 ;;
   let weights := dict_set weights "actor_fc2_weight" t in
   t <- bias_at (policy_net p) 2 ;;
   let weights := dict_set weights "actor_fc2_bias" t in
   w <- weight_of (action_net p) ;;
   let weights := dict_set weights "actor_mean_weight" (numpy (detach w)) in
   b <- bias_of (action_net p) ;;
   let weights := dict_set weights "actor_mean_bias" (numpy (detach b)) in
   t <- weight_at (extractor_value_net p) 0 ;;
   let weights := dict_set weights "value_fc1_weight" t in
   t <- bias_at (extractor_value_net p) 0 ;;
   let weights := dict_set weights "value_fc1_bias" t in
   t <- weight_at (extractor_value_net p) 2 ;;
   let weights := dict_set weights "value_fc2_weight" t in
   t <- bias_at (extractor_value_net p) 2 ;;
   let weights := dict_set weights "value_fc2_bias" t in
   w <- weight_of (value_net p) ;;
   let weights := dict_set weights "value_out_weight" (numpy (detach w)) in
   b <- bias_of (value_net p) ;;
   let weights := dict_set weights "value_out_bias" (numpy (detach b)) in
   ret weights)%res.

(** Lines 47-49: the loop over [weights.items()]. *)
Fixpoint tolist_each (items : list (string * tensor)) (weights_json : dict json)
  : dict json :=
  match items with
  | [] => weights_json
  | (key, value) :: items' =>
      tolist_each items' (dict_set weights_json key (tolist value))
  end.

(** [convert_sb3_to_tfjs()], lines 13-54, from the policy of the loaded
    model on. *)
Definition convert_sb3_to_tfjs (p : policy) : io unit :=
  (weights <- lift (weights_of p) ;;
   let weights_json := tolist_each weights [] in
   write_json "humanoid_ppo_weights.json" (JObject weights_json))%io.

End ConvertWeightsExample.

(* ===================================================================== *)
(** * The contract's vocabulary *)
(* ===================================================================== *)

Module Contract.
Import Py Json Torch OS.

(** The role of a checkpoint entry in the layer mapping. *)
Inductive role : Type := Kernel | Bias.

(** One line of the layer mapping of [convert_weights_v2.py]: the source
    key, the file and the field it is written to, and its role. *)
Record mapping_entry : Type := mk_entry {
  src_key : string;
  out_file : string;
  out_field : string;
  entry_role : role
}.

(** Lines 34-39 and 48-53 of [convert_weights_v2.py], as a table. *)
Definition layer_table : list mapping_entry :=
  [ mk_entry "actor_mean.0.weight" "actor_weights.json" "dense_1_kernel" Kernel;
    mk_entry "actor_mean.0.bias" "actor_weights.json" "dense_1_bias" Bias;
    mk_entry "actor_mean.2.weight" "actor_weights.json" "dense_2_kernel" Kernel;
    mk_entry "actor_mean.2.bias" "actor_weights.json" "dense_2_bias" Bias;
    mk_entry "actor_mean.4.weight" "actor_weights.json" "output_kernel" Kernel;
    mk_entry "actor_mean.4.bias" "actor_weights.json" "output_bias" Bias;
    mk_entry "critic.0.weight" "critic_weights.json" "dense_1_kernel" Kernel;
    mk_entry "critic.0.bias" "critic_weights.json" "dense_1_bias" Bias;
    mk_entry "critic.2.weight" "critic_weights.json" "dense_2_kernel" Kernel;
    mk_entry "critic.2.bias" "critic_weights.json" "dense_2_bias" Bias;
    mk_entry "critic.4.weight" "critic_weights.json" "output_kernel" Kernel;
    mk_entry "critic.4.bias" "critic_weights.json" "output_bias" Bias ].

Definition actor_keys : list string :=
  [ "actor_mean.0.weight"; "actor_mean.0.bias"; "actor_mean.2.weight";
    "actor_mean.2.bias"; "actor_mean.4.weight"; "actor_mean.4.bias" ].

Definition critic_keys : list string :=
  [ "critic.0.weight"; "critic.0.bias"; "critic.2.weight";
    "critic.2.bias"; "critic.4.weight"; "critic.4.bias" ].

(** The keys [extract_weights_to_json] looks up, in the order it does. *)
Definition required_keys : list string :=
  actor_keys ++ critic_keys ++ ["actor_logstd"].

(** The first key of [keys] that [state_dict] lacks. *)
Definition first_missing (state_dict : gmap string tensor)
    (keys : list string) : option string :=
  List.find (fun k => bool_decide (state_dict !! k = None)) keys.

(** The four files [extract_weights_to_json] writes. *)
Definition output_files : list string :=
  [ "actor_weights.json"; "critic_weights.json"; "actor_logstd.json";
    "model_info.json" ].

(** ** Shapes of JSON arrays *)

(** [j] is a list of [n] items. *)
Definition is_vector (j : json) (n : nat) : bool :=
  match j with
  | JList items => length items =? n
  | _ => false
  end.

(** Every row of [j] is a list of [c] items. *)
Definition rows_have_len (j : json) (c : nat) : bool :=
  match j with
  | JList rows => forallb (fun row => is_vector row c) rows
  | _ => false
  end.

(** [j] is a list of [r] rows of [c] items each. *)
Definition is_matrix (j : json) (r c : nat) : bool :=
  is_vector j r && rows_have_len j c.

(** The chaining invariant of a weight bundle: each kernel's second
    dimension is its bias's length, each kernel's first dimension is the
    second dimension of the one before, and the last one's second
    dimension is [out_dim]. *)
Definition chaining_invariant (bundle : dict json) (out_dim : nat) : bool :=
  match dict_get bundle "dense_1_kernel", dict_get bundle "dense_1_bias",
        dict_get bundle "dense_2_kernel", dict_get bundle "dense_2_bias",
        dict_get bundle "output_kernel", dict_get bundle "output_bias" with
  | Some k1, Some b1, Some k2, Some b2, Some k3, Some b3 =>
      match jlen b1, jlen b2, jlen b3 with
      | Some n1, Some n2, Some n3 =>
          rows_have_len k1 n1 && rows_have_len k2 n2 && rows_have_len k3 n3
          && is_vector k2 n1 && is_vector k3 n2
          && (n3 =? out_dim)
      | _, _, _ => false
      end
  | _, _, _, _, _, _ => false
  end.

(** ** Valid checkpoints *)

(** A linear layer of the source layout: a weight of shape
    [(out, in_dim)] and a bias of shape [(out,)]; the result is [out]. *)
Definition linear_shape (state_dict : gmap string tensor)
    (weight_key bias_key : string) (in_dim : nat) : option nat :=
  match state_dict !! weight_key, state_dict !! bias_key with
  | Some w, Some b =>
      match sizes w, sizes b with
      | [out; inn], [n] =>
          if (inn =? in_dim) && (n =? out) then Some out else None
      | _, _ => None
      end
  | _, _ => None
  end.

(** Three chained linear layers from [in_dim] to [out_dim]. *)
Definition valid_network (state_dict : gmap string tensor)
    (keys : list string) (in_dim out_dim : nat) : bool :=
  match keys with
  | [w0; b0; w2; b2; w4; b4] =>
      match linear_shape state_dict w0 b0 in_dim with
      | Some h1 =>
          match linear_shape state_dict w2 b2 h1 with
          | Some h2 =>
              match linear_shape state_dict w4 b4 h2 with
              | Some out => out =? out_dim
              | None => false
              end
          | None => false
          end
      | None => false
      end
  | _ => false
  end.

(** The input constraints of the converter, for the declared
    architecture (input 376, 17 actions, one value). *)
Definition valid_checkpoint (state_dict : gmap string tensor) : bool :=
  valid_network state_dict actor_keys 376 17
  && valid_network state_dict critic_keys 376 1
  && bool_decide (is_Some (state_dict !! "actor_logstd")).

(** ** The forward pass, as the specification words it *)

(** [h = activation(h . kernel + bias)] for every layer but the last,
    which has no activation. *)
Fixpoint forward (be : backend) (activation : tensor -> tensor)
    (layers : list (tensor * tensor)) (h : tensor) : res tensor :=
  match layers with
  | [] => ret h
  | (kernel, bias) :: rest =>
      (m <- matmul be h kernel ;;
       s <- add m bias ;;
       match rest with
       | [] => ret s
       | _ :: _ => forward be activation rest (activation s)
       end)%res
  end.

(** The layers of a network of the bundle, as the arrays that are
    serialised: transposed weights and biases, in depth order. *)
Definition bundle_layers (state_dict : gmap string tensor)
    (keys : list string) : option (list (tensor * tensor)) :=
  match keys with
  | [w0; b0; w2; b2; w4; b4] =>
      match state_dict !! w0, state_dict !! b0, state_dict !! w2,
            state_dict !! b2, state_dict !! w4, state_dict !! b4 with
      | Some tw0, Some tb0, Some tw2, Some tb2, Some tw4, Some tb4 =>
          Some [ (T tw0, tb0); (T tw2, tb2); (T tw4, tb4) ]
      | _, _, _, _, _, _ => None
      end
  | _ => None
  end.

(** ** What the converter leaves on storage *)

(** The bundle of one network: transposed weights and biases under the
    canonical names, in depth order. *)
Definition network_bundle (w0 b0 w2 b2 w4 b4 : tensor) : dict json :=
  [ ("dense_1_kernel", tolist (T w0)); ("dense_1_bias", tolist b0);
    ("dense_2_kernel", tolist (T w2)); ("dense_2_bias", tolist b2);
    ("output_kernel", tolist (T w4)); ("output_bias", tolist b4) ].

(** The file system once [doc] is stored at [path], and once the
    directory [d] exists. *)
Definition put_file (path : string) (doc : json) (fs : filesystem)
  : filesystem := snd (write_json path doc fs).

Definition put_dir (d : string) (fs : filesystem) : filesystem :=
  snd (makedirs d fs).

(** [p] is [d] or a path above it. *)
Definition above (p d : string) : Prop :=
  p = d \/ exists rest, d = p ++ "/" ++ rest.

(** [os.makedirs(d, exist_ok=True)] goes through on the storage [fs]:
    the path is not empty, and neither it nor a path above it is a
    file. *)
Definition can_be_made (d : string) (fs : filesystem) : Prop :=
  d <> "" /\ forall p, above p d -> files fs !! p = None.

(** The directory part [os.path.join] puts before a relative name. *)
Definition dir_prefix (a : string) : string :=
  if String.eqb a "" || endswith a "/" then a else a ++ "/".

(** The three documents computed from a checkpoint that holds every
    required key. *)
Definition actor_bundle (state_dict : gmap string tensor) : dict json :=
  network_bundle
    (state_dict !!! "actor_mean.0.weight") (state_dict !!! "actor_mean.0.bias")
    (state_dict !!! "actor_mean.2.weight") (state_dict !!! "actor_mean.2.bias")
    (state_dict !!! "actor_mean.4.weight") (state_dict !!! "actor_mean.4.bias").

Definition critic_bundle (state_dict : gmap string tensor) : dict json :=
  network_bundle
    (state_dict !!! "critic.0.weight") (state_dict !!! "critic.0.bias")
    (state_dict !!! "critic.2.weight") (state_dict !!! "critic.2.bias")
    (state_dict !!! "critic.4.weight") (state_dict !!! "critic.4.bias").

Definition logstd_document (state_dict : gmap string tensor) : dict json :=
  [ ("shape", shape_list (state_dict !!! "actor_logstd"));
    ("values", tolist (state_dict !!! "actor_logstd")) ].

(** Storage after the actor's file, and after the critic's file too. *)
Definition after_actor (state_dict : gmap string tensor) (d : string)
    (fs : filesystem) : filesystem :=
  put_file (path_join d "actor_weights.json") (JObject (actor_bundle state_dict))
           (put_dir d fs).

Definition after_critic (state_dict : gmap string tensor) (d : string)
    (fs : filesystem) : filesystem :=
  put_file (path_join d "critic_weights.json")
           (JObject (critic_bundle state_dict)) (after_actor state_dict d fs).

(** Storage after a complete conversion. *)
Definition converted (state_dict : gmap string tensor) (d : string)
    (fs : filesystem) : filesystem :=
  put_file (path_join d "model_info.json")
           (JObject ConvertWeightsV2.model_info)
    (put_file (path_join d "actor_logstd.json")
              (JObject (logstd_document state_dict))
              (after_critic state_dict d fs)).

(** Storage after a conversion that stopped at a missing key: the
    files of the networks before the one that lacks the key. *)
Definition interrupted (state_dict : gmap string tensor) (d : string)
    (fs : filesystem) : filesystem :=
  match first_missing state_dict actor_keys with
  | Some _ => put_dir d fs
  | None =>
      match first_missing state_dict critic_keys with
      | Some _ => after_actor state_dict d fs
      | None => after_critic state_dict d fs
      end
  end.

(** ** Transposed and copied arrays *)

(** The JSON array [v] lists the transpose of the matrix [t]: for a
    source of shape [(out, inn)] it has [inn] rows of [out] items, and
    its item [(i, j)] is item [(j, i)] of the source. *)
Definition is_transpose_of (v : json) (t : tensor) : Prop :=
  forall out inn, sizes t = [out; inn] ->
    is_matrix v inn out = true /\
    forall i j, i < inn -> j < out ->
      jget v [i; j] = Some (JFloat (get t [j; i])) /\
      jget (tolist t) [j; i] = Some (JFloat (get t [j; i])).

(** The JSON array [v] lists [t] as it is: for a vector of [n] items it
    has [n] items, and its item [i] is item [i] of the source. *)
Definition is_copy_of (v : json) (t : tensor) : Prop :=
  v = tolist t /\
  forall n, sizes t = [n] ->
    is_vector v n = true /\
    forall i, i < n -> jget v [i] = Some (JFloat (get t [i])).

(** ** The download script's output *)

(** The tensor that the loop of [convert_to_tfjs_format] leaves under
    the save key [s]: the last tensor-valued item saved under [s]. *)
Fixpoint last_tensor_for (items : list (string * DownloadPretrainedHumanoid.pyobj))
    (s : string) : option tensor :=
  match items with
  | [] => None
  | (key, v) :: items' =>
      match last_tensor_for items' s with
      | Some t => Some t
      | None =>
          match v with
          | DownloadPretrainedHumanoid.PyTensor t =>
              if String.eqb (DownloadPretrainedHumanoid.save_key_of key) s
              then Some t else None
          | _ => None
          end
      end
  end.

(** The JSON array [v] lists the matrix [t] in its own orientation: for
    a source of shape [(out, inn)] it has [out] rows of [inn] items, and
    its item [(i, j)] is item [(i, j)] of the source. *)
Definition keeps_orientation_of (v : json) (t : tensor) : Prop :=
  forall out inn, sizes t = [out; inn] ->
    is_matrix v out inn = true /\
    forall i j, i < out -> j < inn ->
      jget v [i; j] = Some (JFloat (get t [i; j])).

(** ** The TensorFlow models of [convert_weights.py] *)

(** The array [convert_weights] assigns for the checkpoint entry
    [pytorch_name] (lines 115-119): the transposed view for a name that
    contains [weight], the array itself otherwise. *)
Definition converted_array (pytorch_name : string) (t : tensor) : tensor :=
  if str_contains pytorch_name "weight" then T (numpy t) else numpy t.

(** The array [a] is the transposed view of the matrix [t]: for a
    source of shape [(out, inn)] it has shape [(inn, out)], and its
    element [(i, j)] is element [(j, i)] of the source. *)
Definition is_transposed_view_of (a t : tensor) : Prop :=
  a = T t /\
  forall out inn, sizes t = [out; inn] ->
    sizes a = [inn; out] /\ forall i j, get a [i; j] = get t [j; i].

(** A variable after [value] was assigned to it. *)
Definition with_value (value : tensor) (w : ConvertWeights.variable)
  : ConvertWeights.variable :=
  ConvertWeights.mk_variable (ConvertWeights.var_name w)
                             (ConvertWeights.var_shape w) value.

(** The mapping without the entries for the source key [k]. *)
Definition without_key (k : string) (items : list (string * string))
  : list (string * string) :=
  List.filter (fun it => negb (String.eqb (fst it) k)) items.

(** The JSON object that serialises three layers under the canonical
    names. *)
Definition layers_document (layers : list (tensor * tensor)) : dict json :=
  match layers with
  | [ (k1, b1); (k2, b2); (k3, b3) ] =>
      [ ("dense_1_kernel", tolist k1); ("dense_1_bias", tolist b1);
        ("dense_2_kernel", tolist k2); ("dense_2_bias", tolist b2);
        ("output_kernel", tolist k3); ("output_bias", tolist b3) ]
  | _ => []
  end.

(** ** Floating-point values *)

(** [ds'] is a broadcast view of [ds]: dimensions are kept, stretched
    from size 1 with stride 0, or added with stride 0. *)
Inductive broadcast_view : list (nat * nat) -> list (nat * nat) -> Prop :=
| view_nil : broadcast_view [] []
| view_added n ds ds' :
    broadcast_view ds ds' -> broadcast_view ds ((n, 0) :: ds')
| view_kept n k ds ds' :
    broadcast_view ds ds' -> broadcast_view ((n, k) :: ds) ((n, k) :: ds')
| view_stretched n k ds ds' :
    broadcast_view ds ds' -> broadcast_view ((1, k) :: ds) ((n, 0) :: ds').

Definition is_finite (x : float) : bool :=
  match x with
  | S754_zero _ | S754_finite _ _ _ => true
  | _ => false
  end.

Definition is_zero (x : float) : bool :=
  match x with
  | S754_zero _ => true
  | _ => false
  end.

(** Equal as values: identical, or two zeros whatever their signs. *)
Definition same_value (x y : float) : Prop :=
  x = y \/ (is_zero x = true /\ is_zero y = true).

(** ** Arrays of any rank *)

(** [j] is a nested list of floats of shape [sz]: a float for the empty
    shape, and otherwise a list of as many items as the first dimension
    says, each of the remaining shape. *)
Fixpoint has_shape (sz : list nat) (j : json) : bool :=
  match sz with
  | [] => match j with JFloat _ => true | _ => false end
  | n :: sz' =>
      match j with
      | JList items => (length items =? n) && forallb (has_shape sz') items
      | _ => false
      end
  end.

(** ** Back ends *)

(** The back end multiplies two matrices whose inner dimensions agree,
    as [torch.matmul] does: the product of an [(n, k)] and a [(k, m)]
    matrix is an [(n, m)] matrix. *)
Definition multiplies_matrices (be : backend) : Prop :=
  forall a b n k m, sizes a = [n; k] -> sizes b = [k; m] ->
    exists c, matmul be a b = inr c /\ sizes c = [n; m].

(** ** The architecture [create_tfjs_model] declares *)

(** A checkpoint of the widths of lines 30-32 of [convert_weights.py]
    (376 inputs, 64 hidden units, 17 actions, one value), in the source
    layout. *)
Definition declared_checkpoint (state_dict : gmap string tensor) : bool :=
  bool_decide (linear_shape state_dict "actor_mean.0.weight" "actor_mean.0.bias" 376 = Some 64)
  && bool_decide (linear_shape state_dict "actor_mean.2.weight" "actor_mean.2.bias" 64 = Some 64)
  && bool_decide (linear_shape state_dict "actor_mean.4.weight" "actor_mean.4.bias" 64 = Some 17)
  && bool_decide (linear_shape state_dict "critic.0.weight" "critic.0.bias" 376 = Some 64)
  && bool_decide (linear_shape state_dict "critic.2.weight" "critic.2.bias" 64 = Some 64)
  && bool_decide (linear_shape state_dict "critic.4.weight" "critic.4.bias" 64 = Some 1).

(** The variables carry the names of the Keras 2 API, those the keys of
    [weight_mapping] are mapped to. *)
Definition named_as_keras2 (names : ConvertWeights.naming) : Prop :=
  forall layer kind, names layer kind = layer ++ "/" ++ kind ++ ":0".

(** The variables carry the names of Keras 3. *)
Definition named_as_keras3 (names : ConvertWeights.naming) : Prop :=
  forall layer kind, names layer kind = kind.

(** All the variables of a model, in layer order. *)
Definition variables (m : ConvertWeights.model) : list ConvertWeights.variable :=
  flat_map ConvertWeights.weights m.

(** The variable holds an array of its declared shape. *)
Definition well_shaped (w : ConvertWeights.variable) : Prop :=
  sizes (ConvertWeights.var_value w) = ConvertWeights.var_shape w.

(** What a conversion must not change: the layers' names and, layer by
    layer, the names and the declared shapes of the variables. *)
Definition signature (m : ConvertWeights.model)
  : list (string * list (string * list nat)) :=
  map (fun l =>
         (ConvertWeights.layer_name l,
          map (fun w => (ConvertWeights.var_name w, ConvertWeights.var_shape w))
              (ConvertWeights.weights l)))
      m.

(** ** Converted models *)

(** The variable [w'] is what the pass for [prefix] may leave of the
    variable [w]: [w] itself, or [w] holding the converted array of a
    checkpoint entry mapped to its name, which has its declared shape. *)
Definition loaded_from (state_dict : gmap string tensor) (prefix : string)
    (w w' : ConvertWeights.variable) : Prop :=
  w' = w \/
  exists pn t,
    In (pn, ConvertWeights.var_name w) ConvertWeights.weight_mapping /\
    startswith pn prefix = true /\ state_dict !! pn = Some t /\
    ConvertWeights.var_shape w = sizes (converted_array pn t) /\
    w' = with_value (converted_array pn t) w.

(** A dense layer, its variables named as by the Keras 2 API, that holds
    the transposed view of the weight [w] and the bias [b]. *)
Definition loaded_layer (name : string) (in_dim units : nat) (w b : tensor)
  : ConvertWeights.layer :=
  ConvertWeights.mk_layer name
    [ ConvertWeights.mk_variable (name ++ "/kernel:0") [in_dim; units] (T w);
      ConvertWeights.mk_variable (name ++ "/bias:0") [units] b ].

(** The two models of [create_tfjs_model] with every variable holding
    its checkpoint tensor. *)
Definition loaded_actor (state_dict : gmap string tensor)
  : ConvertWeights.model :=
  [ ConvertWeights.Input "actor_input";
    loaded_layer "actor_dense_1" 376 64
      (state_dict !!! "actor_mean.0.weight") (state_dict !!! "actor_mean.0.bias");
    loaded_layer "actor_dense_2" 64 64
      (state_dict !!! "actor_mean.2.weight") (state_dict !!! "actor_mean.2.bias");
    loaded_layer "actor_mean" 64 17
      (state_dict !!! "actor_mean.4.weight") (state_dict !!! "actor_mean.4.bias") ].

Definition loaded_critic (state_dict : gmap string tensor)
  : ConvertWeights.model :=
  [ ConvertWeights.Input "critic_input";
    loaded_layer "critic_dense_1" 376 64
      (state_dict !!! "critic.0.weight") (state_dict !!! "critic.0.bias");
    loaded_layer "critic_dense_2" 64 64
      (state_dict !!! "critic.2.weight") (state_dict !!! "critic.2.bias");
    loaded_layer "critic_value" 64 1
      (state_dict !!! "critic.4.weight") (state_dict !!! "critic.4.bias") ].

(** The names the download script renames a key to, [actor_logstd],
    which keeps its name, apart. *)
Definition renamed_targets : list string :=
  List.filter (fun s => negb (String.eqb s "actor_logstd"))
              (map snd DownloadPretrainedHumanoid.layer_mapping).

(** The keys of the tensor-valued items of a state dict. *)
Definition tensor_keys (items : list (string * DownloadPretrainedHumanoid.pyobj))
  : list string :=
  flat_map (fun it => match snd it with
                      | DownloadPretrainedHumanoid.PyTensor _ => [fst it]
                      | _ => []
                      end) items.


(** ** The exported policy *)

(** The policy with each [Sequential] of its extractor cut after the
    third module: what lies beyond the second linear layer is gone. *)
Definition first_two_layers (p : ConvertWeightsExample.policy)
  : ConvertWeightsExample.policy :=
  ConvertWeightsExample.mk_policy
    (firstn 3 (ConvertWeightsExample.policy_net p))
    (firstn 3 (ConvertWeightsExample.extractor_value_net p))
    (ConvertWeightsExample.action_net p)
    (ConvertWeightsExample.value_net p).

End Contract.

(* ===================================================================== *)
(** * Example data *)
(* ===================================================================== *)

Module Examples.
Import Py Json Torch OS Contract.

(** The binary32 value of a small integer. *)
Definition f32_of_Z (n : Z) : float := binary_normalize prec emax n 0 false.

(** A contiguous tensor of the given shape whose element at flat
    position [k] is [base + k]. *)
Definition ramp (sz : list nat) (base : Z) : tensor :=
  of_values sz (map (fun k => f32_of_Z (base + Z.of_nat k))
                    (seq 0 (numel_of sz))).

(** A contiguous tensor of the given shape filled with [base]. *)
Definition filled (sz : list nat) (base : Z) : tensor :=
  of_values sz (repeat (f32_of_Z base) (numel_of sz)).

(** A checkpoint of the CleanRL layout with the given widths, its
    tensors built by [fill]. *)
Definition checkpoint (fill : list nat -> Z -> tensor)
    (input_dim hidden_dim action_dim : nat) : gmap string tensor :=
  list_to_map
    [ ("actor_mean.0.weight", fill [hidden_dim; input_dim] 1%Z);
      ("actor_mean.0.bias", fill [hidden_dim] 100%Z);
      ("actor_mean.2.weight", fill [hidden_dim; hidden_dim] 200%Z);
      ("actor_mean.2.bias", fill [hidden_dim] 300%Z);
      ("actor_mean.4.weight", fill [action_dim; hidden_dim] 400%Z);
      ("actor_mean.4.bias", fill [action_dim] 500%Z);
      ("critic.0.weight", fill [hidden_dim; input_dim] 600%Z);
      ("critic.0.bias", fill [hidden_dim] 700%Z);
      ("critic.2.weight", fill [hidden_dim; hidden_dim] 800%Z);
      ("critic.2.bias", fill [hidden_dim] 900%Z);
      ("critic.4.weight", fill [1; hidden_dim] 1000%Z);
      ("critic.4.bias", fill [1] 1100%Z);
      ("actor_logstd", fill [1; action_dim] 0%Z) ].

(** A small checkpoint: 3 inputs, 2 hidden units, 2 actions. *)
Definition sd_small : gmap string tensor := checkpoint ramp 3 2 2.

(** A checkpoint of the declared architecture. *)
Definition sd_full : gmap string tensor := checkpoint filled 376 64 17.

(** [sd_small] without the actor's last bias. *)
Definition sd_no_output_bias : gmap string tensor :=
  delete "actor_mean.4.bias" sd_small.

(** [sd_full] without the actor's last bias. *)
Definition sd_full_no_output_bias : gmap string tensor :=
  delete "actor_mean.4.bias" sd_full.

(** [sd_small] without the critic's first weight. *)
Definition sd_no_critic_weight : gmap string tensor :=
  delete "critic.0.weight" sd_small.

(** [sd_full] without the critic's first weight. *)
Definition sd_full_no_critic_weight : gmap string tensor :=
  delete "critic.0.weight" sd_full.

(** A checkpoint that holds every key but breaks the shape invariants:
    the first bias has 5 items for a weight of 2 rows, the second weight
    takes 7 inputs where the first layer gives 2, and the second bias is
    a matrix. *)
Definition sd_bad_shapes : gmap string tensor :=
  <[ "actor_mean.0.bias" := ramp [5] 100%Z ]>
    (<[ "actor_mean.2.weight" := ramp [4; 7] 200%Z ]>
       (<[ "actor_mean.2.bias" := ramp [2; 2] 300%Z ]> sd_small)).

(** [sd_full] with a first bias of shape (1, 64) and a second bias of
    one item: the forward pass of [test_weights] broadcasts both. *)
Definition sd_full_odd_biases : gmap string tensor :=
  <[ "actor_mean.0.bias" := filled [1; 64] 100%Z ]>
    (<[ "actor_mean.2.bias" := filled [1] 300%Z ]> sd_full).

(** [sd_small] with one more entry, outside the layer mapping. *)
Definition obs_mean : tensor := ramp [3] 4242%Z.
Definition sd_extra : gmap string tensor :=
  <[ "obs_rms.mean" := obs_mean ]> sd_small.

(** A stand-in back end for the examples: the product of two matrices
    with left-to-right accumulation; its [tanh] and [exp] at finite
    non-zero arguments are placeholders. *)
Definition example_matmul (a b : tensor) : res tensor :=
  match sizes a, sizes b with
  | [n; k], [k'; m] =>
      if k =? k' then
        ret (of_values [n; m]
               (flat_map (fun i =>
                  map (fun j =>
                    fold_left (fun acc l =>
                                 f32_add acc (f32_mul (get a [i; l]) (get b [l; j])))
                              (seq 0 k) f32_zero)
                      (seq 0 m))
                  (seq 0 n)))
      else raise (RuntimeError "mat1 and mat2 shapes cannot be multiplied")
  | _, _ => raise (RuntimeError "example_matmul: matrices only")
  end.

Definition example_backend : backend :=
  mk_backend example_matmul
             (fun s m e => S754_finite s m e)
             (fun _ _ _ => f32_one).

(** A generator that only ever draws zero. *)
Definition zero_rng : nat -> float := fun _ => f32_zero.

(** What [torch.load] may give the download script: a dictionary whose
    [model_state_dict] entry holds a weight of shape (2, 3), its bias,
    and a step counter that is not a tensor. *)
Definition loaded_checkpoint : DownloadPretrainedHumanoid.pyobj :=
  DownloadPretrainedHumanoid.PyDict
    [ ("model_state_dict",
       DownloadPretrainedHumanoid.PyDict
         [ ("actor.0.weight", DownloadPretrainedHumanoid.PyTensor (ramp [2; 3] 1%Z));
           ("actor.0.bias", DownloadPretrainedHumanoid.PyTensor (ramp [2] 100%Z));
           ("global_step", DownloadPretrainedHumanoid.PyOther) ]) ].

(** An initialiser for the examples: every kernel starts filled with 7. *)
Definition example_glorot (name : string) (sz : list nat) : tensor :=
  filled sz 7%Z.

(** The models as the Keras 2 API builds them. *)
Definition example_actor_model : ConvertWeights.model :=
  fst (ConvertWeights.create_tfjs_model ConvertWeights.keras2_names
         example_glorot sd_full).

Definition example_critic_model : ConvertWeights.model :=
  snd (ConvertWeights.create_tfjs_model ConvertWeights.keras2_names
         example_glorot sd_full).

(** A log-standard-deviation of shape (2,), as the data model of the
    specification has it; it broadcasts against a mean of shape (1, 2). *)
Definition logstd_vector : tensor := ramp [2] 0%Z.

(** An action mean [[1, 2]] and a log-standard-deviation [[nan, 0]],
    as a run of training that diverged leaves it. *)
Definition mean_example : tensor := ramp [1; 2] 1%Z.
Definition logstd_nan : tensor := of_values [1; 2] [S754_nan; f32_zero].

(** A Stable Baselines3 policy with two hidden layers of two units on
    three inputs, and the same policy with a third hidden layer. *)
Definition sb3_policy : ConvertWeightsExample.policy :=
  ConvertWeightsExample.mk_policy
    [ ConvertWeightsExample.Linear (ramp [2; 3] 1%Z) (ramp [2] 10%Z);
      ConvertWeightsExample.Activation;
      ConvertWeightsExample.Linear (ramp [2; 2] 20%Z) (ramp [2] 30%Z);
      ConvertWeightsExample.Activation ]
    [ ConvertWeightsExample.Linear (ramp [2; 3] 40%Z) (ramp [2] 50%Z);
      ConvertWeightsExample.Activation;
      ConvertWeightsExample.Linear (ramp [2; 2] 60%Z) (ramp [2] 70%Z);
      ConvertWeightsExample.Activation ]
    (ConvertWeightsExample.Linear (ramp [2; 2] 80%Z) (ramp [2] 90%Z))
    (ConvertWeightsExample.Linear (ramp [1; 2] 100%Z) (ramp [1] 110%Z)).

Definition sb3_deep_policy : ConvertWeightsExample.policy :=
  ConvertWeightsExample.mk_policy
    (ConvertWeightsExample.policy_net sb3_policy
     ++ [ ConvertWeightsExample.Linear (ramp [2; 2] 120%Z) (ramp [2] 130%Z);
          ConvertWeightsExample.Activation ])%list
    (ConvertWeightsExample.extractor_value_net sb3_policy)
    (ConvertWeightsExample.action_net sb3_policy)
    (ConvertWeightsExample.value_net sb3_policy).

(** A policy with a single hidden layer. *)
Definition sb3_shallow_policy : ConvertWeightsExample.policy :=
  ConvertWeightsExample.mk_policy
    (firstn 2 (ConvertWeightsExample.policy_net sb3_policy))
    (firstn 2 (ConvertWeightsExample.extractor_value_net sb3_policy))
    (ConvertWeightsExample.action_net sb3_policy)
    (ConvertWeightsExample.value_net sb3_policy).

Definition empty_fs : filesystem := mk_fs ∅ ∅.

(** Storage that holds one file, outside any output directory. *)
Definition fs_with_notes : filesystem :=
  mk_fs ∅ {[ "notes.json" := JString "keep" ]}.

(** [sd_full] with the log-standard-deviation as a plain vector of 17
    items, the shape the Weight Bundle gives it. *)
Definition sd_flat_logstd : gmap string tensor :=
  <[ "actor_logstd" := filled [17] 0%Z ]> sd_full.

(** [sd_full] with a log-standard-deviation of 16 items for 17
    actions. *)
Definition sd_short_logstd : gmap string tensor :=
  <[ "actor_logstd" := filled [1; 16] 0%Z ]> sd_full.

(** [sd_full] with a first actor weight that takes 100 inputs. *)
Definition sd_narrow_input : gmap string tensor :=
  <[ "actor_mean.0.weight" := filled [64; 100] 1%Z ]> sd_full.

(** [sd_small] laid out differently in memory: its first actor weight
    is the transposed view of a (3, 2) tensor holding the same numbers
    column by column. *)
Definition sd_small_strided : gmap string tensor :=
  <[ "actor_mean.0.weight" :=
       T (of_values [3; 2] (map f32_of_Z [1; 4; 2; 5; 3; 6]%Z)) ]> sd_small.

(** A state dict in which the key [actor_fc1_weight], which no mapping
    entry renames, meets [actor.0.weight], which is renamed to it. *)
Definition colliding_items : list (string * DownloadPretrainedHumanoid.pyobj) :=
  [ ("actor_fc1_weight", DownloadPretrainedHumanoid.PyTensor (ramp [2] 1%Z));
    ("actor.0.weight", DownloadPretrainedHumanoid.PyTensor (ramp [2; 3] 7%Z)) ].

(** A state dict as [torch.load] gives it for a CleanRL agent, cut down
    to three entries. *)
Definition cleanrl_items : list (string * DownloadPretrainedHumanoid.pyobj) :=
  [ ("critic.0.weight", DownloadPretrainedHumanoid.PyTensor (ramp [2; 3] 1%Z));
    ("actor_mean.0.weight", DownloadPretrainedHumanoid.PyTensor (ramp [2; 3] 7%Z));
    ("actor_logstd", DownloadPretrainedHumanoid.PyTensor (ramp [1; 2] 0%Z)) ].


End Examples.

(* ===================================================================== *)
(** * Properties *)
(* ===================================================================== *)

(* --------------------------------------------------------------------- *)
(** ** Tactics *)
(* --------------------------------------------------------------------- *)

(** Case analysis on the next dictionary look-up of the goal: the key is
    present with its value, or it is absent. *)
Ltac next_lookup :=
  match goal with
  | |- context [ConvertWeightsV2.getitem ?sd ?k] =>
      let E := fresh "E" in
      unfold ConvertWeightsV2.getitem at 1; rewrite (lookup_total_alt sd k);
      destruct (sd !! k) eqn:E; simpl
  end.

(** One step of a computation known to return: the next lookup found its
    key, the next operation did not raise. *)
Ltac run_step H :=
  match type of H with
  | Py.bind (ConvertWeightsV2.getitem ?sd ?k) _ = inr _ =>
      let E := fresh "E" in
      unfold ConvertWeightsV2.getitem at 1 in H;
      destruct (sd !! k) eqn:E; simpl in H; [| discriminate H]
  | Py.bind ?m _ = inr _ =>
      let E := fresh "R" in
      destruct m eqn:E; simpl in H; [discriminate H |]
  end.

(* --------------------------------------------------------------------- *)
(** ** The model at work *)
(* --------------------------------------------------------------------- *)

Section SanityChecks.
Import Py Json Torch OS Contract Examples.

(** The matrix [[1, 2, 3], [4, 5, 6]] and its transposed view. *)
Example tolist_of_a_matrix :
  tolist (ramp [2; 3] 1)
  = JList [ JList [JFloat (f32_of_Z 1); JFloat (f32_of_Z 2); JFloat (f32_of_Z 3)];
            JList [JFloat (f32_of_Z 4); JFloat (f32_of_Z 5); JFloat (f32_of_Z 6)] ].
Proof. vm_compute. reflexivity. Qed.

Example tolist_of_its_transpose :
  tolist (T (ramp [2; 3] 1))
  = JList [ JList [JFloat (f32_of_Z 1); JFloat (f32_of_Z 4)];
            JList [JFloat (f32_of_Z 2); JFloat (f32_of_Z 5)];
            JList [JFloat (f32_of_Z 3); JFloat (f32_of_Z 6)] ].
Proof. vm_compute. reflexivity. Qed.

Example transposing_a_vector_changes_nothing :
  T (ramp [3] 1) = ramp [3] 1.
Proof. reflexivity. Qed.

Example path_join_examples :
  path_join "weights_json" "actor_weights.json"
  = "weights_json/actor_weights.json" /\
  path_join "out/" "a.json" = "out/a.json" /\
  path_join "" "a.json" = "a.json" /\
  path_join "out" "/abs.json" = "/abs.json".
Proof. repeat split. Qed.

Example dict_set_examples :
  dict_set [("a", 1); ("b", 2)] "a" 3 = [("a", 3); ("b", 2)] /\
  dict_set [("a", 1); ("b", 2)] "c" 3 = [("a", 1); ("b", 2); ("c", 3)].
Proof. split; reflexivity. Qed.

Example str_contains_examples :
  str_contains "actor_mean.0.weight" "weight" = true /\
  str_contains "actor_mean.0.bias" "weight" = false /\
  startswith "actor_mean.0.bias" "actor_mean" = true /\
  startswith "critic.0.bias" "actor_mean" = false.
Proof. repeat split. Qed.

(** [(1, 2) + (2,)] broadcasts; [(2, 3) + (2,)] does not. *)
Example broadcasting_examples :
  broadcast_shapes [1; 2] [2] = Some [1; 2] /\
  broadcast_shapes [2; 3] [2] = None /\
  (elements <$> match add (ramp [2; 2] 1) (ramp [2] 10) with
                | inr t => Some t
                | inl _ => None
                end)
  = Some [f32_of_Z 11; f32_of_Z 13; f32_of_Z 13; f32_of_Z 15].
Proof. repeat split; vm_compute; reflexivity. Qed.

Example indexing_examples :
  (sizes <$> match index0 (ramp [1; 17] 0) with inr t => Some t | inl _ => None end)
  = Some [17] /\
  (exn_class <$> match ConvertWeightsV2.head5 (ramp [17] 0) with
                 | inl e => Some e
                 | inr _ => None
                 end) = Some "IndexError".
Proof. split; vm_compute; reflexivity. Qed.

(** The small checkpoint is converted into four files. *)
Example small_checkpoint_is_converted :
  fst (ConvertWeightsV2.extract_weights_to_json sd_small "out" empty_fs)
  = inr true /\
  dom (files (snd (ConvertWeightsV2.extract_weights_to_json sd_small "out"
                     empty_fs)))
  = list_to_set (map (path_join "out") output_files).
Proof. split; vm_compute; reflexivity. Qed.

End SanityChecks.

(* --------------------------------------------------------------------- *)
(** ** Tensors: listings and transposition *)
(* --------------------------------------------------------------------- *)

Section TensorFacts.
Import Py Json Torch Contract.

Lemma sizes_T t : sizes (T t) = rev (sizes t).
Proof. unfold sizes, T. simpl. apply map_rev. Qed.

Lemma matrix_dims t r c :
  sizes t = [r; c] -> exists s0 s1, dims t = [(r, s0); (c, s1)].
Proof.
  unfold sizes. destruct (dims t) as [|[r' s0] [|[c' s1] [|]]]; simpl;
    intros H; inversion H; subst. eauto.
Qed.

Lemma vector_dims t n : sizes t = [n] -> exists s0, dims t = [(n, s0)].
Proof.
  unfold sizes. destruct (dims t) as [|[n' s0] [|]]; simpl;
    intros H; inversion H; subst. eauto.
Qed.

Lemma map_seq_ext {A} (f g : nat -> A) start len :
  (forall i, start <= i < start + len -> f i = g i) ->
  map f (seq start len) = map g (seq start len).
Proof.
  intros H. apply map_ext_in. intros i Hi. apply in_seq in Hi. now apply H.
Qed.

(** A matrix is listed row by row. *)
Lemma tolist_matrix t r c :
  sizes t = [r; c] ->
  tolist t =
  JList (map (fun i => JList (map (fun j => JFloat (get t [i; j])) (seq 0 c)))
             (seq 0 r)).
Proof.
  intros H. destruct (matrix_dims t r c H) as (s0 & s1 & Hd).
  unfold tolist, get. rewrite Hd. simpl. f_equal.
  apply map_seq_ext. intros i _. f_equal.
  apply map_seq_ext. intros j _. do 2 f_equal. lia.
Qed.

Lemma tolist_vector t n :
  sizes t = [n] ->
  tolist t = JList (map (fun i => JFloat (get t [i])) (seq 0 n)).
Proof.
  intros H. destruct (vector_dims t n H) as (s0 & Hd).
  unfold tolist, get. rewrite Hd. simpl. f_equal.
  apply map_seq_ext. intros i _. do 2 f_equal. lia.
Qed.

(** Element [(i, j)] of the transposed view is element [(j, i)]. *)
Lemma get_T_matrix t r c i j :
  sizes t = [r; c] -> get (T t) [i; j] = get t [j; i].
Proof.
  intros H. destruct (matrix_dims t r c H) as (s0 & s1 & Hd).
  unfold get, T. rewrite Hd. simpl. f_equal. lia.
Qed.

Lemma nth_error_map_seq {A} (f : nat -> A) n i :
  i < n -> nth_error (map f (seq 0 n)) i = Some (f i).
Proof.
  intros Hi. rewrite nth_error_map, nth_error_seq.
  destruct (Nat.ltb_spec i n); [reflexivity | lia].
Qed.

Lemma jget_tolist_matrix t r c i j :
  sizes t = [r; c] -> i < r -> j < c ->
  jget (tolist t) [i; j] = Some (JFloat (get t [i; j])).
Proof.
  intros H Hi Hj. rewrite (tolist_matrix t r c H). simpl.
  rewrite nth_error_map_seq by assumption.
  now rewrite nth_error_map_seq by assumption.
Qed.

Lemma jget_tolist_vector t n i :
  sizes t = [n] -> i < n -> jget (tolist t) [i] = Some (JFloat (get t [i])).
Proof.
  intros H Hi. rewrite (tolist_vector t n H). simpl.
  now rewrite nth_error_map_seq by assumption.
Qed.

Lemma is_vector_tolist t n : sizes t = [n] -> is_vector (tolist t) n = true.
Proof.
  intros H. rewrite (tolist_vector t n H). simpl.
  rewrite length_map, length_seq. apply Nat.eqb_refl.
Qed.

Lemma jlen_tolist_vector t n : sizes t = [n] -> jlen (tolist t) = Some n.
Proof.
  intros H. rewrite (tolist_vector t n H). simpl.
  now rewrite length_map, length_seq.
Qed.

Lemma is_matrix_tolist t r c :
  sizes t = [r; c] -> is_matrix (tolist t) r c = true.
Proof.
  intros H. rewrite (tolist_matrix t r c H). unfold is_matrix. simpl.
  rewrite length_map, length_seq, Nat.eqb_refl. simpl.
  apply forallb_forall. intros row Hrow. apply in_map_iff in Hrow.
  destruct Hrow as (i & <- & _). simpl.
  rewrite length_map, length_seq. apply Nat.eqb_refl.
Qed.

Lemma is_matrix_parts j r c :
  is_matrix j r c = true -> is_vector j r = true /\ rows_have_len j c = true.
Proof. unfold is_matrix. intros H. now apply andb_prop in H. Qed.

End TensorFacts.

(* --------------------------------------------------------------------- *)
(** ** Tensors: element-wise operations *)
(* --------------------------------------------------------------------- *)

Section ElementFacts.
Import Py Json Torch Contract.

Lemma flat_map_ext_in {A B} (f g : A -> list B) (l : list A) :
  (forall x, In x l -> f x = g x) -> flat_map f l = flat_map g l.
Proof.
  induction l as [|x l IH]; intros H; simpl; [reflexivity |].
  rewrite (H x) by (simpl; tauto). f_equal. apply IH.
  intros y Hy. apply H. simpl. tauto.
Qed.

Lemma length_elements_at st ds off :
  length (elements_at st ds off) = numel_of (map fst ds).
Proof.
  revert off. induction ds as [|[n k] ds IH]; intros off; simpl;
    [reflexivity |].
  rewrite (flat_map_constant_length (c := numel_of (map fst ds))).
  - now rewrite length_seq.
  - intros i _. apply IH.
Qed.

Lemma length_elements t : length (elements t) = numel t.
Proof. apply length_elements_at. Qed.

Lemma length_contiguous_strides sz : length (contiguous_strides sz) = length sz.
Proof. induction sz; simpl; congruence. Qed.

Lemma sizes_of_values sz vals : sizes (of_values sz vals) = sz.
Proof.
  unfold sizes, of_values. simpl.
  assert (H := length_contiguous_strides sz).
  revert H. generalize (contiguous_strides sz).
  induction sz as [|n sz IH]; intros [|k ks]; simpl; try discriminate;
    [reflexivity |].
  intros [= H]. now rewrite IH.
Qed.

(** Consecutive chunks of a list, put end to end. *)
Lemma chunks_concat {A} (st : list A) m off n s :
  flat_map (fun i => take m (drop (off + i * m) st)) (seq s n)
  = take (n * m) (drop (off + s * m) st).
Proof.
  revert s. induction n as [|n IH]; intros s; simpl; [reflexivity |].
  rewrite IH. rewrite <- take_take_drop. f_equal.
  rewrite drop_drop. do 2 f_equal. lia.
Qed.

(** A contiguous view lists the storage in order. *)
Lemma elements_at_contiguous st sz off :
  off + numel_of sz <= length st ->
  elements_at st (combine sz (contiguous_strides sz)) off
  = take (numel_of sz) (drop off st).
Proof.
  revert off. induction sz as [|n sz IH]; intros off H; simpl in *.
  - destruct (drop off st) as [|x rest] eqn:E.
    + apply (f_equal length) in E. rewrite length_drop in E. simpl in E. lia.
    + simpl. f_equal. rewrite <- (Nat.add_0_r off), <- nth_skipn, E.
      reflexivity.
  - rewrite (flat_map_ext_in _
               (fun i => take (numel_of sz) (drop (off + i * numel_of sz) st))).
    + rewrite chunks_concat. do 2 f_equal. lia.
    + intros i Hi. apply in_seq in Hi. apply IH. nia.
Qed.

Lemma elements_of_values sz vals :
  length vals = numel_of sz -> elements (of_values sz vals) = vals.
Proof.
  intros H. unfold elements, of_values. simpl.
  rewrite elements_at_contiguous by lia.
  rewrite drop_0, <- H. apply firstn_all.
Qed.

(** An element-wise function keeps the shape and acts on each element. *)
Lemma map_tensor_elementwise f t :
  sizes (map_tensor f t) = sizes t /\
  elements (map_tensor f t) = map f (elements t).
Proof.
  unfold map_tensor. split; [apply sizes_of_values |].
  apply elements_of_values. rewrite length_map. apply length_elements.
Qed.

Lemma broadcast_rev_refl a : broadcast_rev a a = Some a.
Proof.
  induction a as [|x a IH]; simpl; [reflexivity |].
  now rewrite IH, Nat.eqb_refl.
Qed.

Lemma broadcast_shapes_refl sz : broadcast_shapes sz sz = Some sz.
Proof.
  unfold broadcast_shapes. rewrite broadcast_rev_refl. simpl.
  now rewrite rev_involutive.
Qed.

Lemma expand_rev_same ds : expand_rev ds (map fst ds) = ds.
Proof.
  induction ds as [|[s k] ds IH]; simpl; [reflexivity |].
  now rewrite Nat.eqb_refl, IH.
Qed.

Lemma expand_same t : expand t (sizes t) = t.
Proof.
  unfold expand, sizes. rewrite <- map_rev, expand_rev_same, rev_involutive.
  now destruct t.
Qed.

(** On two tensors of one shape, a binary operator acts element by
    element. *)
Lemma pointwise_same_sizes f a b :
  sizes a = sizes b ->
  pointwise f a b
  = inr (of_values (sizes a) (zip_with f (elements a) (elements b))).
Proof.
  intros H. unfold pointwise. rewrite <- H, broadcast_shapes_refl.
  rewrite expand_same. rewrite H at 2. rewrite expand_same. reflexivity.
Qed.

Lemma map_fst_expand_rev ds target : map fst (expand_rev ds target) = target.
Proof.
  revert ds. induction target as [|n target IH]; intros ds; simpl;
    [reflexivity |].
  destruct ds as [|[s k] ds]; simpl; now rewrite IH.
Qed.

Lemma sizes_expand t sz : sizes (expand t sz) = sz.
Proof.
  unfold sizes, expand. simpl.
  now rewrite map_rev, map_fst_expand_rev, rev_involutive.
Qed.

(** An operand is broadcast into the shape of the other one. *)
Lemma pointwise_into f a b :
  broadcast_shapes (sizes a) (sizes b) = Some (sizes b) ->
  pointwise f a b
  = inr (of_values (sizes b)
           (zip_with f (elements (expand a (sizes b))) (elements b))).
Proof.
  intros H. unfold pointwise. rewrite H. now rewrite (expand_same b).
Qed.

(** ** Broadcast views read nothing new *)

Lemma broadcast_view_elements st ds ds' :
  broadcast_view ds ds' ->
  forall off x, In x (elements_at st ds' off) -> In x (elements_at st ds off).
Proof.
  induction 1 as [| n ds ds' _ IH | n k ds ds' _ IH | n k ds ds' _ IH];
    intros off x Hx; simpl in *.
  - assumption.
  - apply in_flat_map in Hx as (i & _ & Hx).
    rewrite Nat.mul_0_r, Nat.add_0_r in Hx. now apply IH.
  - apply in_flat_map in Hx as (i & Hi & Hx).
    apply in_flat_map. exists i. split; [assumption | now apply IH].
  - apply in_flat_map in Hx as (i & _ & Hx).
    rewrite Nat.mul_0_r, Nat.add_0_r in Hx.
    rewrite app_nil_r. rewrite Nat.add_0_r. now apply IH.
Qed.

Lemma broadcast_view_snoc_added ds' n :
  broadcast_view [] ds' -> broadcast_view [] (ds' ++ [(n, 0)]).
Proof.
  induction ds' as [|[m k] ds' IH]; intros H; simpl.
  - apply view_added, view_nil.
  - inversion H; subst. apply view_added. now apply IH.
Qed.

Lemma broadcast_view_snoc_kept ds ds' n k :
  broadcast_view ds ds' ->
  broadcast_view (ds ++ [(n, k)]) (ds' ++ [(n, k)]).
Proof.
  induction 1; simpl.
  - apply view_kept, view_nil.
  - now apply view_added.
  - now apply view_kept.
  - now apply view_stretched.
Qed.

Lemma broadcast_view_snoc_stretched ds ds' n k :
  broadcast_view ds ds' ->
  broadcast_view (ds ++ [(1, k)]) (ds' ++ [(n, 0)]).
Proof.
  induction 1; simpl.
  - apply view_stretched, view_nil.
  - now apply view_added.
  - now apply view_kept.
  - now apply view_stretched.
Qed.

Lemma expand_rev_is_view rd rs :
  broadcast_rev (map fst rd) rs = Some rs ->
  broadcast_view (rev rd) (rev (expand_rev rd rs)).
Proof.
  revert rd. induction rs as [|n rs IH]; intros rd H.
  - destruct rd as [|[s k] rd]; [apply view_nil | discriminate H].
  - destruct rd as [|[s k] rd]; simpl in *.
    + apply broadcast_view_snoc_added. apply (IH []). reflexivity.
    + destruct (broadcast_rev (map fst rd) rs) as [r|] eqn:E;
        [| discriminate H].
      assert (Hr : r = rs /\ (s = n \/ s = 1)).
      { destruct (Nat.eqb_spec s n); [injection H as <- <-; auto |].
        destruct (Nat.eqb_spec s 1); [injection H as <-; auto |].
        destruct (Nat.eqb_spec n 1); [injection H as ? ?; lia | discriminate H]. }
      destruct Hr as [-> Hs]. specialize (IH rd E).
      destruct (Nat.eqb_spec s n) as [-> | Hne].
      * now apply broadcast_view_snoc_kept.
      * destruct Hs as [-> | ->]; [contradiction |].
        now apply broadcast_view_snoc_stretched.
Qed.

(** Every element of a tensor broadcast into [sz] is an element of the
    tensor. *)
Lemma elements_expand_In t sz x :
  broadcast_shapes (sizes t) sz = Some sz ->
  In x (elements (expand t sz)) -> In x (elements t).
Proof.
  unfold broadcast_shapes, sizes. intros H.
  destruct (broadcast_rev (rev (map fst (dims t))) (rev sz)) as [r|] eqn:E;
    [| discriminate H].
  simpl in H. injection H as H.
  assert (Hr : r = rev sz) by (rewrite <- H; now rewrite rev_involutive).
  subst r. rewrite <- map_rev in E.
  apply expand_rev_is_view in E. rewrite rev_involutive in E.
  unfold elements, expand. simpl.
  now apply broadcast_view_elements.
Qed.

Lemma length_zip_with_elements (f : float -> float -> float) a b :
  sizes a = sizes b ->
  length (zip_with f (elements a) (elements b)) = numel_of (sizes a).
Proof.
  intros H. rewrite length_zip_with, !length_elements. unfold numel.
  rewrite H. apply Nat.min_id.
Qed.

Lemma randn_like_sizes rng pos t : sizes (randn_like rng pos t) = sizes t.
Proof. apply sizes_of_values. Qed.

Lemma randn_like_elements rng pos t :
  elements (randn_like rng pos t) = map rng (seq pos (numel t)).
Proof.
  apply elements_of_values. now rewrite length_map, length_seq.
Qed.

(** ** Adding a zero product *)

Lemma add_zero_product (m s z : float) :
  is_finite s = true -> is_zero z = true ->
  same_value (f32_add m (f32_mul s z)) m.
Proof.
  unfold same_value.
  destruct s as [ss | ss | | ss sm se]; try discriminate;
    destruct z as [sz | sz | | sz zm ze]; try discriminate; intros _ _;
    destruct m as [ms | ms | | ms mm me]; simpl; auto;
    destruct ms, (xorb ss sz); simpl; auto.
Qed.

End ElementFacts.

(* --------------------------------------------------------------------- *)
(** ** Dictionaries *)
(* --------------------------------------------------------------------- *)

Section DictFacts.
Import Py.
Context {V : Type}.

Lemma dict_get_set (d : dict V) k v k' :
  dict_get (dict_set d k v) k' =
  if String.eqb k k' then Some v else dict_get d k'.
Proof.
  induction d as [|[k0 v0] d IH]; simpl.
  - reflexivity.
  - destruct (String.eqb_spec k0 k) as [-> | Hne]; simpl.
    + destruct (String.eqb k k'); reflexivity.
    + rewrite IH. destruct (String.eqb_spec k0 k') as [-> | Hne'];
        [| reflexivity].
      destruct (String.eqb_spec k k'); [congruence | reflexivity].
Qed.

End DictFacts.

(* --------------------------------------------------------------------- *)
(** ** convert_weights_v2.py: look-ups, paths, stages *)
(* --------------------------------------------------------------------- *)

Section V2Facts.
Import Py Json Torch OS ConvertWeightsV2 Contract.

(** ** Paths *)

Lemma string_app_assoc (a b c : string) :
  ((a ++ b) ++ c)%string = (a ++ (b ++ c))%string.
Proof.
  induction a as [|ch a IH]; [reflexivity |].
  change (String ch ((a ++ b) ++ c) = String ch (a ++ (b ++ c)))%string.
  now rewrite IH.
Qed.

Lemma path_join_relative a b :
  startswith b "/" = false -> path_join a b = (dir_prefix a ++ b)%string.
Proof.
  intros H. unfold path_join, dir_prefix. rewrite H.
  destruct (String.eqb a "" || endswith a "/"); [reflexivity |].
  now rewrite string_app_assoc.
Qed.

Lemma path_join_inj a b c :
  startswith b "/" = false -> startswith c "/" = false ->
  path_join a b = path_join a c -> b = c.
Proof.
  intros Hb Hc. rewrite !path_join_relative by assumption.
  apply String.app_inj.
Qed.

(** ** Missing keys *)

Lemma first_missing_Some (sd : gmap string tensor) keys k :
  first_missing sd keys = Some k -> In k keys /\ sd !! k = None.
Proof.
  unfold first_missing. intros H. apply find_some in H as [Hin Hk].
  split; [assumption |]. now apply bool_decide_eq_true in Hk.
Qed.

Lemma first_missing_None (sd : gmap string tensor) keys :
  first_missing sd keys = None ->
  forall k, In k keys -> sd !! k = Some (sd !!! k).
Proof.
  unfold first_missing. intros H k Hin.
  pose proof (find_none _ _ H k Hin) as Hk. simpl in Hk.
  apply bool_decide_eq_false in Hk. rewrite lookup_total_alt.
  destruct (sd !! k); [reflexivity | contradiction].
Qed.

Lemma first_missing_exists (sd : gmap string tensor) keys k :
  In k keys -> sd !! k = None -> exists k', first_missing sd keys = Some k'.
Proof.
  intros Hin Hk. destruct (first_missing sd keys) as [k'|] eqn:E; [eauto |].
  rewrite (first_missing_None sd keys E k Hin) in Hk. discriminate.
Qed.

Lemma first_missing_app (sd : gmap string tensor) ks1 ks2 :
  first_missing sd (ks1 ++ ks2) =
  match first_missing sd ks1 with
  | Some k => Some k
  | None => first_missing sd ks2
  end.
Proof.
  unfold first_missing. induction ks1 as [|k ks1 IH]; simpl; [reflexivity |].
  destruct (bool_decide (sd !! k = None)); [reflexivity | apply IH].
Qed.

(** ** The three documents *)

Lemma actor_weights_of_cases sd :
  actor_weights_of sd =
  match first_missing sd actor_keys with
  | Some k => inl (KeyError k)
  | None =>
      inr (actor_bundle sd)
  end.
Proof.
  unfold actor_weights_of, first_missing, actor_keys, actor_bundle. simpl.
  repeat (next_lookup; [|reflexivity]).
  reflexivity.
Qed.

Lemma critic_weights_of_cases sd :
  critic_weights_of sd =
  match first_missing sd critic_keys with
  | Some k => inl (KeyError k)
  | None =>
      inr (critic_bundle sd)
  end.
Proof.
  unfold critic_weights_of, first_missing, critic_keys, critic_bundle. simpl.
  repeat (next_lookup; [|reflexivity]).
  reflexivity.
Qed.

Lemma actor_logstd_of_cases sd :
  actor_logstd_of sd =
  match first_missing sd ["actor_logstd"] with
  | Some k => inl (KeyError k)
  | None =>
      inr (logstd_document sd)
  end.
Proof.
  unfold actor_logstd_of, first_missing, logstd_document. simpl.
  unfold getitem. rewrite (lookup_total_alt sd "actor_logstd").
  destruct (sd !! "actor_logstd") eqn:E; reflexivity.
Qed.

(** ** The converter, stage by stage *)

Lemma extract_cases sd d fs :
  extract_weights_to_json sd d fs =
  match actor_weights_of sd with
  | inl e => (inl e, put_dir d fs)
  | inr a =>
      let fs1 := put_file (path_join d "actor_weights.json") (JObject a)
                          (put_dir d fs) in
      match critic_weights_of sd with
      | inl e => (inl e, fs1)
      | inr c =>
          let fs2 := put_file (path_join d "critic_weights.json") (JObject c)
                              fs1 in
          match actor_logstd_of sd with
          | inl e => (inl e, fs2)
          | inr l =>
              (inr true,
               put_file (path_join d "model_info.json") (JObject model_info)
                 (put_file (path_join d "actor_logstd.json") (JObject l) fs2))
          end
      end
  end.
Proof.
  unfold extract_weights_to_json, io_bind, lift, put_file, put_dir. simpl.
  destruct (actor_weights_of sd); [reflexivity |].
  destruct (critic_weights_of sd); [reflexivity |].
  destruct (actor_logstd_of sd); reflexivity.
Qed.

(** The converter's result and the storage it leaves, in one equation. *)
Lemma extract_outcome sd d fs :
  extract_weights_to_json sd d fs =
  match first_missing sd required_keys with
  | None => (inr true, converted sd d fs)
  | Some k => (inl (KeyError k), interrupted sd d fs)
  end.
Proof.
  rewrite extract_cases. unfold required_keys, interrupted, converted,
    after_critic, after_actor.
  rewrite !first_missing_app.
  rewrite actor_weights_of_cases, critic_weights_of_cases,
    actor_logstd_of_cases.
  destruct (first_missing sd actor_keys); [reflexivity |].
  destruct (first_missing sd critic_keys); [reflexivity |].
  destruct (first_missing sd ["actor_logstd"]); reflexivity.
Qed.

End V2Facts.

(** Two output files of one directory have different paths. *)
Ltac path_neq :=
  let H := fresh in
  intros H; apply path_join_inj in H;
  [discriminate H | reflexivity | reflexivity].

(* --------------------------------------------------------------------- *)
(** ** convert_weights_v2.py: storage *)
(* --------------------------------------------------------------------- *)

Section V2Storage.
Import Py Json Torch OS ConvertWeightsV2 Contract.

Lemma files_after_actor sd d fs :
  files (after_actor sd d fs) =
  <[ path_join d "actor_weights.json" := JObject (actor_bundle sd) ]> (files fs).
Proof. reflexivity. Qed.

Lemma files_after_critic sd d fs :
  files (after_critic sd d fs) =
  <[ path_join d "critic_weights.json" := JObject (critic_bundle sd) ]>
    (files (after_actor sd d fs)).
Proof. reflexivity. Qed.

Lemma files_converted sd d fs :
  files (converted sd d fs) =
  <[ path_join d "model_info.json" := JObject model_info ]>
    (<[ path_join d "actor_logstd.json" := JObject (logstd_document sd) ]>
       (files (after_critic sd d fs))).
Proof. reflexivity. Qed.

Lemma converted_actor_file sd d fs :
  files (converted sd d fs) !! path_join d "actor_weights.json"
  = Some (JObject (actor_bundle sd)).
Proof.
  rewrite files_converted, files_after_critic, files_after_actor.
  rewrite !lookup_insert_ne by path_neq. apply lookup_insert_eq.
Qed.

Lemma converted_critic_file sd d fs :
  files (converted sd d fs) !! path_join d "critic_weights.json"
  = Some (JObject (critic_bundle sd)).
Proof.
  rewrite files_converted, files_after_critic.
  rewrite !lookup_insert_ne by path_neq. apply lookup_insert_eq.
Qed.

Lemma converted_logstd_file sd d fs :
  files (converted sd d fs) !! path_join d "actor_logstd.json"
  = Some (JObject (logstd_document sd)).
Proof.
  rewrite files_converted.
  rewrite !lookup_insert_ne by path_neq. apply lookup_insert_eq.
Qed.

Lemma converted_info_file sd d fs :
  files (converted sd d fs) !! path_join d "model_info.json"
  = Some (JObject model_info).
Proof. rewrite files_converted. apply lookup_insert_eq. Qed.

(** A path that is none of the four output paths keeps its content. *)
Lemma converted_other_file sd d fs p :
  ~ In p (map (path_join d) output_files) ->
  files (converted sd d fs) !! p = files fs !! p.
Proof.
  intros Hp. simpl in Hp.
  rewrite files_converted, files_after_critic, files_after_actor.
  rewrite !lookup_insert_ne; [reflexivity | | | |]; intros <-; tauto.
Qed.

Lemma extract_inr sd d fs b fs' :
  extract_weights_to_json sd d fs = (inr b, fs') ->
  first_missing sd required_keys = None /\ b = true /\ fs' = converted sd d fs.
Proof.
  rewrite extract_outcome.
  destruct (first_missing sd required_keys); intros H; inversion H; auto.
Qed.

Lemma extract_inl sd d fs e fs' :
  extract_weights_to_json sd d fs = (inl e, fs') ->
  exists k, first_missing sd required_keys = Some k /\ e = KeyError k
            /\ fs' = interrupted sd d fs.
Proof.
  rewrite extract_outcome.
  destruct (first_missing sd required_keys) as [k|]; intros H; inversion H.
  eauto.
Qed.

(** ** Transposition *)

Lemma tolist_T_is_transpose t : is_transpose_of (tolist (T t)) t.
Proof.
  intros out inn H.
  assert (HT : sizes (T t) = [inn; out]) by (rewrite sizes_T, H; reflexivity).
  split; [now apply is_matrix_tolist |].
  intros i j Hi Hj. split.
  - rewrite (jget_tolist_matrix _ _ _ _ _ HT Hi Hj).
    now rewrite (get_T_matrix t out inn).
  - now apply (jget_tolist_matrix t out inn).
Qed.

Lemma tolist_is_copy t : is_copy_of (tolist t) t.
Proof.
  split; [reflexivity |]. intros n H. split; [now apply is_vector_tolist |].
  intros i Hi. now apply (jget_tolist_vector t n).
Qed.

End V2Storage.

(* --------------------------------------------------------------------- *)
(** ** convert_weights_v2.py: test_weights and main *)
(* --------------------------------------------------------------------- *)

Section V2Main.
Import Py Json Torch OS ConvertWeightsV2 Contract.

(** A forward pass that returns has found its six keys. *)
Lemma actor_forward_inr be sd x out :
  actor_forward be sd x = inr out -> first_missing sd actor_keys = None.
Proof.
  unfold actor_forward. intros H.
  repeat run_step H.
  unfold first_missing, actor_keys. simpl.
  repeat match goal with E : _ !! _ = Some _ |- _ => rewrite E; clear E end.
  reflexivity.
Qed.

Lemma critic_forward_inr be sd x out :
  critic_forward be sd x = inr out -> first_missing sd critic_keys = None.
Proof.
  unfold critic_forward. intros H.
  repeat run_step H.
  unfold first_missing, critic_keys. simpl.
  repeat match goal with E : _ !! _ = Some _ |- _ => rewrite E; clear E end.
  reflexivity.
Qed.

(** [test_weights] looks up every key the converter needs: when it
    returns, none is missing. *)
Lemma test_weights_inr be rng sd u :
  test_weights be rng sd = inr u -> first_missing sd required_keys = None.
Proof.
  unfold test_weights. intros H.
  destruct (actor_forward be sd (randn rng 0 [1; 376])) as [e|out] eqn:Ha;
    [discriminate H |].
  simpl in H. run_step H.
  destruct (critic_forward be sd (randn rng 0 [1; 376])) as [e|cout] eqn:Hc;
    [discriminate H |].
  simpl in H. run_step H. run_step H.
  unfold required_keys. rewrite !first_missing_app.
  rewrite (actor_forward_inr _ _ _ _ Ha), (critic_forward_inr _ _ _ _ Hc).
  unfold first_missing. simpl.
  match goal with E : _ !! _ = Some _ |- _ => rewrite E end. reflexivity.
Qed.

(** With a key missing, [main] stops in [test_weights], before the
    converter runs: storage is left as it was. *)
Lemma main_missing_key be rng sd fs k :
  first_missing sd required_keys = Some k ->
  exists e, main be rng sd fs = (Some e, fs).
Proof.
  intros Hk. unfold main.
  destruct (test_weights be rng sd) as [e|u] eqn:Ht; [eauto |].
  apply test_weights_inr in Ht. congruence.
Qed.

(** Whatever the generator draws, [main] either leaves storage alone or
    leaves what the converter leaves. *)
Lemma main_cases be rng sd fs :
  main be rng sd fs
  = match test_weights be rng sd with
    | inl e => (Some e, fs)
    | inr _ => (None, converted sd "weights_json" fs)
    end.
Proof.
  unfold main. destruct (test_weights be rng sd) as [e|u] eqn:Ht;
    [reflexivity |].
  apply test_weights_inr in Ht. rewrite extract_outcome, Ht. reflexivity.
Qed.

End V2Main.

(* --------------------------------------------------------------------- *)
(** ** convert_weights_v2.py: frames and shapes *)
(* --------------------------------------------------------------------- *)

Section V2Frames.
Import Py Json Torch OS ConvertWeightsV2 Contract.

Lemma fs_eq (a b : filesystem) :
  dirs a = dirs b -> files a = files b -> a = b.
Proof. destruct a, b. simpl. now intros -> ->. Qed.

Lemma dirs_converted sd d fs : dirs (converted sd d fs) = {[ d ]} ∪ dirs fs.
Proof. reflexivity. Qed.

Lemma dirs_interrupted sd d fs : dirs (interrupted sd d fs) = {[ d ]} ∪ dirs fs.
Proof.
  unfold interrupted.
  destruct (first_missing sd actor_keys); [reflexivity |].
  destruct (first_missing sd critic_keys); reflexivity.
Qed.

(** What a complete conversion stores at an output path does not depend
    on what storage held before. *)
Lemma converted_output_file sd d fs1 fs2 q :
  In q (map (path_join d) output_files) ->
  files (converted sd d fs1) !! q = files (converted sd d fs2) !! q.
Proof.
  intros Hq. simpl in Hq. destruct Hq as [<- | [<- | [<- | [<- | []]]]].
  - now rewrite !converted_actor_file.
  - now rewrite !converted_critic_file.
  - now rewrite !converted_logstd_file.
  - now rewrite !converted_info_file.
Qed.

Lemma converted_idempotent sd d fs :
  converted sd d (converted sd d fs) = converted sd d fs.
Proof.
  apply fs_eq.
  - rewrite !dirs_converted. now rewrite (assoc_L (∪)), (idemp_L (∪)).
  - apply map_eq. intros q.
    destruct (decide (In q (map (path_join d) output_files))) as [Hq | Hq].
    + now apply converted_output_file.
    + now rewrite converted_other_file.
Qed.

Lemma files_interrupted sd d fs :
  files (interrupted sd d fs) =
  match first_missing sd actor_keys with
  | Some _ => files fs
  | None =>
      match first_missing sd critic_keys with
      | Some _ =>
          <[ path_join d "actor_weights.json" := JObject (actor_bundle sd) ]>
            (files fs)
      | None =>
          <[ path_join d "critic_weights.json" := JObject (critic_bundle sd) ]>
            (<[ path_join d "actor_weights.json" := JObject (actor_bundle sd) ]>
               (files fs))
      end
  end.
Proof.
  unfold interrupted.
  destruct (first_missing sd actor_keys); [reflexivity |].
  destruct (first_missing sd critic_keys); reflexivity.
Qed.

Lemma interrupted_idempotent sd d fs :
  interrupted sd d (interrupted sd d fs) = interrupted sd d fs.
Proof.
  apply fs_eq.
  - rewrite !dirs_interrupted. now rewrite (assoc_L (∪)), (idemp_L (∪)).
  - rewrite !files_interrupted.
    destruct (first_missing sd actor_keys); [reflexivity |].
    destruct (first_missing sd critic_keys).
    + apply insert_insert_eq.
    + apply map_eq. intros q. rewrite !lookup_insert.
      repeat case_decide; reflexivity.
Qed.

(** Two checkpoints that agree on the required keys are converted alike. *)
Lemma extract_agree sd1 sd2 d fs :
  (forall k, In k required_keys -> sd1 !! k = sd2 !! k) ->
  extract_weights_to_json sd1 d fs = extract_weights_to_json sd2 d fs.
Proof.
  intros H.
  assert (Hg : forall k, In k required_keys -> getitem sd1 k = getitem sd2 k).
  { intros k Hk. unfold getitem. now rewrite (H k Hk). }
  rewrite !extract_cases.
  assert (Ha : actor_weights_of sd1 = actor_weights_of sd2).
  { unfold actor_weights_of. rewrite !Hg by (simpl; tauto). reflexivity. }
  assert (Hc : critic_weights_of sd1 = critic_weights_of sd2).
  { unfold critic_weights_of. rewrite !Hg by (simpl; tauto). reflexivity. }
  assert (Hl : actor_logstd_of sd1 = actor_logstd_of sd2).
  { unfold actor_logstd_of. rewrite !Hg by (simpl; tauto). reflexivity. }
  now rewrite Ha, Hc, Hl.
Qed.

End V2Frames.

Section V2Shapes.
Import Py Json Torch OS ConvertWeightsV2 Contract.

Lemma linear_shape_Some (sd : gmap string tensor) wk bk inn out :
  linear_shape sd wk bk inn = Some out ->
  exists w b, sd !! wk = Some w /\ sd !! bk = Some b /\
              sizes w = [out; inn] /\ sizes b = [out].
Proof.
  unfold linear_shape.
  destruct (sd !! wk) as [w|]; [| discriminate].
  destruct (sd !! bk) as [b|]; [| discriminate].
  destruct (sizes w) as [|o [|i [|]]] eqn:Sw; try discriminate.
  destruct (sizes b) as [|n [|]] eqn:Sb; try discriminate.
  destruct (Nat.eqb_spec i inn); [| discriminate].
  destruct (Nat.eqb_spec n o); [| discriminate].
  simpl. intros [= <-]. subst. exists w, b. repeat split; assumption.
Qed.

Lemma rows_have_len_tolist_T w out inn :
  sizes w = [out; inn] -> rows_have_len (tolist (T w)) out = true.
Proof.
  intros H. apply (is_matrix_parts _ inn).
  apply is_matrix_tolist. rewrite sizes_T, H. reflexivity.
Qed.

Lemma is_vector_tolist_T w out inn :
  sizes w = [out; inn] -> is_vector (tolist (T w)) inn = true.
Proof.
  intros H. apply (is_matrix_parts _ inn out).
  apply is_matrix_tolist. rewrite sizes_T, H. reflexivity.
Qed.

(** Three chained layers of the source layout give a chained bundle. *)
Lemma network_bundle_chained w0 b0 w2 b2 w4 b4 inn h1 h2 out :
  sizes w0 = [h1; inn] -> sizes b0 = [h1] ->
  sizes w2 = [h2; h1] -> sizes b2 = [h2] ->
  sizes w4 = [out; h2] -> sizes b4 = [out] ->
  chaining_invariant (network_bundle w0 b0 w2 b2 w4 b4) out = true.
Proof.
  intros Hw0 Hb0 Hw2 Hb2 Hw4 Hb4.
  unfold chaining_invariant, network_bundle.
  cbn -[tolist T jlen rows_have_len is_vector Nat.eqb].
  rewrite (jlen_tolist_vector _ _ Hb0), (jlen_tolist_vector _ _ Hb2),
    (jlen_tolist_vector _ _ Hb4).
  rewrite (rows_have_len_tolist_T _ _ _ Hw0), (rows_have_len_tolist_T _ _ _ Hw2),
    (rows_have_len_tolist_T _ _ _ Hw4).
  rewrite (is_vector_tolist_T _ _ _ Hw2), (is_vector_tolist_T _ _ _ Hw4).
  rewrite Nat.eqb_refl. reflexivity.
Qed.

Lemma valid_network_chained sd w0 b0 w2 b2 w4 b4 inn out :
  valid_network sd [w0; b0; w2; b2; w4; b4] inn out = true ->
  first_missing sd [w0; b0; w2; b2; w4; b4] = None /\
  chaining_invariant
    (network_bundle (sd !!! w0) (sd !!! b0) (sd !!! w2) (sd !!! b2)
                    (sd !!! w4) (sd !!! b4)) out = true.
Proof.
  unfold valid_network.
  destruct (linear_shape sd w0 b0 inn) as [h1|] eqn:E1; [| discriminate].
  destruct (linear_shape sd w2 b2 h1) as [h2|] eqn:E2; [| discriminate].
  destruct (linear_shape sd w4 b4 h2) as [o|] eqn:E3; [| discriminate].
  intros Ho. apply Nat.eqb_eq in Ho. subst o.
  apply linear_shape_Some in E1 as (tw0 & tb0 & Hw0 & Hb0 & Sw0 & Sb0).
  apply linear_shape_Some in E2 as (tw2 & tb2 & Hw2 & Hb2 & Sw2 & Sb2).
  apply linear_shape_Some in E3 as (tw4 & tb4 & Hw4 & Hb4 & Sw4 & Sb4).
  split.
  - unfold first_missing. simpl.
    rewrite Hw0, Hb0, Hw2, Hb2, Hw4, Hb4. reflexivity.
  - rewrite !lookup_total_alt, Hw0, Hb0, Hw2, Hb2, Hw4, Hb4. simpl.
    now apply (network_bundle_chained _ _ _ _ _ _ inn h1 h2 out).
Qed.

End V2Shapes.

(* --------------------------------------------------------------------- *)
(** ** convert_weights.py *)
(* --------------------------------------------------------------------- *)

Section V1Facts.
Import Py Json Torch ConvertWeights Contract.

Lemma find_app {A} (p : A -> bool) (l1 l2 : list A) :
  List.find p (l1 ++ l2) =
  match List.find p l1 with
  | Some x => Some x
  | None => List.find p l2
  end.
Proof.
  induction l1 as [|x l1 IH]; simpl; [reflexivity |].
  destruct (p x); [reflexivity | apply IH].
Qed.

(** ** Only [assign] can fail *)

Lemma assign_inl w value e :
  assign w value = inl e -> exn_class e = "ValueError".
Proof.
  unfold assign. destruct (bool_decide _); [discriminate |].
  now intros [= <-].
Qed.

Lemma assign_inr w value w' :
  assign w value = inr w' -> w' = with_value value w.
Proof.
  unfold assign. destruct (bool_decide _); [| discriminate].
  now intros [= <-].
Qed.

Lemma assign_in_weights_inl ws tf_name value e :
  assign_in_weights ws tf_name value = inl e -> exn_class e = "ValueError".
Proof.
  induction ws as [|w ws IH]; simpl; [discriminate |].
  destruct (String.eqb (var_name w) tf_name).
  - destruct (assign w value) as [e'|w'] eqn:E; simpl; [| discriminate].
    intros [= <-]. now apply assign_inl in E.
  - destruct (assign_in_weights ws tf_name value) as [e'|ws'];
      simpl; [| discriminate].
    intros [= <-]. now apply IH.
Qed.

Lemma assign_in_layers_inl ls tf_name value e :
  assign_in_layers ls tf_name value = inl e -> exn_class e = "ValueError".
Proof.
  induction ls as [|l ls IH]; simpl; [discriminate |].
  destruct (assign_in_weights (weights l) tf_name value) as [e'|ws] eqn:E;
    simpl.
  - intros [= <-]. now apply assign_in_weights_inl in E.
  - destruct (assign_in_layers ls tf_name value) as [e'|ls']; simpl;
      [| discriminate].
    intros [= <-]. now apply IH.
Qed.

Lemma convert_items_inl prefix sd items m e :
  convert_items prefix sd items m = inl e -> exn_class e = "ValueError".
Proof.
  revert m. induction items as [|[pn tn] items IH]; intros m; simpl;
    [discriminate |].
  destruct (startswith pn prefix); [| apply IH].
  destruct (sd !! pn) as [t|]; [| apply IH].
  destruct (assign_in_layers m tn _) as [e'|m'] eqn:E; simpl; [| apply IH].
  intros [= <-]. now apply assign_in_layers_inl in E.
Qed.

(** [convert_weights] raises nothing for a missing key: whatever it
    raises comes from [weight.assign]. *)
Lemma convert_weights_inl sd am cm e :
  convert_weights sd am cm = inl e -> exn_class e = "ValueError".
Proof.
  unfold convert_weights.
  destruct (convert_items "actor_mean" sd weight_mapping am) as [e'|am'] eqn:Ea;
    cbv beta iota delta [bind].
  - intros [= <-]. now apply convert_items_inl in Ea.
  - destruct (convert_items "critic" sd weight_mapping cm) as [e'|cm'] eqn:Ec;
      cbv beta iota delta [bind ret]; [| discriminate].
    intros [= <-]. now apply convert_items_inl in Ec.
Qed.

(** ** Absent keys are skipped *)

Lemma convert_items_skip prefix sd items m k :
  sd !! k = None ->
  convert_items prefix sd (without_key k items) m
  = convert_items prefix sd items m.
Proof.
  intros Hk. revert m.
  induction items as [|[pn tn] items IH]; intros m; simpl; [reflexivity |].
  destruct (String.eqb_spec pn k) as [-> | Hne]; simpl.
  - rewrite Hk. destruct (startswith k prefix); apply IH.
  - destruct (startswith pn prefix); [| apply IH].
    destruct (sd !! pn) as [t|]; [| apply IH].
    destruct (assign_in_layers m tn _) as [e'|m']; simpl;
      [reflexivity | apply IH].
Qed.

(** ** What an assignment changes *)

Lemma assign_in_weights_find ws tf_name value ws' name :
  assign_in_weights ws tf_name value = inr ws' ->
  List.find (fun w => String.eqb (var_name w) name) ws' =
  if String.eqb tf_name name
  then option_map (with_value value)
         (List.find (fun w => String.eqb (var_name w) tf_name) ws)
  else List.find (fun w => String.eqb (var_name w) name) ws.
Proof.
  revert ws'. induction ws as [|w ws IH]; intros ws'; simpl.
  - intros [= <-]. simpl. destruct (String.eqb tf_name name); reflexivity.
  - destruct (String.eqb_spec (var_name w) tf_name) as [Hw | Hw].
    + destruct (assign w value) as [e|w'] eqn:E; simpl; [discriminate |].
      intros [= <-]. apply assign_inr in E. subst w'. simpl.
      rewrite Hw. destruct (String.eqb tf_name name); reflexivity.
    + destruct (assign_in_weights ws tf_name value) as [e|ws''] eqn:E;
        simpl; [discriminate |].
      intros [= <-]. simpl. rewrite (IH ws'' eq_refl).
      destruct (String.eqb_spec (var_name w) name) as [Hn | Hn];
        [| reflexivity].
      destruct (String.eqb_spec tf_name name); [congruence | reflexivity].
Qed.

Lemma assign_in_layers_find ls tf_name value ls' name :
  assign_in_layers ls tf_name value = inr ls' ->
  find_variable ls' name =
  if String.eqb tf_name name
  then option_map (with_value value) (find_variable ls tf_name)
  else find_variable ls name.
Proof.
  unfold find_variable. revert ls'.
  induction ls as [|l ls IH]; intros ls'; simpl.
  - intros [= <-]. simpl. destruct (String.eqb tf_name name); reflexivity.
  - destruct (assign_in_weights (weights l) tf_name value) as [e|ws] eqn:E;
      simpl; [discriminate |].
    destruct (assign_in_layers ls tf_name value) as [e|ls''] eqn:E';
      simpl; [discriminate |].
    intros [= <-]. simpl. rewrite !find_app.
    rewrite (assign_in_weights_find _ _ _ _ name E), (IH ls'' eq_refl).
    destruct (String.eqb tf_name name); [| reflexivity].
    destruct (List.find _ (weights l)); reflexivity.
Qed.

Lemma convert_items_find_other prefix sd items m m' name :
  convert_items prefix sd items m = inr m' ->
  ~ In name (map snd items) ->
  find_variable m' name = find_variable m name.
Proof.
  revert m. induction items as [|[pn tn] items IH]; intros m; simpl.
  - now intros [= <-].
  - intros H Hn.
    assert (Htn : tn <> name) by tauto.
    assert (Hrest : ~ In name (map snd items)) by tauto.
    destruct (startswith pn prefix); [| now apply IH].
    destruct (sd !! pn) as [t|]; [| now apply IH].
    destruct (assign_in_layers m tn _) as [e|m1] eqn:E; simpl in H;
      [discriminate |].
    rewrite (IH m1 H Hrest), (assign_in_layers_find _ _ _ _ name E).
    destruct (String.eqb_spec tn name); [congruence | reflexivity].
Qed.

(** After a pass over a mapping whose target names are distinct, the
    variable of an entry whose key is present holds the converted array,
    under its old name and shape. *)
Lemma convert_items_find prefix sd items m m' pn tn t :
  NoDup (map snd items) ->
  convert_items prefix sd items m = inr m' ->
  In (pn, tn) items -> startswith pn prefix = true -> sd !! pn = Some t ->
  find_variable m' tn
  = option_map (with_value (converted_array pn t)) (find_variable m tn).
Proof.
  revert m. induction items as [|[pn0 tn0] items IH]; intros m Hnd H Hin Hp Ht;
    simpl in *; [contradiction |].
  apply NoDup_cons in Hnd as [Hfresh Hnd].
  rewrite list_elem_of_In in Hfresh.
  destruct Hin as [[= -> ->] | Hin].
  - rewrite Hp, Ht in H.
    destruct (assign_in_layers m tn _) as [e|m1] eqn:E; simpl in H;
      [discriminate |].
    rewrite (convert_items_find_other _ _ _ _ _ tn H Hfresh).
    rewrite (assign_in_layers_find _ _ _ _ tn E), String.eqb_refl.
    reflexivity.
  - assert (Hne : tn0 <> tn).
    { intros ->. apply Hfresh. apply in_map_iff. now exists (pn, tn). }
    destruct (startswith pn0 prefix); [| now apply IH].
    destruct (sd !! pn0) as [t0|]; [| now apply IH].
    destruct (assign_in_layers m tn0 _) as [e|m1] eqn:E; simpl in H;
      [discriminate |].
    rewrite (IH m1 Hnd H Hin Hp Ht), (assign_in_layers_find _ _ _ _ tn E).
    destruct (String.eqb_spec tn0 tn); [congruence | reflexivity].
Qed.

Lemma weight_mapping_NoDup : NoDup (map snd weight_mapping).
Proof.
  apply (bool_decide_unpack _). vm_compute. exact I.
Qed.

End V1Facts.

(* --------------------------------------------------------------------- *)
(** ** download-pretrained-humanoid.py *)
(* --------------------------------------------------------------------- *)

Section DownloadFacts.
Import Py Json Torch OS DownloadPretrainedHumanoid Contract.

(** The loop's result, field by field. *)
Lemma convert_each_get items acc s :
  dict_get (convert_each items acc) s =
  match last_tensor_for items s with
  | Some t => Some (tolist t)
  | None => dict_get acc s
  end.
Proof.
  revert acc. induction items as [|[key v] items IH]; intros acc; simpl.
  - reflexivity.
  - destruct v as [t | | |]; rewrite IH;
      destruct (last_tensor_for items s); try reflexivity.
    rewrite dict_get_set. unfold numpy, detach.
    destruct (String.eqb (save_key_of key) s); reflexivity.
Qed.

Lemma last_tensor_for_In items s t :
  last_tensor_for items s = Some t ->
  exists key, In (key, PyTensor t) items /\ save_key_of key = s.
Proof.
  induction items as [|[key v] items IH]; simpl; [discriminate |].
  destruct (last_tensor_for items s) as [t'|].
  - intros [= ->]. destruct (IH eq_refl) as (key' & Hin & Hs). eauto.
  - destruct v as [t' | | |]; try discriminate.
    destruct (String.eqb_spec (save_key_of key) s); [| discriminate].
    intros [= ->]. eauto.
Qed.

Lemma last_tensor_for_exists items key t :
  In (key, PyTensor t) items ->
  exists t', last_tensor_for items (save_key_of key) = Some t'.
Proof.
  induction items as [|[key0 v] items IH]; simpl; [contradiction |].
  intros [[= -> ->] | Hin].
  - destruct (last_tensor_for items (save_key_of key)); [eauto |].
    rewrite String.eqb_refl. eauto.
  - destruct (IH Hin) as [t' ->]. eauto.
Qed.

Lemma tolist_keeps_orientation t : keeps_orientation_of (tolist t) t.
Proof.
  intros out inn H. split; [now apply is_matrix_tolist |].
  intros i j Hi Hj. now apply (jget_tolist_matrix t out inn).
Qed.

Lemma convert_to_tfjs_format_inr ck fs u fs' :
  convert_to_tfjs_format ck fs = (inr u, fs') ->
  exists items,
    items_of (state_dict_of ck) = inr items /\
    files fs' !! "pretrained_models/humanoid_ppo_weights.json"
    = Some (JObject (convert_each items [])).
Proof.
  unfold convert_to_tfjs_format, io_bind, lift, write_json.
  destruct (items_of (state_dict_of ck)) as [e | items]; [discriminate |].
  intros [= _ <-]. exists items. split; [reflexivity |]. simpl.
  rewrite lookup_insert_ne by discriminate. apply lookup_insert_eq.
Qed.

End DownloadFacts.

(* --------------------------------------------------------------------- *)
(** ** The properties of the specification *)
(* --------------------------------------------------------------------- *)

(** No field of a dictionary with literal keys holds the value sought. *)
Ltac no_such_field Hf f :=
  repeat (match type of Hf with
          | (if String.eqb ?a f then _ else _) = _ =>
              destruct (String.eqb a f);
              [vm_compute in Hf; discriminate Hf |]
          end);
  discriminate Hf.

Section Claim1.
Import Py Json Torch OS Contract Examples.

Lemma T_is_transposed_view t : is_transposed_view_of (T t) t.
Proof.
  split; [reflexivity |]. intros out inn H. split.
  - rewrite sizes_T, H. reflexivity.
  - intros i j. now apply (get_T_matrix t out inn).
Qed.

(** C1. Both converters honour every line of their layer mapping.

    [extract_weights_to_json]: whenever it completes, the source key is
    present and the file of its network holds an object whose field of
    the canonical name is, for a kernel, the transpose of the source
    matrix (shape [(in, out)], item [(i, j)] equal to item [(j, i)] of
    the source) and, for a bias, the source array itself, element for
    element.

    [convert_weights]: whenever it completes, the variable named by a
    mapping entry whose key is present holds, under its old name and
    shape, the transposed view of the source for a [weight] entry and
    the source array itself for a [bias] entry. *)
Theorem kernel_is_transpose_and_bias_is_copy :
  (forall (sd : gmap string tensor) (d : string) (fs fs' : filesystem),
     ConvertWeightsV2.extract_weights_to_json sd d fs = (inr true, fs') ->
     forall e, In e layer_table ->
       exists (t : tensor) (o : dict json) (v : json),
         sd !! src_key e = Some t /\
         files fs' !! path_join d (out_file e) = Some (JObject o) /\
         dict_get o (out_field e) = Some v /\
         match entry_role e with
         | Kernel => v = tolist (T t) /\ is_transpose_of v t
         | Bias => is_copy_of v t
         end)
  /\
  (forall (sd : gmap string tensor) (am cm am' cm' : ConvertWeights.model)
          (l : option tensor),
     ConvertWeights.convert_weights sd am cm = inr (am', cm', l) ->
     forall pn tn t,
       In (pn, tn) ConvertWeights.weight_mapping -> sd !! pn = Some t ->
       (startswith pn "actor_mean" = true ->
        ConvertWeights.find_variable am' tn
        = option_map (with_value (converted_array pn t))
                     (ConvertWeights.find_variable am tn)) /\
       (startswith pn "critic" = true ->
        ConvertWeights.find_variable cm' tn
        = option_map (with_value (converted_array pn t))
                     (ConvertWeights.find_variable cm tn)) /\
       (str_contains pn "weight" = true ->
        is_transposed_view_of (converted_array pn t) t) /\
       (str_contains pn "weight" = false -> converted_array pn t = t)).
Proof.
  split.
  - intros sd d fs fs' H e He.
    apply extract_inr in H as (Hk & _ & ->).
    pose proof (first_missing_None sd required_keys Hk) as Hget.
    simpl in He.
    repeat (destruct He as [<- | He];
      [ eexists _, _, _; simpl; split; [apply Hget; simpl; tauto |];
        split; [first [apply converted_actor_file
                      | apply converted_critic_file] |];
        split; [reflexivity |];
        first [ split; [reflexivity | apply tolist_T_is_transpose]
              | apply tolist_is_copy ]
      | ]).
    contradiction.
  - intros sd am cm am' cm' l H pn tn t Hin Ht.
    unfold ConvertWeights.convert_weights in H.
    destruct (ConvertWeights.convert_items "actor_mean" sd _ am)
      as [e|am1] eqn:Ea; cbv beta iota delta [bind] in H; [discriminate |].
    destruct (ConvertWeights.convert_items "critic" sd _ cm)
      as [e|cm1] eqn:Ec; cbv beta iota delta [bind ret] in H; [discriminate |].
    injection H as <- <- _.
    split; [| split; [| split]].
    + intros Hp.
      now apply (convert_items_find _ _ _ _ _ _ _ _ weight_mapping_NoDup Ea).
    + intros Hp.
      now apply (convert_items_find _ _ _ _ _ _ _ _ weight_mapping_NoDup Ec).
    + unfold converted_array, numpy. intros ->. apply T_is_transposed_view.
    + unfold converted_array, numpy. intros ->. reflexivity.
Qed.

Lemma example_models_are_converted :
  match ConvertWeights.convert_weights sd_full
          example_actor_model example_critic_model with
  | inr _ => true
  | inl _ => false
  end = true.
Proof. vm_compute. reflexivity. Qed.

Lemma kernel_is_transpose_witness :
  (exists (t : tensor) (o : dict json) (v : json),
     sd_small !! "actor_mean.0.weight" = Some t /\
     files (converted sd_small "out" empty_fs) !! "out/actor_weights.json"
       = Some (JObject o) /\
     dict_get o "dense_1_kernel" = Some v /\
     v = tolist (T t) /\ is_transpose_of v t)
  /\
  match ConvertWeights.convert_weights sd_full
          example_actor_model example_critic_model with
  | inr (am', _, _) =>
      ConvertWeights.find_variable am' "actor_mean/kernel:0"
      = option_map (with_value (converted_array "actor_mean.4.weight"
                                  (filled [17; 64] 400)))
                   (ConvertWeights.find_variable example_actor_model
                                                 "actor_mean/kernel:0")
  | inl _ => False
  end.
Proof.
  split.
  - apply (proj1 kernel_is_transpose_and_bias_is_copy sd_small "out" empty_fs
             (converted sd_small "out" empty_fs)
             ltac:(vm_compute; reflexivity)
             (mk_entry "actor_mean.0.weight" "actor_weights.json"
                       "dense_1_kernel" Kernel)
             ltac:(simpl; tauto)).
  - pose proof example_models_are_converted as Hc.
    destruct (ConvertWeights.convert_weights sd_full
                example_actor_model example_critic_model)
      as [e | [[am' cm'] l]] eqn:E; [discriminate Hc |].
    apply (proj1 (proj2 kernel_is_transpose_and_bias_is_copy sd_full
              example_actor_model example_critic_model am' cm' l E
              "actor_mean.4.weight" "actor_mean/kernel:0"
              (filled [17; 64] 400)
              ltac:(simpl; tauto) ltac:(vm_compute; reflexivity))).
    vm_compute. reflexivity.
Defined.

End Claim1.

Section Claim2.
Import Py Json Torch OS Contract Examples.

(** C2, counterexample. [sd_full_no_output_bias] lacks
    [actor_mean.4.bias]. [extract_weights_to_json] raises a [KeyError],
    the only exception it has, and no [MissingParameterError];
    [convert_weights] completes normally, the bias of the actor's last
    layer still holding the zeros it was created with. *)
Lemma missing_key_is_a_keyerror_or_goes_unnoticed :
  sd_full_no_output_bias !! "actor_mean.4.bias" = None /\
  fst (ConvertWeightsV2.extract_weights_to_json sd_full_no_output_bias
         "out" empty_fs)
  = inl (KeyError "actor_mean.4.bias") /\
  exn_class (KeyError "actor_mean.4.bias") <> "MissingParameterError" /\
  match ConvertWeights.convert_weights sd_full_no_output_bias
          example_actor_model example_critic_model with
  | inr (am, _, _) =>
      option_map ConvertWeights.var_value
        (ConvertWeights.find_variable am "actor_mean/bias:0")
      = Some (of_values [17] (repeat f32_zero 17))
  | inl _ => False
  end.
Proof.
  split; [vm_compute; reflexivity |].
  split.
  { rewrite extract_outcome.
    replace (first_missing sd_full_no_output_bias required_keys)
      with (Some "actor_mean.4.bias") by (vm_compute; reflexivity).
    reflexivity. }
  split; [discriminate |].
  vm_compute. reflexivity.
Qed.

(** C2, as amended. For a checkpoint that lacks a key the converter
    looks up: [extract_weights_to_json] never completes; it raises
    [KeyError] naming the first absent key in the order of its look-ups.
    [convert_weights] skips an absent key, as if the mapping had no
    entry for it, and raises nothing on its account: the only exception
    it can raise is the [ValueError] of an assignment. *)
Theorem missing_key_raises_keyerror_or_is_skipped :
  forall (sd : gmap string tensor) (d : string) (fs : filesystem)
         (k : string) (am cm : ConvertWeights.model),
    In k required_keys -> sd !! k = None ->
    (exists k' fs',
       ConvertWeightsV2.extract_weights_to_json sd d fs
       = (inl (KeyError k'), fs') /\
       first_missing sd required_keys = Some k' /\
       In k' required_keys /\ sd !! k' = None)
    /\ (forall prefix m,
          ConvertWeights.convert_items prefix sd
            (without_key k ConvertWeights.weight_mapping) m
          = ConvertWeights.convert_items prefix sd
              ConvertWeights.weight_mapping m)
    /\ (forall e, ConvertWeights.convert_weights sd am cm = inl e ->
                  exn_class e = "ValueError").
Proof.
  intros sd d fs k am cm Hin Hk. repeat split.
  - destruct (first_missing_exists sd required_keys k Hin Hk) as [k' Hk'].
    exists k', (interrupted sd d fs).
    rewrite extract_outcome, Hk'.
    apply first_missing_Some in Hk' as Hk''. tauto.
  - intros prefix m. now apply convert_items_skip.
  - intros e. apply convert_weights_inl.
Qed.

Lemma missing_key_raises_keyerror_or_is_skipped_witness :
  (exists k' fs',
     ConvertWeightsV2.extract_weights_to_json sd_no_output_bias "out" empty_fs
     = (inl (KeyError k'), fs') /\
     first_missing sd_no_output_bias required_keys = Some k' /\
     In k' required_keys /\ sd_no_output_bias !! k' = None)
  /\ (forall prefix m,
        ConvertWeights.convert_items prefix sd_no_output_bias
          (without_key "actor_mean.4.bias" ConvertWeights.weight_mapping) m
        = ConvertWeights.convert_items prefix sd_no_output_bias
            ConvertWeights.weight_mapping m)
  /\ (forall e, ConvertWeights.convert_weights sd_no_output_bias
                  example_actor_model example_critic_model = inl e ->
                exn_class e = "ValueError").
Proof.
  apply (missing_key_raises_keyerror_or_is_skipped sd_no_output_bias "out"
           empty_fs "actor_mean.4.bias"
           example_actor_model example_critic_model).
  - simpl. tauto.
  - vm_compute. reflexivity.
Defined.

End Claim2.

Section Claim3.
Import Py Json Torch OS ConvertWeightsV2 Contract Examples.

(** C3, counterexample. [sd_bad_shapes] holds every key and breaks three
    shape invariants (a bias of 5 items for a weight of 2 rows, a second
    layer that takes 7 inputs after a first layer of 2 units, a bias
    that is a matrix); the converter returns [True] all the same and
    stores the four documents. [sd_full_odd_biases], of the declared
    architecture but for a bias of shape (1, 64) and a bias of one item
    where 64 are due, even passes [test_weights]: [main] reports no
    failure and stores the conversion. *)
Lemma shape_violations_are_not_reported :
  (sizes <$> sd_bad_shapes !! "actor_mean.0.weight" = Some [2; 3] /\
   sizes <$> sd_bad_shapes !! "actor_mean.0.bias" = Some [5] /\
   sizes <$> sd_bad_shapes !! "actor_mean.2.weight" = Some [4; 7] /\
   sizes <$> sd_bad_shapes !! "actor_mean.2.bias" = Some [2; 2] /\
   valid_network sd_bad_shapes actor_keys 3 2 = false /\
   extract_weights_to_json sd_bad_shapes "out" empty_fs
   = (inr true, converted sd_bad_shapes "out" empty_fs))
  /\
  (sizes <$> sd_full_odd_biases !! "actor_mean.0.bias" = Some [1; 64] /\
   sizes <$> sd_full_odd_biases !! "actor_mean.2.weight" = Some [64; 64] /\
   sizes <$> sd_full_odd_biases !! "actor_mean.2.bias" = Some [1] /\
   valid_checkpoint sd_full_odd_biases = false /\
   main example_backend zero_rng sd_full_odd_biases empty_fs
   = (None, converted sd_full_odd_biases "weights_json" empty_fs)).
Proof.
  split.
  - repeat split; vm_compute; reflexivity.
  - split; [vm_compute; reflexivity |].
    split; [vm_compute; reflexivity |].
    split; [vm_compute; reflexivity |].
    split; [vm_compute; reflexivity |].
    rewrite main_cases.
    replace (test_weights example_backend zero_rng sd_full_odd_biases)
      with (@inr exn unit tt) by reflexivity.
    reflexivity.
Qed.

(** C3, as amended. [extract_weights_to_json] checks no shape. On a
    checkpoint that holds the thirteen keys it returns [True] and leaves
    the complete conversion on storage, whatever the shapes of the
    arrays; and when it does fail, the exception is the [KeyError] of a
    required key that is absent. *)
Theorem conversion_checks_no_shape :
  forall (sd : gmap string tensor) (d : string) (fs : filesystem),
    ((forall k, In k required_keys -> is_Some (sd !! k)) ->
     extract_weights_to_json sd d fs = (inr true, converted sd d fs)) /\
    (forall e fs', extract_weights_to_json sd d fs = (inl e, fs') ->
       exists k, e = KeyError k /\ In k required_keys /\ sd !! k = None).
Proof.
  intros sd d fs. split.
  - intros Hall. rewrite extract_outcome.
    destruct (first_missing sd required_keys) as [k|] eqn:E; [| reflexivity].
    apply first_missing_Some in E as [Hin Hk].
    destruct (Hall k Hin) as [t Ht]. congruence.
  - intros e fs' H. apply extract_inl in H as (k & Hk & -> & _).
    apply first_missing_Some in Hk as [Hin Hk]. eauto.
Qed.

Lemma conversion_checks_no_shape_witness :
  extract_weights_to_json sd_bad_shapes "out" empty_fs
  = (inr true, converted sd_bad_shapes "out" empty_fs).
Proof.
  apply (proj1 (conversion_checks_no_shape sd_bad_shapes "out" empty_fs)).
  intros k Hk. simpl in Hk.
  repeat (destruct Hk as [<- | Hk]; [vm_compute; eauto |]). contradiction.
Defined.

End Claim3.

Section Claim4.
Import Py Json Torch OS ConvertWeightsV2 Contract Examples.

(** C4, counterexample. On [sd_no_critic_weight] the converter raises
    [KeyError('critic.0.weight')], and by then [actor_weights.json],
    which did not exist, has been written. *)
Lemma actor_file_survives_a_critic_failure :
  fst (extract_weights_to_json sd_no_critic_weight "out" empty_fs)
  = inl (KeyError "critic.0.weight") /\
  files empty_fs !! "out/actor_weights.json" = None /\
  files (snd (extract_weights_to_json sd_no_critic_weight "out" empty_fs))
    !! "out/actor_weights.json"
  = Some (JObject (actor_bundle sd_no_critic_weight)).
Proof. repeat split; vm_compute; reflexivity. Qed.

(** C4, as amended. When [extract_weights_to_json] fails on a missing
    key, that key is the first one, in reading order, the checkpoint
    lacks, and the files written are exactly those of the networks that
    come before the one lacking a key, each holding that network's
    complete bundle: none if an actor key is missing, the actor's file
    if a critic key is missing, the actor's and the critic's if
    [actor_logstd] is missing. Run through [main], conversion is all or
    nothing: [test_weights] runs first and cannot complete without
    every key, so a checkpoint that lacks one makes [main] report a
    failure, and whenever [main] reports a failure storage is as it
    was. *)
Theorem failure_leaves_only_whole_bundles :
  forall (be : backend) (rng : nat -> float) (sd : gmap string tensor)
         (d : string) (fs : filesystem),
    (forall k fs',
       extract_weights_to_json sd d fs = (inl (KeyError k), fs') ->
       first_missing sd required_keys = Some k /\
       files fs' =
       match first_missing sd actor_keys with
       | Some _ => files fs
       | None =>
           match first_missing sd critic_keys with
           | Some _ =>
               <[ path_join d "actor_weights.json" := JObject (actor_bundle sd) ]>
                 (files fs)
           | None =>
               <[ path_join d "critic_weights.json" := JObject (critic_bundle sd) ]>
                 (<[ path_join d "actor_weights.json" := JObject (actor_bundle sd) ]>
                    (files fs))
           end
       end)
    /\ (forall k, In k required_keys -> sd !! k = None ->
          exists e, main be rng sd fs = (Some e, fs))
    /\ (forall e, fst (main be rng sd fs) = Some e ->
          snd (main be rng sd fs) = fs).
Proof.
  intros be rng sd d fs. split; [| split].
  - intros k fs' H. apply extract_inl in H as (k' & Hk & [= ->] & ->).
    split; [assumption | apply files_interrupted].
  - intros k Hin Hk.
    destruct (first_missing_exists sd required_keys k Hin Hk) as [k' Hk'].
    now apply (main_missing_key be rng sd fs k').
  - intros e. rewrite main_cases.
    destruct (test_weights be rng sd); [reflexivity | discriminate].
Qed.

Lemma failure_leaves_only_whole_bundles_witness :
  extract_weights_to_json sd_full_no_critic_weight "out" empty_fs
  = (inl (KeyError "critic.0.weight"),
     interrupted sd_full_no_critic_weight "out" empty_fs) /\
  files (interrupted sd_full_no_critic_weight "out" empty_fs)
  = <[ path_join "out" "actor_weights.json" :=
         JObject (actor_bundle sd_full_no_critic_weight) ]> (files empty_fs) /\
  main example_backend zero_rng sd_full_no_critic_weight empty_fs
  = (Some (KeyError "critic.0.weight"), empty_fs).
Proof.
  pose proof (failure_leaves_only_whole_bundles example_backend zero_rng
                sd_full_no_critic_weight "out" empty_fs) as (H1 & H2 & _).
  assert (Hx : extract_weights_to_json sd_full_no_critic_weight "out" empty_fs
               = (inl (KeyError "critic.0.weight"),
                  interrupted sd_full_no_critic_weight "out" empty_fs)).
  { rewrite extract_outcome.
    replace (first_missing sd_full_no_critic_weight required_keys)
      with (Some "critic.0.weight") by (vm_compute; reflexivity).
    reflexivity. }
  split; [exact Hx |]. split.
  - destruct (H1 "critic.0.weight" _ Hx) as [_ Hf]. rewrite Hf.
    replace (first_missing sd_full_no_critic_weight actor_keys)
      with (@None string) by (vm_compute; reflexivity).
    replace (first_missing sd_full_no_critic_weight critic_keys)
      with (Some "critic.0.weight") by (vm_compute; reflexivity).
    reflexivity.
  - destruct (H2 "critic.0.weight") as [e He];
      [simpl; tauto | vm_compute; reflexivity |].
    assert (Hf : fst (main example_backend zero_rng sd_full_no_critic_weight
                        empty_fs) = Some (KeyError "critic.0.weight"))
      by (vm_compute; reflexivity).
    rewrite He in Hf. injection Hf as ->. exact He.
Defined.

End Claim4.

Section Claim5.
Import Py Json Torch OS ConvertWeightsV2 Contract Examples.

(** C5. On a valid checkpoint the converter completes, and both bundles
    it stores satisfy the chaining invariant: in each network every
    kernel's second dimension is its bias's length and the next
    kernel's first dimension, and the last kernel's second dimension is
    17 for the actor and 1 for the critic. *)
Theorem valid_checkpoint_gives_chained_bundles :
  forall (sd : gmap string tensor) (d : string) (fs : filesystem),
    valid_checkpoint sd = true ->
    exists (fs' : filesystem) (a c : dict json),
      extract_weights_to_json sd d fs = (inr true, fs') /\
      files fs' !! path_join d "actor_weights.json" = Some (JObject a) /\
      chaining_invariant a 17 = true /\
      files fs' !! path_join d "critic_weights.json" = Some (JObject c) /\
      chaining_invariant c 1 = true.
Proof.
  intros sd d fs Hv. unfold valid_checkpoint in Hv.
  apply andb_prop in Hv as [Hv Hl]. apply andb_prop in Hv as [Ha Hc].
  apply bool_decide_eq_true in Hl. destruct Hl as [tl Hl].
  apply valid_network_chained in Ha as [Hma Ha].
  apply valid_network_chained in Hc as [Hmc Hc].
  change (first_missing sd actor_keys = None) in Hma.
  change (first_missing sd critic_keys = None) in Hmc.
  exists (converted sd d fs), (actor_bundle sd), (critic_bundle sd).
  split; [| split; [apply converted_actor_file |
                    split; [exact Ha |
                    split; [apply converted_critic_file | exact Hc]]]].
  rewrite extract_outcome. unfold required_keys.
  rewrite !first_missing_app, Hma, Hmc.
  unfold first_missing. simpl. rewrite Hl. reflexivity.
Qed.

Lemma valid_checkpoint_gives_chained_bundles_witness :
  valid_checkpoint sd_full = true /\
  exists (fs' : filesystem) (a c : dict json),
    extract_weights_to_json sd_full "weights_json" empty_fs = (inr true, fs') /\
    files fs' !! path_join "weights_json" "actor_weights.json"
      = Some (JObject a) /\
    chaining_invariant a 17 = true /\
    files fs' !! path_join "weights_json" "critic_weights.json"
      = Some (JObject c) /\
    chaining_invariant c 1 = true.
Proof.
  split; [vm_compute; reflexivity |].
  apply (valid_checkpoint_gives_chained_bundles sd_full "weights_json" empty_fs).
  vm_compute. reflexivity.
Defined.

End Claim5.

Section Claim6.
Import Py Json Torch OS ConvertWeightsV2 Contract Examples.

Lemma bundle_layers_Some (sd : gmap string tensor) w0 b0 w2 b2 w4 b4 layers :
  bundle_layers sd [w0; b0; w2; b2; w4; b4] = Some layers ->
  exists tw0 tb0 tw2 tb2 tw4 tb4,
    sd !! w0 = Some tw0 /\ sd !! b0 = Some tb0 /\ sd !! w2 = Some tw2 /\
    sd !! b2 = Some tb2 /\ sd !! w4 = Some tw4 /\ sd !! b4 = Some tb4 /\
    layers = [ (T tw0, tb0); (T tw2, tb2); (T tw4, tb4) ].
Proof.
  unfold bundle_layers.
  destruct (sd !! w0) as [tw0|]; [| discriminate].
  destruct (sd !! b0) as [tb0|]; [| discriminate].
  destruct (sd !! w2) as [tw2|]; [| discriminate].
  destruct (sd !! b2) as [tb2|]; [| discriminate].
  destruct (sd !! w4) as [tw4|]; [| discriminate].
  destruct (sd !! b4) as [tb4|]; [| discriminate].
  intros [= <-]. eauto 15.
Qed.

(** C6. The forward pass of [test_weights] is the layered computation of
    the specification over the arrays the converter serialises: with
    [layers] the three (kernel, bias) pairs whose listings make up the
    bundle of a network, the actor's and the critic's outputs are
    [forward] of those layers, that is [tanh(h . kernel + bias)] for the
    first two layers and [h . kernel + bias] for the last; and [tanh]
    keeps the shape and acts on each element. *)
Theorem forward_pass_is_layered :
  forall (be : backend) (sd : gmap string tensor) (x : tensor),
    (forall layers, bundle_layers sd actor_keys = Some layers ->
       actor_weights_of sd = inr (layers_document layers) /\
       actor_forward be sd x = forward be (tanh be) layers x) /\
    (forall layers, bundle_layers sd critic_keys = Some layers ->
       critic_weights_of sd = inr (layers_document layers) /\
       critic_forward be sd x = forward be (tanh be) layers x) /\
    (forall t, sizes (tanh be t) = sizes t /\
               elements (tanh be t) = map (f32_tanh be) (elements t)).
Proof.
  intros be sd x. split; [| split].
  - intros layers H.
    apply bundle_layers_Some in H
      as (tw0 & tb0 & tw2 & tb2 & tw4 & tb4 & H0 & H1 & H2 & H3 & H4 & H5 & ->).
    unfold actor_weights_of, actor_forward, getitem.
    rewrite H0, H1, H2, H3, H4, H5. split; [reflexivity |].
    simpl. destruct (matmul be x (T tw0)) as [e|m0]; [reflexivity |]. simpl.
    destruct (add m0 tb0) as [e|s0]; [reflexivity |]. simpl.
    destruct (matmul be (tanh be s0) (T tw2)) as [e|m2]; [reflexivity |]. simpl.
    destruct (add m2 tb2) as [e|s2]; [reflexivity |]. simpl.
    destruct (matmul be (tanh be s2) (T tw4)) as [e|m4]; [reflexivity |]. simpl.
    destruct (add m4 tb4) as [e|s4]; reflexivity.
  - intros layers H.
    apply bundle_layers_Some in H
      as (tw0 & tb0 & tw2 & tb2 & tw4 & tb4 & H0 & H1 & H2 & H3 & H4 & H5 & ->).
    unfold critic_weights_of, critic_forward, getitem.
    rewrite H0, H1, H2, H3, H4, H5. split; [reflexivity |].
    simpl. destruct (matmul be x (T tw0)) as [e|m0]; [reflexivity |]. simpl.
    destruct (add m0 tb0) as [e|s0]; [reflexivity |]. simpl.
    destruct (matmul be (tanh be s0) (T tw2)) as [e|m2]; [reflexivity |]. simpl.
    destruct (add m2 tb2) as [e|s2]; [reflexivity |]. simpl.
    destruct (matmul be (tanh be s2) (T tw4)) as [e|m4]; [reflexivity |]. simpl.
    destruct (add m4 tb4) as [e|s4]; reflexivity.
  - intros t. apply map_tensor_elementwise.
Qed.

Lemma forward_pass_is_layered_witness :
  actor_weights_of sd_small
  = inr (layers_document
           [ (T (ramp [2; 3] 1), ramp [2] 100);
             (T (ramp [2; 2] 200), ramp [2] 300);
             (T (ramp [2; 2] 400), ramp [2] 500) ]) /\
  actor_forward example_backend sd_small (ramp [1; 3] 1)
  = forward example_backend (tanh example_backend)
      [ (T (ramp [2; 3] 1), ramp [2] 100);
        (T (ramp [2; 2] 200), ramp [2] 300);
        (T (ramp [2; 2] 400), ramp [2] 500) ]
      (ramp [1; 3] 1).
Proof.
  apply (proj1 (forward_pass_is_layered example_backend sd_small
                  (ramp [1; 3] 1))).
  vm_compute. reflexivity.
Defined.

End Claim6.

Section Claim7.
Import Py Json Torch OS ConvertWeightsV2 Contract Examples.

Lemma zero_noise_same_value (ms ss zs : list float) :
  length ss = length ms -> length zs = length ms ->
  Forall (fun z => is_zero z = true) zs ->
  Forall (fun s => is_finite s = true) ss ->
  Forall2 same_value (zip_with f32_add ms (zip_with f32_mul ss zs)) ms.
Proof.
  revert ss zs. induction ms as [|m ms IH]; intros ss zs Hs Hz Fz Fs.
  - constructor.
  - destruct ss as [|s ss]; [discriminate Hs |].
    destruct zs as [|z zs]; [discriminate Hz |].
    apply Forall_cons in Fz as [Hz0 Fz]. apply Forall_cons in Fs as [Hs0 Fs].
    simpl. constructor.
    + now apply add_zero_product.
    + apply IH; simpl in *; auto.
Qed.

(** C7, counterexample. With the mean [[1, 2]], the log-standard-deviation
    [[nan, 0]] and a generator that draws zeros, the sampled action is
    [[nan, 2]] on every back end: [exp(nan)] is [nan], [nan * 0] is [nan]
    and [1 + nan] is [nan]. Zero noise does not give back the mean. *)
Lemma zero_noise_does_not_give_the_mean :
  broadcast_shapes (sizes logstd_nan) (sizes mean_example)
  = Some (sizes mean_example) /\
  elements mean_example = [f32_of_Z 1; f32_of_Z 2] /\
  (forall be : backend,
     option_map elements
       (match sample_action be mean_example logstd_nan
                (randn_like zero_rng 376 mean_example) with
        | inr (_, sampled_action) => Some sampled_action
        | inl _ => None
        end)
     = Some [S754_nan; f32_of_Z 2]) /\
  ~ Forall2 same_value [S754_nan; f32_of_Z 2] [f32_of_Z 1; f32_of_Z 2].
Proof.
  split; [reflexivity |]. split; [vm_compute; reflexivity |].
  split; [intros be; vm_compute; reflexivity |].
  intros H. inversion H as [| ? ? ? ? Hhd _]; subst.
  destruct Hhd as [Heq | [Hz _]]; [discriminate Heq | discriminate Hz].
Qed.

(** C7, as amended. For a log-standard-deviation whose shape broadcasts
    to the shape of the mean, the sampling step of [test_weights]
    returns [std = exp(logstd)], element by element, and
    [action = mean + std * noise], element by element (Hadamard
    product, [std] broadcast to the shape of the mean), where [noise]
    holds the samples the generator hands out. If those samples are
    zero and every [std] element is finite, each element of the action
    equals the corresponding element of the mean as a value (a zero may
    change its sign). *)
Theorem sampling_formula :
  forall (be : backend) (rng : nat -> float) (pos : nat)
         (mean logstd : tensor),
    broadcast_shapes (sizes logstd) (sizes mean) = Some (sizes mean) ->
    exists std sampled,
      sample_action be mean logstd (randn_like rng pos mean)
      = inr (std, sampled) /\
      sizes std = sizes logstd /\
      elements std = map (f32_exp be) (elements logstd) /\
      sizes sampled = sizes mean /\
      elements sampled
      = zip_with f32_add (elements mean)
          (zip_with f32_mul (elements (expand std (sizes mean)))
                    (map rng (seq pos (numel mean)))) /\
      ((forall i, is_zero (rng i) = true) ->
       Forall (fun s => is_finite s = true) (elements std) ->
       Forall2 same_value (elements sampled) (elements mean)).
Proof.
  intros be rng pos mean logstd Hb.
  destruct (map_tensor_elementwise (f32_exp be) logstd) as [Hstd_s Hstd_e].
  fold (exp be logstd) in Hstd_s, Hstd_e.
  pose proof (randn_like_sizes rng pos mean) as Hn_s.
  pose proof (randn_like_elements rng pos mean) as Hn_e.
  set (noise := randn_like rng pos mean) in *.
  set (std := exp be logstd) in *.
  assert (Hbs : broadcast_shapes (sizes std) (sizes mean) = Some (sizes mean))
    by (now rewrite Hstd_s).
  assert (Hbn : broadcast_shapes (sizes std) (sizes noise) = Some (sizes noise))
    by (now rewrite Hn_s).
  set (wide := expand std (sizes mean)).
  assert (Hw_s : sizes wide = sizes mean) by apply sizes_expand.
  unfold sample_action. fold std.
  unfold mul. rewrite (pointwise_into f32_mul std noise Hbn). simpl.
  rewrite Hn_s. fold wide.
  set (p := of_values (sizes mean)
              (zip_with f32_mul (elements wide) (elements noise))).
  assert (Hlen : length (zip_with f32_mul (elements wide) (elements noise))
                 = numel_of (sizes mean)).
  { rewrite <- Hw_s. apply length_zip_with_elements. congruence. }
  assert (Hp_s : sizes p = sizes mean) by apply sizes_of_values.
  assert (Hp_e : elements p
                 = zip_with f32_mul (elements wide) (elements noise))
    by (now apply elements_of_values).
  assert (Hmp : sizes mean = sizes p) by congruence.
  unfold add. rewrite (pointwise_same_sizes f32_add mean p Hmp). simpl.
  eexists _, _. split; [reflexivity |].
  split; [assumption |]. split; [assumption |].
  split; [apply sizes_of_values |].
  assert (He : elements (of_values (sizes mean)
                 (zip_with f32_add (elements mean) (elements p)))
               = zip_with f32_add (elements mean) (elements p)).
  { apply elements_of_values. now apply length_zip_with_elements. }
  rewrite He, Hp_e, Hn_e. split; [reflexivity |].
  intros Hzero Hfin. apply zero_noise_same_value.
  - rewrite !length_elements. unfold numel. congruence.
  - rewrite length_map, length_seq. symmetry. apply length_elements.
  - apply List.Forall_forall. intros z Hz. apply in_map_iff in Hz.
    destruct Hz as (i & <- & _). apply Hzero.
  - apply List.Forall_forall. intros s Hs.
    apply (proj1 (List.Forall_forall _ _) Hfin).
    now apply (elements_expand_In std (sizes mean)).
Qed.

Lemma sampling_formula_witness :
  broadcast_shapes (sizes logstd_vector) (sizes mean_example)
  = Some (sizes mean_example) /\
  exists std sampled,
    sample_action example_backend mean_example logstd_vector
                  (randn_like zero_rng 376 mean_example)
    = inr (std, sampled) /\
    sizes std = sizes logstd_vector /\
    elements std = map (f32_exp example_backend) (elements logstd_vector) /\
    sizes sampled = sizes mean_example /\
    elements sampled
    = zip_with f32_add (elements mean_example)
        (zip_with f32_mul (elements (expand std (sizes mean_example)))
                  (map zero_rng (seq 376 (numel mean_example)))) /\
    ((forall i, is_zero (zero_rng i) = true) ->
     Forall (fun s => is_finite s = true) (elements std) ->
     Forall2 same_value (elements sampled) (elements mean_example)).
Proof.
  split; [reflexivity |].
  apply (sampling_formula example_backend zero_rng 376 mean_example
           logstd_vector).
  reflexivity.
Defined.

(** On the example the action is the mean itself. *)
Example zero_noise_gives_the_mean_for_finite_std :
  option_map elements
    (match sample_action example_backend mean_example logstd_vector
             (randn_like zero_rng 376 mean_example) with
     | inr (_, sampled_action) => Some sampled_action
     | inl _ => None
     end)
  = Some (elements mean_example).
Proof. vm_compute. reflexivity. Qed.

End Claim7.

Section Claim8.
Import Py Json Torch OS ConvertWeightsV2 Contract Examples.

(** C8, counterexample. [sd_extra] is [sd_small] with the entry
    [obs_rms.mean], which is no kernel and no bias of the layer mapping.
    The conversion completes, and no object it stores has a field that
    holds the values of that entry. *)
Lemma unmapped_key_is_dropped :
  sd_extra !! "obs_rms.mean" = Some obs_mean /\
  ~ In "obs_rms.mean" (map src_key layer_table) /\
  fst (extract_weights_to_json sd_extra "out" empty_fs) = inr true /\
  ~ (exists p o f,
       files (snd (extract_weights_to_json sd_extra "out" empty_fs)) !! p
       = Some (JObject o) /\
       dict_get o f = Some (tolist obs_mean)).
Proof.
  split; [vm_compute; reflexivity |].
  split; [simpl; intros H; repeat (destruct H as [H | H]; [discriminate H |]);
          exact H |].
  split; [vm_compute; reflexivity |].
  intros (p & o & f & Hp & Hf).
  rewrite extract_outcome in Hp.
  replace (first_missing sd_extra required_keys) with (@None string) in Hp
    by (vm_compute; reflexivity).
  simpl snd in Hp.
  destruct (decide (In p (map (path_join "out") output_files))) as [Hin | Hout].
  - simpl in Hin. destruct Hin as [<- | [<- | [<- | [<- | []]]]].
    + rewrite converted_actor_file in Hp. injection Hp as <-.
      unfold actor_bundle, network_bundle in Hf. cbn [dict_get] in Hf.
      no_such_field Hf f.
    + rewrite converted_critic_file in Hp. injection Hp as <-.
      unfold critic_bundle, network_bundle in Hf. cbn [dict_get] in Hf.
      no_such_field Hf f.
    + rewrite converted_logstd_file in Hp. injection Hp as <-.
      unfold logstd_document in Hf. cbn [dict_get] in Hf.
      no_such_field Hf f.
    + rewrite converted_info_file in Hp. injection Hp as <-.
      unfold model_info in Hf. cbn [dict_get] in Hf.
      no_such_field Hf f.
  - rewrite converted_other_file in Hp by assumption.
    simpl in Hp. rewrite lookup_empty in Hp. discriminate Hp.
Qed.

(** C8, as amended. [extract_weights_to_json] surfaces one auxiliary
    key, [actor_logstd]: a complete conversion stores it as a document
    of its own, with its shape and its values unchanged, nested under no
    layer. Any other key outside the thirteen it looks up is ignored:
    adding it or changing it changes neither the result nor storage.
    The loop of the download script, in contrast, writes every
    tensor-valued key as a top-level field. *)
Theorem only_logstd_is_surfaced :
  forall (sd : gmap string tensor) (d : string) (fs : filesystem)
         (k : string) (x : tensor),
    ~ In k required_keys ->
    extract_weights_to_json (<[ k := x ]> sd) d fs
    = extract_weights_to_json sd d fs
    /\ (forall fs', extract_weights_to_json sd d fs = (inr true, fs') ->
          exists t, sd !! "actor_logstd" = Some t /\
                    files fs' !! path_join d "actor_logstd.json"
                    = Some (JObject [ ("shape", shape_list t);
                                      ("values", tolist t) ]))
    /\ (forall items key t,
          In (key, DownloadPretrainedHumanoid.PyTensor t) items ->
          exists t',
            last_tensor_for items (DownloadPretrainedHumanoid.save_key_of key)
            = Some t' /\
            dict_get (DownloadPretrainedHumanoid.convert_each items [])
                     (DownloadPretrainedHumanoid.save_key_of key)
            = Some (tolist t')).
Proof.
  intros sd d fs k x Hk. repeat split.
  - apply extract_agree. intros k' Hk'.
    apply lookup_insert_ne. congruence.
  - intros fs' H. apply extract_inr in H as (Hm & _ & ->).
    exists (sd !!! "actor_logstd"). split.
    + apply (first_missing_None sd required_keys Hm). simpl. tauto.
    + apply converted_logstd_file.
  - intros items key t Hin.
    destruct (last_tensor_for_exists _ _ _ Hin) as [t' Ht'].
    exists t'. split; [assumption |].
    now rewrite convert_each_get, Ht'.
Qed.

Lemma only_logstd_is_surfaced_witness :
  extract_weights_to_json sd_extra "out" empty_fs
  = extract_weights_to_json sd_small "out" empty_fs.
Proof.
  apply (only_logstd_is_surfaced sd_small "out" empty_fs "obs_rms.mean" obs_mean).
  simpl. intros H. repeat (destruct H as [H | H]; [discriminate H |]). exact H.
Defined.

End Claim8.

Section Claim9.
Import Py Json Torch OS ConvertWeightsV2 Contract Examples.

(** C9. The converter is deterministic. Its result does not depend on
    what storage held; after a complete conversion no output file does
    either; converting the same checkpoint again leaves the same
    result and the same storage, bit for bit. The generator's samples
    reach [test_weights] only: two runs of [main] that both convert
    leave the same storage whatever was drawn. *)
Theorem conversion_is_deterministic :
  forall (sd : gmap string tensor) (d : string) (fs1 fs2 : filesystem),
    fst (extract_weights_to_json sd d fs1)
    = fst (extract_weights_to_json sd d fs2)
    /\ (forall q,
          fst (extract_weights_to_json sd d fs1) = inr true ->
          In q (map (path_join d) output_files) ->
          files (snd (extract_weights_to_json sd d fs1)) !! q
          = files (snd (extract_weights_to_json sd d fs2)) !! q)
    /\ extract_weights_to_json sd d (snd (extract_weights_to_json sd d fs1))
       = extract_weights_to_json sd d fs1
    /\ (forall be rng1 rng2,
          fst (main be rng1 sd fs1) = None ->
          fst (main be rng2 sd fs1) = None ->
          main be rng1 sd fs1 = main be rng2 sd fs1).
Proof.
  intros sd d fs1 fs2. rewrite !extract_outcome.
  repeat split.
  - destruct (first_missing sd required_keys); reflexivity.
  - intros q Hok Hq.
    destruct (first_missing sd required_keys); [discriminate Hok |].
    simpl. now apply converted_output_file.
  - destruct (first_missing sd required_keys) eqn:E; simpl.
    + now rewrite interrupted_idempotent.
    + now rewrite converted_idempotent.
  - intros be rng1 rng2. rewrite !main_cases.
    destruct (test_weights be rng1 sd); [discriminate |].
    destruct (test_weights be rng2 sd); [discriminate |].
    reflexivity.
Qed.

Lemma conversion_is_deterministic_witness :
  files (snd (extract_weights_to_json sd_small "out" empty_fs))
    !! "out/actor_weights.json"
  = files (snd (extract_weights_to_json sd_small "out"
                  (mk_fs ∅ {[ "out/actor_weights.json" := JInt 0 ]})))
    !! "out/actor_weights.json".
Proof.
  apply (proj1 (proj2 (conversion_is_deterministic sd_small "out" empty_fs
           (mk_fs ∅ {[ "out/actor_weights.json" := JInt 0 ]})))).
  - vm_compute. reflexivity.
  - simpl. tauto.
Defined.

End Claim9.

Section Claim10.
Import Py Json Torch OS DownloadPretrainedHumanoid Contract Examples.

(** C10. When [convert_to_tfjs_format] completes, the weights file holds
    one object; each of its fields is the listing of a tensor of the
    state dict saved under that name, in the tensor's own orientation:
    a weight of shape [(out, in)] is written as [out] rows of [in]
    items, item [(i, j)] being item [(i, j)] of the source. Nothing is
    transposed. *)
Theorem download_script_does_not_transpose :
  forall (ck : pyobj) (fs fs' : filesystem) (u : unit),
    convert_to_tfjs_format ck fs = (inr u, fs') ->
    exists (items : list (string * pyobj)) (o : dict json),
      items_of (state_dict_of ck) = inr items /\
      files fs' !! "pretrained_models/humanoid_ppo_weights.json"
      = Some (JObject o) /\
      (forall s v, dict_get o s = Some v ->
         exists key t, In (key, PyTensor t) items /\ save_key_of key = s /\
                       v = tolist (numpy (detach t)) /\
                       keeps_orientation_of v t) /\
      (forall key t, In (key, PyTensor t) items ->
         exists t', dict_get o (save_key_of key) = Some (tolist t')).
Proof.
  intros ck fs fs' u H.
  apply convert_to_tfjs_format_inr in H as (items & Hitems & Hfile).
  exists items, (convert_each items []). repeat split; try assumption.
  - intros s v Hv. rewrite convert_each_get in Hv.
    destruct (last_tensor_for items s) as [t|] eqn:E; [| discriminate].
    injection Hv as <-.
    destruct (last_tensor_for_In _ _ _ E) as (key & Hin & Hs).
    exists key, t.
    split; [assumption |]. split; [assumption |]. split; [reflexivity |].
    apply tolist_keeps_orientation.
  - intros key t Hin. rewrite convert_each_get.
    destruct (last_tensor_for_exists _ _ _ Hin) as [t' ->]. eauto.
Qed.

Lemma download_script_does_not_transpose_witness :
  exists (items : list (string * pyobj)) (o : dict json),
    items_of (state_dict_of loaded_checkpoint) = inr items /\
    files (snd (convert_to_tfjs_format loaded_checkpoint empty_fs))
      !! "pretrained_models/humanoid_ppo_weights.json"
    = Some (JObject o) /\
    (forall s v, dict_get o s = Some v ->
       exists key t, In (key, PyTensor t) items /\ save_key_of key = s /\
                     v = tolist (numpy (detach t)) /\
                     keeps_orientation_of v t) /\
    (forall key t, In (key, PyTensor t) items ->
       exists t', dict_get o (save_key_of key) = Some (tolist t')).
Proof.
  apply (download_script_does_not_transpose loaded_checkpoint empty_fs
           (snd (convert_to_tfjs_format loaded_checkpoint empty_fs)) tt).
  vm_compute. reflexivity.
Defined.

(** On the example, the weight of shape (2, 3) is written as 2 rows of 3
    items under [actor_fc1_weight]; its transpose would have 3 rows. *)
Example download_script_keeps_two_rows :
  exists o,
    files (snd (convert_to_tfjs_format loaded_checkpoint empty_fs))
      !! "pretrained_models/humanoid_ppo_weights.json" = Some (JObject o) /\
    dict_get o "actor_fc1_weight" = Some (tolist (ramp [2; 3] 1)) /\
    is_matrix (tolist (ramp [2; 3] 1)) 2 3 = true /\
    is_matrix (tolist (T (ramp [2; 3] 1))) 3 2 = true /\
    tolist (ramp [2; 3] 1) <> tolist (T (ramp [2; 3] 1)).
Proof.
  eexists. split; [vm_compute; reflexivity |].
  repeat split; try (vm_compute; reflexivity).
  vm_compute. discriminate.
Qed.

End Claim10.

(* --------------------------------------------------------------------- *)
(** ** Further properties of convert_weights_v2.py: main and its test pass *)
(* --------------------------------------------------------------------- *)

Section ForwardFacts.
Import Py Json Torch OS ConvertWeightsV2 Contract.

(** A vector of [n] items broadcasts against [r] rows of [n] items. *)
Lemma broadcast_rows_vector r n : broadcast_shapes [r; n] [n] = Some [r; n].
Proof. unfold broadcast_shapes. simpl. now rewrite Nat.eqb_refl. Qed.

Lemma pointwise_sizes f a b sz :
  broadcast_shapes (sizes a) (sizes b) = Some sz ->
  exists c, pointwise f a b = inr c /\ sizes c = sz.
Proof.
  intros H. unfold pointwise. rewrite H. eexists. split; [reflexivity |].
  apply sizes_of_values.
Qed.

Lemma add_bias_sizes m b r n :
  sizes m = [r; n] -> sizes b = [n] ->
  exists s, add m b = inr s /\ sizes s = [r; n].
Proof.
  intros Hm Hb. apply pointwise_sizes. rewrite Hm, Hb.
  apply broadcast_rows_vector.
Qed.

Lemma sizes_tanh be t : sizes (tanh be t) = sizes t.
Proof. apply map_tensor_elementwise. Qed.

Lemma sizes_exp be t : sizes (exp be t) = sizes t.
Proof. apply map_tensor_elementwise. Qed.

(** One linear layer of the source layout, on a back end that multiplies
    matrices: the product with the transposed weight plus the bias. *)
Lemma linear_layer_sizes be x w b r inn out :
  multiplies_matrices be ->
  sizes x = [r; inn] -> sizes w = [out; inn] -> sizes b = [out] ->
  exists m s, matmul be x (T w) = inr m /\ add m b = inr s /\
              sizes s = [r; out].
Proof.
  intros Hbe Hx Hw Hb.
  destruct (Hbe x (T w) r inn out Hx) as (m & Hm & Sm).
  { rewrite sizes_T, Hw. reflexivity. }
  destruct (add_bias_sizes m b r out Sm Hb) as (s & Hs & Ss).
  eauto.
Qed.

Lemma sizes_randn rng pos sz : sizes (randn rng pos sz) = sz.
Proof. apply sizes_of_values. Qed.

(** The forward pass through three chained layers returns one row per
    input row. *)
Lemma actor_forward_sizes be sd x r :
  multiplies_matrices be ->
  valid_network sd actor_keys 376 17 = true -> sizes x = [r; 376] ->
  exists out, actor_forward be sd x = inr out /\ sizes out = [r; 17].
Proof.
  intros Hbe Hv Hx. unfold valid_network, actor_keys in Hv.
  destruct (linear_shape sd _ _ 376) as [h1|] eqn:E1; [| discriminate].
  destruct (linear_shape sd _ _ h1) as [h2|] eqn:E2; [| discriminate].
  destruct (linear_shape sd _ _ h2) as [o|] eqn:E3; [| discriminate].
  apply Nat.eqb_eq in Hv. subst o.
  apply linear_shape_Some in E1 as (w0 & b0 & Hw0 & Hb0 & Sw0 & Sb0).
  apply linear_shape_Some in E2 as (w2 & b2 & Hw2 & Hb2 & Sw2 & Sb2).
  apply linear_shape_Some in E3 as (w4 & b4 & Hw4 & Hb4 & Sw4 & Sb4).
  unfold actor_forward, getitem.
  rewrite Hw0, Hb0, Hw2, Hb2, Hw4, Hb4. simpl.
  destruct (linear_layer_sizes be x w0 b0 r 376 h1 Hbe Hx Sw0 Sb0)
    as (m0 & s0 & -> & Hs0 & S0). simpl. rewrite Hs0. simpl.
  assert (S0' : sizes (tanh be s0) = [r; h1]) by (now rewrite sizes_tanh).
  destruct (linear_layer_sizes be _ w2 b2 r h1 h2 Hbe S0' Sw2 Sb2)
    as (m2 & s2 & -> & Hs2 & S2). simpl. rewrite Hs2. simpl.
  assert (S2' : sizes (tanh be s2) = [r; h2]) by (now rewrite sizes_tanh).
  destruct (linear_layer_sizes be _ w4 b4 r h2 17 Hbe S2' Sw4 Sb4)
    as (m4 & s4 & -> & Hs4 & S4). simpl. eauto.
Qed.

Lemma critic_forward_sizes be sd x r :
  multiplies_matrices be ->
  valid_network sd critic_keys 376 1 = true -> sizes x = [r; 376] ->
  exists out, critic_forward be sd x = inr out /\ sizes out = [r; 1].
Proof.
  intros Hbe Hv Hx. unfold valid_network, critic_keys in Hv.
  destruct (linear_shape sd _ _ 376) as [h1|] eqn:E1; [| discriminate].
  destruct (linear_shape sd _ _ h1) as [h2|] eqn:E2; [| discriminate].
  destruct (linear_shape sd _ _ h2) as [o|] eqn:E3; [| discriminate].
  apply Nat.eqb_eq in Hv. subst o.
  apply linear_shape_Some in E1 as (w0 & b0 & Hw0 & Hb0 & Sw0 & Sb0).
  apply linear_shape_Some in E2 as (w2 & b2 & Hw2 & Hb2 & Sw2 & Sb2).
  apply linear_shape_Some in E3 as (w4 & b4 & Hw4 & Hb4 & Sw4 & Sb4).
  unfold critic_forward, getitem.
  rewrite Hw0, Hb0, Hw2, Hb2, Hw4, Hb4. simpl.
  destruct (linear_layer_sizes be x w0 b0 r 376 h1 Hbe Hx Sw0 Sb0)
    as (m0 & s0 & -> & Hs0 & S0). simpl. rewrite Hs0. simpl.
  assert (S0' : sizes (tanh be s0) = [r; h1]) by (now rewrite sizes_tanh).
  destruct (linear_layer_sizes be _ w2 b2 r h1 h2 Hbe S0' Sw2 Sb2)
    as (m2 & s2 & -> & Hs2 & S2). simpl. rewrite Hs2. simpl.
  assert (S2' : sizes (tanh be s2) = [r; h2]) by (now rewrite sizes_tanh).
  destruct (linear_layer_sizes be _ w4 b4 r h2 1 Hbe S2' Sw4 Sb4)
    as (m4 & s4 & -> & Hs4 & S4). simpl. eauto.
Qed.

(** ** [t[0][:5].tolist()] *)

(** On a tensor of two dimensions or more with a first row, the first
    five items of that row are listed, or all of them if there are
    fewer. *)
Lemma head5_rows t r c rest :
  sizes t = r :: c :: rest -> 0 < r ->
  exists t0 t1, index0 t = inr t0 /\ slice_to 5 t0 = inr t1 /\
                head5 t = inr (tolist t1) /\
                sizes t1 = Nat.min 5 c :: rest.
Proof.
  intros Hs Hr. unfold head5, index0, slice_to, sizes in *.
  destruct (dims t) as [|[r' s0] [|[c' s1] ds]] eqn:Hd; simpl in Hs;
    try discriminate.
  injection Hs as -> -> <-.
  destruct (Nat.eqb_spec r 0) as [-> | _]; [lia |].
  simpl. eexists _, _. repeat split.
Qed.

(** On a tensor of fewer than two dimensions it raises [IndexError]. *)
Lemma head5_flat t :
  length (sizes t) < 2 -> exists e, head5 t = inl e /\ exn_class e = "IndexError".
Proof.
  unfold head5, index0, slice_to, sizes.
  destruct (dims t) as [|[n s0] [|d ds]]; simpl; intros H.
  - eauto.
  - destruct (n =? 0); simpl; eauto.
  - lia.
Qed.

Lemma index0_rows t r rest :
  sizes t = r :: rest -> 0 < r -> exists t0, index0 t = inr t0.
Proof.
  unfold index0, sizes. destruct (dims t) as [|[r' s0] ds]; simpl;
    [discriminate |].
  intros [= -> _] Hr. destruct (Nat.eqb_spec r 0); [lia | eauto].
Qed.

(** The sampling step on a mean and a log-standard-deviation of one
    shape. *)
Lemma sample_action_sizes be rng pos mean logstd :
  sizes logstd = sizes mean ->
  exists std sampled,
    sample_action be mean logstd (randn_like rng pos mean) = inr (std, sampled) /\
    sizes std = sizes mean /\ sizes sampled = sizes mean.
Proof.
  intros H. unfold sample_action.
  assert (Hstd : sizes (exp be logstd) = sizes mean)
    by (now rewrite sizes_exp).
  assert (Hn : sizes (exp be logstd) = sizes (randn_like rng pos mean))
    by (now rewrite randn_like_sizes).
  unfold mul. rewrite (pointwise_same_sizes _ _ _ Hn). simpl.
  set (p := of_values _ _).
  assert (Hp : sizes mean = sizes p).
  { unfold p. now rewrite sizes_of_values. }
  unfold add. rewrite (pointwise_same_sizes _ _ _ Hp). simpl.
  eexists _, _. split; [reflexivity |]. split; [assumption |].
  apply sizes_of_values.
Qed.

(** [test_weights] passes on a checkpoint of chained layers, from 376
    inputs to 17 actions and to one value, whose log-standard-deviation
    has the shape (1, 17) of the actor's output. *)
Lemma test_weights_passes be rng sd l :
  multiplies_matrices be ->
  valid_network sd actor_keys 376 17 = true ->
  valid_network sd critic_keys 376 1 = true ->
  sd !! "actor_logstd" = Some l -> sizes l = [1; 17] ->
  test_weights be rng sd = inr tt.
Proof.
  intros Hbe Ha Hc Hl Sl. unfold test_weights.
  assert (Sx : sizes (randn rng 0 [1; 376]) = [1; 376]) by apply sizes_randn.
  destruct (actor_forward_sizes be sd _ 1 Hbe Ha Sx) as (a & -> & Sa).
  destruct (critic_forward_sizes be sd _ 1 Hbe Hc Sx) as (c & -> & Sc).
  cbv beta iota delta [bind].
  destruct (head5_rows a 1 17 [] Sa ltac:(lia)) as (? & ? & _ & _ & -> & _).
  destruct (index0_rows c 1 [1] Sc ltac:(lia)) as (? & ->).
  unfold getitem. rewrite Hl. cbv beta iota delta [bind ret].
  destruct (sample_action_sizes be rng 376 a l ltac:(congruence))
    as (std & sampled & -> & Sstd & Ssam).
  cbv beta iota delta [fst snd].
  destruct (head5_rows l 1 17 [] Sl ltac:(lia)) as (? & ? & _ & _ & -> & _).
  destruct (head5_rows std 1 17 [] ltac:(congruence) ltac:(lia))
    as (? & ? & _ & _ & -> & _).
  destruct (head5_rows sampled 1 17 [] ltac:(congruence) ltac:(lia))
    as (? & ? & _ & _ & -> & _).
  reflexivity.
Qed.

(** With a log-standard-deviation of fewer than two dimensions,
    [test_weights] raises, whatever else the checkpoint holds. *)
Lemma test_weights_flat_logstd be rng sd l :
  sd !! "actor_logstd" = Some l -> length (sizes l) < 2 ->
  exists e, test_weights be rng sd = inl e.
Proof.
  intros Hl Sl. unfold test_weights.
  destruct (actor_forward be sd _) as [e|a]; [eauto |].
  cbv beta iota delta [bind].
  destruct (head5 a) as [e|?]; [eauto |].
  destruct (critic_forward be sd _) as [e|c]; [eauto |].
  destruct (index0 c) as [e|?]; [eauto |].
  unfold getitem. rewrite Hl. cbv beta iota delta [bind ret].
  destruct (sample_action be a l _) as [e|[std sampled]]; [eauto |].
  destruct (head5_flat l Sl) as (e & -> & _). eauto.
Qed.

(** On a checkpoint whose networks are well formed, what stops
    [test_weights] at a flat log-standard-deviation is the
    [IndexError] of line 119. *)
Lemma test_weights_flat_logstd_error be rng sd l n :
  multiplies_matrices be ->
  valid_network sd actor_keys 376 17 = true ->
  valid_network sd critic_keys 376 1 = true ->
  sd !! "actor_logstd" = Some l -> sizes l = [n] -> n = 17 \/ n = 1 ->
  exists e, test_weights be rng sd = inl e /\ exn_class e = "IndexError".
Proof.
  intros Hbe Ha Hc Hl Sl Hn. unfold test_weights.
  assert (Sx : sizes (randn rng 0 [1; 376]) = [1; 376]) by apply sizes_randn.
  destruct (actor_forward_sizes be sd _ 1 Hbe Ha Sx) as (a & -> & Sa).
  destruct (critic_forward_sizes be sd _ 1 Hbe Hc Sx) as (c & -> & Sc).
  cbv beta iota delta [bind].
  destruct (head5_rows a 1 17 [] Sa ltac:(lia)) as (? & ? & _ & _ & -> & _).
  destruct (index0_rows c 1 [1] Sc ltac:(lia)) as (? & ->).
  unfold getitem. rewrite Hl. cbv beta iota delta [bind ret].
  assert (Hsample : exists r, sample_action be a l (randn_like rng 376 a) = inr r).
  { unfold sample_action.
    assert (Hb : broadcast_shapes (sizes (exp be l)) (sizes (randn_like rng 376 a))
                 = Some [1; 17]).
    { rewrite sizes_exp, randn_like_sizes, Sl, Sa.
      destruct Hn as [-> | ->]; reflexivity. }
    destruct (pointwise_sizes f32_mul _ _ _ Hb) as (p & Hp & Sp).
    unfold mul. rewrite Hp. simpl.
    assert (Hb' : broadcast_shapes (sizes a) (sizes p) = Some [1; 17])
      by (rewrite Sa, Sp; reflexivity).
    destruct (pointwise_sizes f32_add _ _ _ Hb') as (q & Hq & _).
    unfold add. rewrite Hq. simpl. eauto. }
  destruct Hsample as [[std sampled] ->].
  cbv beta iota delta [fst snd].
  destruct (head5_flat l ltac:(rewrite Sl; simpl; lia)) as (e & -> & He).
  eauto.
Qed.

Lemma example_backend_multiplies : multiplies_matrices Examples.example_backend.
Proof.
  intros a b n k m Ha Hb. simpl. unfold Examples.example_matmul.
  rewrite Ha, Hb, Nat.eqb_refl. eexists. split; [reflexivity |].
  apply sizes_of_values.
Qed.

End ForwardFacts.

Section MainTotality.
Import Py Json Torch OS ConvertWeightsV2 Contract Examples.

(** X1. [main] converts every well-formed checkpoint. On a back end that
    multiplies matrices, for a checkpoint whose two networks are chains
    of three linear layers of the source layout (from 376 inputs to 17
    actions and to one value) and whose [actor_logstd] has the shape
    (1, 17), [test_weights] passes whatever the generator draws, [main]
    reports no failure, and storage then holds the four documents under
    [weights_json]. *)
Theorem main_converts_every_well_formed_checkpoint :
  forall (be : backend) (rng : nat -> float) (sd : gmap string tensor)
         (l : tensor) (fs : filesystem),
    multiplies_matrices be ->
    valid_checkpoint sd = true ->
    sd !! "actor_logstd" = Some l -> sizes l = [1; 17] ->
    test_weights be rng sd = inr tt /\
    exists fs',
      main be rng sd fs = (None, fs') /\
      files fs' !! "weights_json/actor_weights.json"
      = Some (JObject (actor_bundle sd)) /\
      files fs' !! "weights_json/critic_weights.json"
      = Some (JObject (critic_bundle sd)) /\
      files fs' !! "weights_json/actor_logstd.json"
      = Some (JObject [("shape", shape_list l); ("values", tolist l)]) /\
      files fs' !! "weights_json/model_info.json" = Some (JObject model_info).
Proof.
  intros be rng sd l fs Hbe Hv Hl Sl.
  unfold valid_checkpoint in Hv.
  apply andb_prop in Hv as [Hv _]. apply andb_prop in Hv as [Ha Hc].
  assert (Ht : test_weights be rng sd = inr tt)
    by (now apply (test_weights_passes be rng sd l)).
  split; [assumption |].
  exists (converted sd "weights_json" fs).
  rewrite main_cases, Ht. split; [reflexivity |].
  split; [apply (converted_actor_file sd "weights_json") |].
  split; [apply (converted_critic_file sd "weights_json") |].
  split; [| apply (converted_info_file sd "weights_json")].
  change "weights_json/actor_logstd.json"
    with (path_join "weights_json" "actor_logstd.json").
  rewrite converted_logstd_file. unfold logstd_document.
  now rewrite lookup_total_alt, Hl.
Qed.

Lemma main_converts_every_well_formed_checkpoint_witness :
  test_weights example_backend zero_rng sd_full = inr tt /\
  exists fs',
    main example_backend zero_rng sd_full empty_fs = (None, fs') /\
    files fs' !! "weights_json/actor_weights.json"
    = Some (JObject (actor_bundle sd_full)) /\
    files fs' !! "weights_json/critic_weights.json"
    = Some (JObject (critic_bundle sd_full)) /\
    files fs' !! "weights_json/actor_logstd.json"
    = Some (JObject [("shape", shape_list (filled [1; 17] 0));
                     ("values", tolist (filled [1; 17] 0))]) /\
    files fs' !! "weights_json/model_info.json" = Some (JObject model_info).
Proof.
  apply (main_converts_every_well_formed_checkpoint example_backend zero_rng
           sd_full (filled [1; 17] 0) empty_fs).
  - apply example_backend_multiplies.
  - vm_compute. reflexivity.
  - vm_compute. reflexivity.
  - reflexivity.
Defined.

End MainTotality.

Section FlatLogstd.
Import Py Json Torch OS ConvertWeightsV2 Contract Examples.

(** X2. [main] refuses a log-standard-deviation that is a plain vector.
    [test_weights] prints [actor_logstd[0][:5]] (line 119), which needs
    two dimensions: whenever [actor_logstd] has fewer, [test_weights]
    raises and [main] reports the failure with storage as it was,
    although [extract_weights_to_json] itself would convert the
    checkpoint. On a checkpoint whose networks are well formed and whose
    [actor_logstd] has the shape (17,), the exception is an
    [IndexError]. *)
Theorem main_refuses_a_flat_logstd :
  forall (be : backend) (rng : nat -> float) (sd : gmap string tensor)
         (l : tensor) (fs : filesystem),
    sd !! "actor_logstd" = Some l -> length (sizes l) < 2 ->
    (exists e, test_weights be rng sd = inl e /\
               main be rng sd fs = (Some e, fs)) /\
    (multiplies_matrices be -> valid_checkpoint sd = true -> sizes l = [17] ->
     exists e, test_weights be rng sd = inl e /\ exn_class e = "IndexError") /\
    (valid_checkpoint sd = true ->
     extract_weights_to_json sd "weights_json" fs
     = (inr true, converted sd "weights_json" fs)).
Proof.
  intros be rng sd l fs Hl Sl. split; [| split].
  - destruct (test_weights_flat_logstd be rng sd l Hl Sl) as [e He].
    exists e. split; [assumption |]. now rewrite main_cases, He.
  - intros Hbe Hv S17. unfold valid_checkpoint in Hv.
    apply andb_prop in Hv as [Hv _]. apply andb_prop in Hv as [Ha Hc].
    apply (test_weights_flat_logstd_error be rng sd l 17); auto.
  - intros Hv. unfold valid_checkpoint in Hv.
    apply andb_prop in Hv as [Hv _]. apply andb_prop in Hv as [Ha Hc].
    apply valid_network_chained in Ha as [Hma _].
    apply valid_network_chained in Hc as [Hmc _].
    change (first_missing sd actor_keys = None) in Hma.
    change (first_missing sd critic_keys = None) in Hmc.
    rewrite extract_outcome. unfold required_keys.
    rewrite !first_missing_app, Hma, Hmc.
    unfold first_missing. simpl. rewrite Hl. reflexivity.
Qed.

Lemma main_refuses_a_flat_logstd_witness :
  (exists e, test_weights example_backend zero_rng sd_flat_logstd = inl e /\
             main example_backend zero_rng sd_flat_logstd empty_fs
             = (Some e, empty_fs)) /\
  (exists e, test_weights example_backend zero_rng sd_flat_logstd = inl e /\
             exn_class e = "IndexError") /\
  extract_weights_to_json sd_flat_logstd "weights_json" empty_fs
  = (inr true, converted sd_flat_logstd "weights_json" empty_fs).
Proof.
  pose proof (main_refuses_a_flat_logstd example_backend zero_rng
                sd_flat_logstd (filled [17] 0) empty_fs
                ltac:(vm_compute; reflexivity) ltac:(simpl; lia))
    as (H1 & H2 & H3).
  split; [exact H1 |]. split.
  - apply H2; [apply example_backend_multiplies | vm_compute; reflexivity
              | reflexivity].
  - apply H3. vm_compute. reflexivity.
Defined.

End FlatLogstd.

Section LogstdWidth.
Import Py Json Torch OS ConvertWeightsV2 Contract Examples.

(** X3. [main] refuses a log-standard-deviation that does not fit the
    actions. On a back end that multiplies matrices and a checkpoint
    whose networks are well formed, the actor's output has the shape
    (1, 17); if the shape of [actor_logstd] does not broadcast against
    it, the product [actor_std * noise] of line 117 raises
    [RuntimeError], [test_weights] stops there and [main] reports the
    failure with storage as it was. *)
Theorem main_refuses_a_logstd_of_another_width :
  forall (be : backend) (rng : nat -> float) (sd : gmap string tensor)
         (l : tensor) (fs : filesystem),
    multiplies_matrices be -> valid_checkpoint sd = true ->
    sd !! "actor_logstd" = Some l ->
    broadcast_shapes (sizes l) [1; 17] = None ->
    exists msg,
      test_weights be rng sd = inl (RuntimeError msg) /\
      main be rng sd fs = (Some (RuntimeError msg), fs).
Proof.
  intros be rng sd l fs Hbe Hv Hl Hb.
  unfold valid_checkpoint in Hv.
  apply andb_prop in Hv as [Hv _]. apply andb_prop in Hv as [Ha Hc].
  assert (Ht : exists msg, test_weights be rng sd = inl (RuntimeError msg)).
  { unfold test_weights.
    assert (Sx : sizes (randn rng 0 [1; 376]) = [1; 376]) by apply sizes_randn.
    destruct (actor_forward_sizes be sd _ 1 Hbe Ha Sx) as (a & -> & Sa).
    destruct (critic_forward_sizes be sd _ 1 Hbe Hc Sx) as (c & -> & Sc).
    cbv beta iota delta [bind].
    destruct (head5_rows a 1 17 [] Sa ltac:(lia)) as (? & ? & _ & _ & -> & _).
    destruct (index0_rows c 1 [1] Sc ltac:(lia)) as (? & ->).
    unfold getitem. rewrite Hl. cbv beta iota delta [bind ret].
    unfold sample_action, mul, pointwise.
    rewrite sizes_exp, randn_like_sizes, Sa, Hb. simpl. eauto. }
  destruct Ht as [msg Ht]. exists msg. split; [assumption |].
  now rewrite main_cases, Ht.
Qed.

Lemma main_refuses_a_logstd_of_another_width_witness :
  exists msg,
    test_weights example_backend zero_rng sd_short_logstd
    = inl (RuntimeError msg) /\
    main example_backend zero_rng sd_short_logstd empty_fs
    = (Some (RuntimeError msg), empty_fs).
Proof.
  apply (main_refuses_a_logstd_of_another_width example_backend zero_rng
           sd_short_logstd (filled [1; 16] 0) empty_fs).
  - apply example_backend_multiplies.
  - vm_compute. reflexivity.
  - vm_compute. reflexivity.
  - reflexivity.
Defined.

End LogstdWidth.

Section PrintedSample.
Import Py Json Torch OS ConvertWeightsV2 Contract Examples.

(** X4. What [test_weights] prints of a tensor, [t[0][:5].tolist()] (lines
    103 and 119-121). For a matrix with at least one row it is the list
    of the first five items of row 0, or of all its items when the row
    has fewer than five: the slice is clamped and raises nothing. For a
    matrix without rows, and for a tensor of fewer than two dimensions,
    it raises [IndexError]. *)
Theorem printed_sample_is_clamped :
  forall t : tensor,
    (forall r c, sizes t = [r; c] -> 0 < r ->
       exists items,
         head5 t = inr (JList items) /\
         length items = Nat.min 5 c /\
         forall j, j < Nat.min 5 c ->
           nth_error items j = Some (JFloat (get t [0; j]))) /\
    (forall c, sizes t = [0; c] ->
       exists e, head5 t = inl e /\ exn_class e = "IndexError") /\
    (length (sizes t) < 2 ->
     exists e, head5 t = inl e /\ exn_class e = "IndexError").
Proof.
  intros t. split; [| split].
  - intros r c Hs Hr.
    destruct (matrix_dims t r c Hs) as (s0 & s1 & Hd).
    unfold head5, index0, slice_to. rewrite Hd.
    destruct (Nat.eqb_spec r 0) as [-> | _]; [lia |].
    cbv beta iota delta [bind ret]. unfold tolist. cbn [dims offset storage tolist_at].
    eexists. split; [reflexivity |].
    split; [now rewrite length_map, length_seq |].
    intros j Hj. rewrite nth_error_map_seq by assumption.
    unfold get. rewrite Hd. cbn [flat_index]. do 3 f_equal. lia.
  - intros c Hs.
    destruct (matrix_dims t 0 c Hs) as (s0 & s1 & Hd).
    unfold head5, index0. rewrite Hd. simpl. eauto.
  - apply head5_flat.
Qed.

Lemma printed_sample_is_clamped_witness :
  exists items,
    head5 (ramp [1; 2] 0) = inr (JList items) /\
    length items = Nat.min 5 2 /\
    forall j, j < Nat.min 5 2 ->
      nth_error items j = Some (JFloat (get (ramp [1; 2] 0) [0; j])).
Proof.
  apply (proj1 (printed_sample_is_clamped (ramp [1; 2] 0)) 1 2);
    [reflexivity | lia].
Defined.

End PrintedSample.

(* --------------------------------------------------------------------- *)
(** ** Further properties of convert_weights_v2.py: what is stored *)
(* --------------------------------------------------------------------- *)

Section ListingFacts.
Import Py Json Torch OS ConvertWeightsV2 Contract.

(** A listing is nested as the shape says, whatever the strides. *)
Lemma has_shape_tolist_at st ds off :
  has_shape (map fst ds) (tolist_at st ds off) = true.
Proof.
  revert off. induction ds as [|[n k] ds IH]; intros off; simpl;
    [reflexivity |].
  rewrite length_map, length_seq, Nat.eqb_refl. simpl.
  apply forallb_forall. intros x Hx. apply in_map_iff in Hx.
  destruct Hx as (i & <- & _). apply IH.
Qed.

Lemma has_shape_tolist t : has_shape (sizes t) (tolist t) = true.
Proof. apply has_shape_tolist_at. Qed.

Lemma has_shape_tolist_T t : has_shape (rev (sizes t)) (tolist (T t)) = true.
Proof. rewrite <- sizes_T. apply has_shape_tolist. Qed.

Lemma map_seq_inj {A} (f g : nat -> A) n n' :
  map f (seq 0 n) = map g (seq 0 n') ->
  n = n' /\ forall i, i < n -> f i = g i.
Proof.
  intros H.
  assert (Hn : n = n').
  { apply (f_equal (@length A)) in H. now rewrite !length_map, !length_seq in H. }
  subst n'. split; [reflexivity |]. intros i Hi.
  apply (f_equal (fun l => nth_error l i)) in H.
  rewrite !nth_error_map_seq in H by assumption. now injection H.
Qed.

(** Two matrices with the same listing have the same shape (the row
    length of a matrix without rows apart) and the same elements. *)
Lemma tolist_matrix_inj a b r c r' c' :
  sizes a = [r; c] -> sizes b = [r'; c'] -> tolist a = tolist b ->
  r = r' /\ (0 < r -> c = c') /\
  forall i j, i < r -> j < c -> get a [i; j] = get b [i; j].
Proof.
  intros Ha Hb H.
  rewrite (tolist_matrix a r c Ha), (tolist_matrix b r' c' Hb) in H.
  injection H as H. apply map_seq_inj in H as [<- Hrows].
  split; [reflexivity |].
  assert (Hrow : forall i, i < r ->
            c = c' /\ forall j, j < c -> get a [i; j] = get b [i; j]).
  { intros i Hi. specialize (Hrows i Hi). injection Hrows as Hrow.
    apply map_seq_inj in Hrow as [<- Hcells].
    split; [reflexivity |]. intros j Hj. specialize (Hcells j Hj).
    now injection Hcells. }
  split.
  - intros Hr. now destruct (Hrow 0 Hr).
  - intros i j Hi Hj. now apply (proj2 (Hrow i Hi)).
Qed.

Lemma tolist_vector_inj a b n n' :
  sizes a = [n] -> sizes b = [n'] -> tolist a = tolist b ->
  n = n' /\ forall i, i < n -> get a [i] = get b [i].
Proof.
  intros Ha Hb H.
  rewrite (tolist_vector a n Ha), (tolist_vector b n' Hb) in H.
  injection H as H. apply map_seq_inj in H as [<- Hcells].
  split; [reflexivity |]. intros i Hi. specialize (Hcells i Hi).
  now injection Hcells.
Qed.

(** The listing of the transposed view determines the source matrix. *)
Lemma tolist_T_inj t t' out inn out' inn' :
  sizes t = [out; inn] -> sizes t' = [out'; inn'] ->
  tolist (T t) = tolist (T t') ->
  inn = inn' /\ (0 < inn -> out = out') /\
  forall i j, i < out -> j < inn -> get t [i; j] = get t' [i; j].
Proof.
  intros Ht Ht' H.
  assert (Sa : sizes (T t) = [inn; out]) by (rewrite sizes_T, Ht; reflexivity).
  assert (Sb : sizes (T t') = [inn'; out'])
    by (rewrite sizes_T, Ht'; reflexivity).
  destruct (tolist_matrix_inj _ _ _ _ _ _ Sa Sb H) as (Hi & Ho & Hcells).
  split; [assumption |]. split; [assumption |].
  intros i j Hlt_i Hlt_j.
  rewrite <- (get_T_matrix t out inn j i Ht).
  rewrite <- (get_T_matrix t' out' inn' j i Ht').
  now apply Hcells.
Qed.

Lemma network_bundle_inj w0 b0 w2 b2 w4 b4 w0' b0' w2' b2' w4' b4' :
  network_bundle w0 b0 w2 b2 w4 b4 = network_bundle w0' b0' w2' b2' w4' b4' ->
  tolist (T w0) = tolist (T w0') /\ tolist b0 = tolist b0' /\
  tolist (T w2) = tolist (T w2') /\ tolist b2 = tolist b2' /\
  tolist (T w4) = tolist (T w4') /\ tolist b4 = tolist b4'.
Proof.
  unfold network_bundle. intros H.
  injection H as H1 H2 H3 H4 H5 H6. tauto.
Qed.

End ListingFacts.

Section StoredShapes.
Import Py Json Torch OS ConvertWeightsV2 Contract Examples.

(** X5. Every array a complete conversion stores is rectangular and has the
    shape of its source, for sources of any number of dimensions: a
    kernel field is nested as the reversed shape of the source weight
    says, a bias field as the shape of the source bias says; and the
    [shape] field of [actor_logstd.json] describes the nesting of its
    [values] field. *)
Theorem stored_arrays_have_the_shapes_of_their_sources :
  forall (sd : gmap string tensor) (d : string) (fs fs' : filesystem),
    extract_weights_to_json sd d fs = (inr true, fs') ->
    (forall e, In e layer_table ->
       exists (t : tensor) (o : dict json) (v : json),
         sd !! src_key e = Some t /\
         files fs' !! path_join d (out_file e) = Some (JObject o) /\
         dict_get o (out_field e) = Some v /\
         has_shape (match entry_role e with
                    | Kernel => rev (sizes t)
                    | Bias => sizes t
                    end) v = true) /\
    (exists (t : tensor) (v : json),
       sd !! "actor_logstd" = Some t /\
       files fs' !! path_join d "actor_logstd.json"
       = Some (JObject [ ("shape", JList (map (fun n => JInt (Z.of_nat n))
                                              (sizes t)));
                         ("values", v) ]) /\
       has_shape (sizes t) v = true).
Proof.
  intros sd d fs fs' H.
  apply extract_inr in H as (Hk & _ & ->).
  pose proof (first_missing_None sd required_keys Hk) as Hget.
  split.
  - intros e He. simpl in He.
    repeat (destruct He as [<- | He];
      [ eexists _, _, _; simpl; split; [apply Hget; simpl; tauto |];
        split; [first [apply converted_actor_file
                      | apply converted_critic_file] |];
        split; [reflexivity |];
        first [apply has_shape_tolist_T | apply has_shape_tolist]
      | ]).
    contradiction.
  - exists (sd !!! "actor_logstd"), (tolist (sd !!! "actor_logstd")).
    split; [apply Hget; simpl; tauto |].
    split; [apply converted_logstd_file | apply has_shape_tolist].
Qed.

Lemma stored_arrays_have_the_shapes_of_their_sources_witness :
  exists (t : tensor) (v : json),
    sd_small !! "actor_logstd" = Some t /\
    files (converted sd_small "out" empty_fs) !! path_join "out" "actor_logstd.json"
    = Some (JObject [ ("shape", JList (map (fun n => JInt (Z.of_nat n))
                                           (sizes t)));
                      ("values", v) ]) /\
    has_shape (sizes t) v = true.
Proof.
  apply (stored_arrays_have_the_shapes_of_their_sources sd_small "out" empty_fs
           (converted sd_small "out" empty_fs)).
  vm_compute. reflexivity.
Defined.

End StoredShapes.

Section Lossless.
Import Py Json Torch OS ConvertWeightsV2 Contract Examples.

(** X6. The stored bundle determines the weights. If two complete
    conversions leave the same document in the file of a network, the
    two checkpoints agree on every tensor of that network: for a weight
    (both of two dimensions) on the input width, on the output width
    unless the input width is zero, and on every element; for a bias
    (both of one dimension) on the length and on every element. *)
Theorem equal_bundles_mean_equal_weights :
  forall (sd sd' : gmap string tensor) (d d' : string)
         (fs fs' fs1 fs1' : filesystem),
    extract_weights_to_json sd d fs = (inr true, fs1) ->
    extract_weights_to_json sd' d' fs' = (inr true, fs1') ->
    forall e, In e layer_table ->
      files fs1 !! path_join d (out_file e)
      = files fs1' !! path_join d' (out_file e) ->
      exists t t',
        sd !! src_key e = Some t /\ sd' !! src_key e = Some t' /\
        match entry_role e with
        | Kernel =>
            forall out inn out' inn',
              sizes t = [out; inn] -> sizes t' = [out'; inn'] ->
              inn = inn' /\ (0 < inn -> out = out') /\
              forall i j, i < out -> j < inn -> get t [i; j] = get t' [i; j]
        | Bias =>
            forall n n',
              sizes t = [n] -> sizes t' = [n'] ->
              n = n' /\ forall i, i < n -> get t [i] = get t' [i]
        end.
Proof.
  intros sd sd' d d' fs fs' fs1 fs1' H H' e He Hfile.
  apply extract_inr in H as (Hk & _ & ->).
  apply extract_inr in H' as (Hk' & _ & ->).
  pose proof (first_missing_None sd required_keys Hk) as Hget.
  pose proof (first_missing_None sd' required_keys Hk') as Hget'.
  exists (sd !!! src_key e), (sd' !!! src_key e).
  assert (Hreq : In (src_key e) required_keys).
  { simpl in He.
    repeat (destruct He as [<- | He]; [simpl; tauto |]). contradiction. }
  split; [now apply Hget |]. split; [now apply Hget' |].
  simpl in He.
  repeat (destruct He as [<- | He];
    [ cbn [out_file entry_role src_key] in Hfile |- *;
      first [ rewrite !converted_actor_file in Hfile
            | rewrite !converted_critic_file in Hfile ];
      first [ assert (Hb : actor_bundle sd = actor_bundle sd') by congruence
            | assert (Hb : critic_bundle sd = critic_bundle sd') by congruence ];
      apply network_bundle_inj in Hb as (H0 & H1 & H2 & H3 & H4 & H5);
      first [ intros out inn out' inn' Ht Ht';
              first [ exact (tolist_T_inj _ _ _ _ _ _ Ht Ht' H0)
                    | exact (tolist_T_inj _ _ _ _ _ _ Ht Ht' H2)
                    | exact (tolist_T_inj _ _ _ _ _ _ Ht Ht' H4) ]
            | intros n n' Ht Ht';
              first [ exact (tolist_vector_inj _ _ _ _ Ht Ht' H1)
                    | exact (tolist_vector_inj _ _ _ _ Ht Ht' H3)
                    | exact (tolist_vector_inj _ _ _ _ Ht Ht' H5) ] ]
    | ]).
  contradiction.
Qed.

Lemma equal_bundles_mean_equal_weights_witness :
  exists t t',
    sd_small !! "actor_mean.0.weight" = Some t /\
    sd_small_strided !! "actor_mean.0.weight" = Some t' /\
    forall out inn out' inn',
      sizes t = [out; inn] -> sizes t' = [out'; inn'] ->
      inn = inn' /\ (0 < inn -> out = out') /\
      forall i j, i < out -> j < inn -> get t [i; j] = get t' [i; j].
Proof.
  apply (equal_bundles_mean_equal_weights sd_small sd_small_strided "out" "out"
           empty_fs empty_fs
           (converted sd_small "out" empty_fs)
           (converted sd_small_strided "out" empty_fs)
           ltac:(vm_compute; reflexivity) ltac:(vm_compute; reflexivity)
           (mk_entry "actor_mean.0.weight" "actor_weights.json"
                     "dense_1_kernel" Kernel)
           ltac:(simpl; tauto)).
  vm_compute. reflexivity.
Defined.

(** The two example checkpoints hold their first weight in different
    memory layouts. *)
Example strided_example_differs_in_memory :
  sd_small !! "actor_mean.0.weight" <> sd_small_strided !! "actor_mean.0.weight".
Proof. vm_compute. discriminate. Qed.

End Lossless.

Section Frame.
Import Py Json Torch OS ConvertWeightsV2 Contract Examples.

Lemma files_converted_monotone sd d fs p :
  is_Some (files fs !! p) -> is_Some (files (converted sd d fs) !! p).
Proof.
  intros H. unfold converted, after_critic, after_actor, put_file, put_dir.
  simpl. rewrite !lookup_insert_is_Some'. tauto.
Qed.

(** X7. [extract_weights_to_json] touches nothing but its own outputs.
    On storage where the output directory can be made (its path is not
    empty and neither it nor a path above it is a file; [os.makedirs]
    raises otherwise), whether the function returns or raises on a
    missing key, every file other than the four of its output directory
    holds what it held, no file and no directory that existed is
    removed, and the output directory exists afterwards: it is created
    before the first key is read, so a conversion that fails at the
    first key leaves it behind. *)
Theorem conversion_touches_only_its_outputs :
  forall (sd : gmap string tensor) (d : string) (fs : filesystem),
    can_be_made d fs ->
    (forall p, ~ In p (map (path_join d) output_files) ->
       files (snd (extract_weights_to_json sd d fs)) !! p = files fs !! p) /\
    (forall p, is_Some (files fs !! p) ->
       is_Some (files (snd (extract_weights_to_json sd d fs)) !! p)) /\
    d ∈ dirs (snd (extract_weights_to_json sd d fs)) /\
    dirs fs ⊆ dirs (snd (extract_weights_to_json sd d fs)).
Proof.
  intros sd d fs _. rewrite extract_outcome.
  destruct (first_missing sd required_keys) as [k|]; cbn [snd].
  - split; [| split; [| split]].
    + intros p Hp. rewrite files_interrupted.
      assert (Ha : path_join d "actor_weights.json" <> p)
        by (intros <-; apply Hp; simpl; tauto).
      assert (Hc : path_join d "critic_weights.json" <> p)
        by (intros <-; apply Hp; simpl; tauto).
      destruct (first_missing sd actor_keys); [reflexivity |].
      destruct (first_missing sd critic_keys).
      * now rewrite lookup_insert_ne.
      * now rewrite !lookup_insert_ne.
    + intros p Hp. rewrite files_interrupted.
      destruct (first_missing sd actor_keys); [assumption |].
      destruct (first_missing sd critic_keys);
        rewrite !lookup_insert_is_Some'; tauto.
    + rewrite dirs_interrupted. apply elem_of_union_l. now apply elem_of_singleton.
    + rewrite dirs_interrupted. apply union_subseteq_r.
  - split; [| split; [| split]].
    + intros p Hp. now apply converted_other_file.
    + intros p Hp. now apply files_converted_monotone.
    + rewrite dirs_converted. apply elem_of_union_l. now apply elem_of_singleton.
    + rewrite dirs_converted. apply union_subseteq_r.
Qed.

Lemma conversion_touches_only_its_outputs_witness :
  can_be_made "out" fs_with_notes /\
  fst (extract_weights_to_json sd_no_output_bias "out" fs_with_notes)
  = inl (KeyError "actor_mean.4.bias") /\
  files (snd (extract_weights_to_json sd_no_output_bias "out" fs_with_notes))
    !! "notes.json" = Some (JString "keep") /\
  "out" ∈ dirs (snd (extract_weights_to_json sd_no_output_bias "out"
                       fs_with_notes)).
Proof.
  assert (Hmade : can_be_made "out" fs_with_notes).
  { split; [discriminate |].
    intros p [-> | [rest H]]; [reflexivity |].
    destruct p as [|c1 [|c2 [|c3 [|c4 p]]]]; vm_compute in H;
      discriminate H. }
  destruct (conversion_touches_only_its_outputs sd_no_output_bias "out"
              fs_with_notes Hmade) as (H1 & _ & H3 & _).
  split; [exact Hmade |]. split; [vm_compute; reflexivity |].
  split; [| exact H3].
  rewrite H1; [reflexivity |].
  simpl. intros [H | [H | [H | [H | []]]]]; discriminate H.
Defined.

End Frame.

(* --------------------------------------------------------------------- *)
(** ** Further properties of convert_weights.py: the conversion *)
(* --------------------------------------------------------------------- *)

Section V1Structure.
Import Py Json Torch ConvertWeights Contract.

(** ** What an assignment keeps *)

Lemma assign_fits w value :
  var_shape w = sizes value -> assign w value = inr (with_value value w).
Proof.
  intros H. unfold assign. now rewrite bool_decide_eq_true_2.
Qed.

Lemma assign_inr_fits w value w' :
  assign w value = inr w' -> var_shape w = sizes value.
Proof.
  unfold assign. destruct (bool_decide_reflect (var_shape w = sizes value));
    [auto | discriminate].
Qed.

(** One assignment in a list of weights: each variable is kept, or it
    carries the wanted name, fits the value and now holds it. *)
Lemma assign_in_weights_Forall2 ws tf_name value ws' :
  assign_in_weights ws tf_name value = inr ws' ->
  Forall2 (fun w w' => w' = w \/
             (var_name w = tf_name /\ var_shape w = sizes value /\
              w' = with_value value w)) ws ws'.
Proof.
  revert ws'. induction ws as [|w ws IH]; intros ws'; simpl.
  - intros [= <-]. constructor.
  - destruct (String.eqb_spec (var_name w) tf_name) as [Hn | Hn].
    + destruct (assign w value) as [e|w1] eqn:E; simpl; [discriminate |].
      intros [= <-]. constructor.
      * right. split; [assumption |].
        split; [now apply assign_inr_fits in E | now apply assign_inr in E].
      * apply Forall2_same_length_lookup_2; [reflexivity |].
        intros i x y Hx Hy. left. congruence.
    + destruct (assign_in_weights ws tf_name value) as [e|ws1] eqn:E;
        simpl; [discriminate |].
      intros [= <-]. constructor; [now left | now apply IH].
Qed.

Lemma assign_in_layers_Forall2 ls tf_name value ls' :
  assign_in_layers ls tf_name value = inr ls' ->
  Forall2 (fun w w' => w' = w \/
             (var_name w = tf_name /\ var_shape w = sizes value /\
              w' = with_value value w)) (variables ls) (variables ls').
Proof.
  unfold variables. revert ls'. induction ls as [|l ls IH]; intros ls'; simpl.
  - intros [= <-]. constructor.
  - destruct (assign_in_weights (weights l) tf_name value) as [e|ws] eqn:E;
      simpl; [discriminate |].
    destruct (assign_in_layers ls tf_name value) as [e|ls1] eqn:E';
      simpl; [discriminate |].
    intros [= <-]. simpl. apply Forall2_app.
    + now apply assign_in_weights_Forall2.
    + now apply IH.
Qed.

Lemma signature_weights ws ws' :
  Forall2 (fun w w' => var_name w' = var_name w /\ var_shape w' = var_shape w)
          ws ws' ->
  map (fun w => (var_name w, var_shape w)) ws'
  = map (fun w => (var_name w, var_shape w)) ws.
Proof.
  induction 1 as [| w w' ws ws' [Hn Hs] _ IH]; simpl; [reflexivity |].
  now rewrite Hn, Hs, IH.
Qed.

Lemma assign_in_weights_signature ws tf_name value ws' :
  assign_in_weights ws tf_name value = inr ws' ->
  map (fun w => (var_name w, var_shape w)) ws'
  = map (fun w => (var_name w, var_shape w)) ws.
Proof.
  intros H. apply signature_weights.
  apply assign_in_weights_Forall2 in H.
  eapply Forall2_impl; [exact H |]. simpl.
  intros w w' [-> | (_ & _ & ->)]; split; reflexivity.
Qed.

Lemma assign_in_layers_signature ls tf_name value ls' :
  assign_in_layers ls tf_name value = inr ls' -> signature ls' = signature ls.
Proof.
  unfold signature. revert ls'. induction ls as [|l ls IH]; intros ls'; simpl.
  - now intros [= <-].
  - destruct (assign_in_weights (weights l) tf_name value) as [e|ws] eqn:E;
      simpl; [discriminate |].
    destruct (assign_in_layers ls tf_name value) as [e|ls1] eqn:E';
      simpl; [discriminate |].
    intros [= <-]. simpl.
    now rewrite (assign_in_weights_signature _ _ _ _ E), (IH ls1).
Qed.

Lemma convert_items_signature prefix sd items m m' :
  convert_items prefix sd items m = inr m' -> signature m' = signature m.
Proof.
  revert m. induction items as [|[pn tn] items IH]; intros m; simpl.
  - now intros [= <-].
  - destruct (startswith pn prefix); [| apply IH].
    destruct (sd !! pn) as [t|]; [| apply IH].
    destruct (assign_in_layers m tn _) as [e|m1] eqn:E; simpl;
      [discriminate |].
    intros H. rewrite (IH m1 H). now apply assign_in_layers_signature in E.
Qed.

(** A pass over part of the mapping leaves each variable as it was, or
    holding the converted array of an entry of that part. *)
Lemma convert_items_Forall2 prefix sd items m m' :
  convert_items prefix sd items m = inr m' ->
  Forall2 (fun w w' => w' = w \/
             exists pn t,
               In (pn, var_name w) items /\ startswith pn prefix = true /\
               sd !! pn = Some t /\
               var_shape w = sizes (converted_array pn t) /\
               w' = with_value (converted_array pn t) w)
          (variables m) (variables m').
Proof.
  revert m. induction items as [|[pn tn] items IH]; intros m; simpl.
  - intros [= <-]. apply Forall2_same_length_lookup_2; [reflexivity |].
    intros i x y Hx Hy. left. congruence.
  - assert (Hrest : forall m0, convert_items prefix sd items m0 = inr m' ->
              Forall2 (fun w w' => w' = w \/
                 exists pn0 t,
                   ((pn, tn) = (pn0, var_name w) \/ In (pn0, var_name w) items) /\
                   startswith pn0 prefix = true /\ sd !! pn0 = Some t /\
                   var_shape w = sizes (converted_array pn0 t) /\
                   w' = with_value (converted_array pn0 t) w)
                (variables m0) (variables m')).
    { intros m0 H0. eapply Forall2_impl; [exact (IH m0 H0) |]. simpl.
      intros w w' [-> | (pn0 & t & Hin & Hp & Ht & Hs & ->)]; [now left |].
      right. exists pn0, t. tauto. }
    destruct (startswith pn prefix) eqn:Hp; [| apply Hrest].
    destruct (sd !! pn) as [t|] eqn:Ht; [| apply Hrest].
    destruct (assign_in_layers m tn _) as [e|m1] eqn:E; simpl;
      [discriminate |].
    intros H. apply assign_in_layers_Forall2 in E. specialize (IH m1 H).
    clear Hrest H.
    revert IH. generalize (variables m'). revert E.
    generalize (variables m1). generalize (variables m).
    intros l0 l1 H01. induction H01 as [| w w1 l0 l1 Hw _ IHl];
      intros l2 H12; inversion H12 as [| ? w2 ? l2' Hw2 H12']; subst;
      constructor; [| now apply IHl].
    destruct Hw as [-> | (Hn & Hs & ->)].
    + destruct Hw2 as [-> | (pn0 & t0 & Hin & Hp0 & Ht0 & Hs0 & ->)];
        [now left |].
      right. exists pn0, t0. tauto.
    + destruct Hw2 as [-> | (pn0 & t0 & Hin & Hp0 & Ht0 & Hs0 & ->)].
      * right. exists pn, t. subst tn. unfold converted_array, numpy. tauto.
      * right. exists pn0, t0. simpl in *. tauto.
Qed.

(** ** An entry that does not fit *)

Lemma assign_in_weights_fits ws tf_name value ws' v :
  assign_in_weights ws tf_name value = inr ws' ->
  List.find (fun w => String.eqb (var_name w) tf_name) ws = Some v ->
  var_shape v = sizes value.
Proof.
  revert ws'. induction ws as [|w ws IH]; intros ws'; simpl; [discriminate |].
  destruct (String.eqb (var_name w) tf_name).
  - destruct (assign w value) as [e|w1] eqn:E; simpl; [discriminate |].
    intros _ [= <-]. now apply assign_inr_fits in E.
  - destruct (assign_in_weights ws tf_name value) as [e|ws1]; simpl;
      [discriminate |].
    intros _. now apply (IH ws1).
Qed.

Lemma assign_in_layers_fits ls tf_name value ls' v :
  assign_in_layers ls tf_name value = inr ls' ->
  find_variable ls tf_name = Some v -> var_shape v = sizes value.
Proof.
  unfold find_variable. revert ls'.
  induction ls as [|l ls IH]; intros ls'; simpl; [discriminate |].
  destruct (assign_in_weights (weights l) tf_name value) as [e|ws] eqn:E;
    simpl; [discriminate |].
  destruct (assign_in_layers ls tf_name value) as [e|ls1] eqn:E';
    simpl; [discriminate |].
  intros _. rewrite find_app.
  destruct (List.find _ (weights l)) as [v0|] eqn:F.
  - intros [= <-]. now apply (assign_in_weights_fits _ _ _ _ _ E).
  - now apply (IH ls1).
Qed.

(** A pass that completes has found every present entry of its prefix
    fitting the variable it is mapped to. *)
Lemma convert_items_fits prefix sd items m m' pn tn t v :
  convert_items prefix sd items m = inr m' ->
  In (pn, tn) items -> startswith pn prefix = true -> sd !! pn = Some t ->
  find_variable m tn = Some v ->
  var_shape v = sizes (converted_array pn t).
Proof.
  revert m v. induction items as [|[pn0 tn0] items IH]; intros m v H Hin Hp Ht Hv;
    simpl in *; [contradiction |].
  destruct Hin as [[= -> ->] | Hin].
  - rewrite Hp, Ht in H.
    destruct (assign_in_layers m tn _) as [e|m1] eqn:E; simpl in H;
      [discriminate |].
    now apply (assign_in_layers_fits _ _ _ _ _ E).
  - destruct (startswith pn0 prefix); [| now apply (IH m)].
    destruct (sd !! pn0) as [t0|]; [| now apply (IH m)].
    destruct (assign_in_layers m tn0 _) as [e|m1] eqn:E; simpl in H;
      [discriminate |].
    pose proof (assign_in_layers_find _ _ _ _ tn E) as Hf.
    destruct (String.eqb_spec tn0 tn) as [-> | Hne].
    + rewrite Hv in Hf. simpl in Hf.
      now apply (IH m1 _ H Hin Hp Ht Hf).
    + rewrite Hv in Hf. now apply (IH m1 _ H Hin Hp Ht Hf).
Qed.

End V1Structure.

Section V1Invariants.
Import Py Json Torch ConvertWeights Contract Examples.

(** X8. [convert_weights] changes values only. When it completes, both
    models have the layers they had, under the same names, with the same
    variables of the same names and declared shapes; every variable is
    as it was or holds the converted array of a checkpoint entry that
    its pass maps to its name, and that array has the variable's
    declared shape; and the log-standard-deviation returned is the
    checkpoint's [actor_logstd], or [None] when the key is absent. *)
Theorem conversion_changes_values_only :
  forall (sd : gmap string tensor) (am cm am' cm' : model) (l : option tensor),
    convert_weights sd am cm = inr (am', cm', l) ->
    signature am' = signature am /\
    signature cm' = signature cm /\
    Forall2 (loaded_from sd "actor_mean") (variables am) (variables am') /\
    Forall2 (loaded_from sd "critic") (variables cm) (variables cm') /\
    l = option_map numpy (sd !! "actor_logstd").
Proof.
  intros sd am cm am' cm' l H. unfold convert_weights in H.
  destruct (convert_items "actor_mean" sd _ am) as [e|am1] eqn:Ea;
    cbv beta iota delta [bind] in H; [discriminate |].
  destruct (convert_items "critic" sd _ cm) as [e|cm1] eqn:Ec;
    cbv beta iota delta [bind ret] in H; [discriminate |].
  injection H as <- <- <-.
  split; [now apply convert_items_signature in Ea |].
  split; [now apply convert_items_signature in Ec |].
  split; [now apply convert_items_Forall2 in Ea |].
  split; [now apply convert_items_Forall2 in Ec |].
  now destruct (sd !! "actor_logstd").
Qed.

Lemma conversion_changes_values_only_witness :
  match convert_weights sd_full example_actor_model example_critic_model with
  | inr (am', cm', l) =>
      signature am' = signature example_actor_model /\
      signature cm' = signature example_critic_model /\
      Forall2 (loaded_from sd_full "actor_mean")
              (variables example_actor_model) (variables am') /\
      Forall2 (loaded_from sd_full "critic")
              (variables example_critic_model) (variables cm') /\
      l = option_map numpy (sd_full !! "actor_logstd")
  | inl _ => False
  end.
Proof.
  destruct (convert_weights sd_full example_actor_model example_critic_model)
    as [e | [[am' cm'] l]] eqn:E.
  - apply (f_equal (fun r => match r with inl _ => false | inr _ => true end)) in E.
    vm_compute in E. discriminate E.
  - exact (conversion_changes_values_only sd_full example_actor_model
             example_critic_model am' cm' l E).
Defined.

End V1Invariants.

Section V1Misfit.
Import Py Json Torch ConvertWeights Contract Examples.

(** X9. [convert_weights] checks shapes, through [weight.assign]. If a
    checkpoint entry of the mapping is present and the variable it is
    mapped to, in the model of its pass, has another declared shape than
    the converted array (the transposed view for a weight), the
    conversion does not complete: it raises [ValueError]. *)
Theorem misfit_entry_raises_valueerror :
  forall (sd : gmap string tensor) (am cm : model) (pn tn : string)
         (t : tensor) (v : variable),
    In (pn, tn) weight_mapping -> sd !! pn = Some t ->
    (startswith pn "actor_mean" = true /\ find_variable am tn = Some v) \/
    (startswith pn "critic" = true /\ find_variable cm tn = Some v) ->
    var_shape v <> sizes (converted_array pn t) ->
    exists e, convert_weights sd am cm = inl e /\ exn_class e = "ValueError".
Proof.
  intros sd am cm pn tn t v Hin Ht Hv Hmis.
  destruct (convert_weights sd am cm) as [e | [[am' cm'] l]] eqn:E.
  - exists e. split; [reflexivity | now apply convert_weights_inl in E].
  - exfalso. apply Hmis. unfold convert_weights in E.
    destruct (convert_items "actor_mean" sd _ am) as [e|am1] eqn:Ea;
      cbv beta iota delta [bind] in E; [discriminate |].
    destruct (convert_items "critic" sd _ cm) as [e|cm1] eqn:Ec;
      cbv beta iota delta [bind ret] in E; [discriminate |].
    destruct Hv as [[Hp Hf] | [Hp Hf]].
    + now apply (convert_items_fits _ _ _ _ _ _ _ _ _ Ea Hin Hp Ht Hf).
    + now apply (convert_items_fits _ _ _ _ _ _ _ _ _ Ec Hin Hp Ht Hf).
Qed.

Lemma misfit_entry_raises_valueerror_witness :
  exists e,
    convert_weights sd_narrow_input example_actor_model example_critic_model
    = inl e /\ exn_class e = "ValueError".
Proof.
  apply (misfit_entry_raises_valueerror sd_narrow_input example_actor_model
           example_critic_model "actor_mean.0.weight" "actor_dense_1/kernel:0"
           (filled [64; 100] 1)
           (mk_variable "actor_dense_1/kernel:0" [376; 64]
                        (example_glorot "actor_dense_1" [376; 64]))).
  - simpl. tauto.
  - vm_compute. reflexivity.
  - left. split; reflexivity.
  - vm_compute. discriminate.
Defined.

End V1Misfit.

Section V1Reads.
Import Py Json Torch ConvertWeights Contract Examples.

Lemma convert_items_agree prefix sd1 sd2 items m :
  (forall pn, In pn (map fst items) -> sd1 !! pn = sd2 !! pn) ->
  convert_items prefix sd1 items m = convert_items prefix sd2 items m.
Proof.
  revert m. induction items as [|[pn tn] items IH]; intros m H; simpl;
    [reflexivity |].
  rewrite <- (H pn) by (simpl; tauto).
  assert (Hrest : forall pn0, In pn0 (map fst items) -> sd1 !! pn0 = sd2 !! pn0)
    by (intros pn0 Hin; apply H; simpl; tauto).
  destruct (startswith pn prefix); [| now apply IH].
  destruct (sd1 !! pn) as [t|]; [| now apply IH].
  destruct (assign_in_layers m tn _) as [e|m1]; simpl;
    [reflexivity | now apply IH].
Qed.

(** X10. [convert_weights] reads thirteen keys and no other: the twelve of
    its mapping and [actor_logstd], the very keys
    [extract_weights_to_json] looks up. Two checkpoints that agree on
    them are converted alike, models, result and exception included;
    whatever else a checkpoint holds is ignored. *)
Theorem convert_weights_reads_thirteen_keys :
  forall (sd1 sd2 : gmap string tensor) (am cm : model),
    (forall k, In k required_keys -> sd1 !! k = sd2 !! k) ->
    convert_weights sd1 am cm = convert_weights sd2 am cm.
Proof.
  intros sd1 sd2 am cm H. unfold convert_weights.
  assert (Hmap : forall pn, In pn (map fst weight_mapping) ->
                            sd1 !! pn = sd2 !! pn).
  { intros pn Hin. apply H. unfold required_keys.
    apply in_or_app. simpl in Hin. simpl. tauto. }
  rewrite (convert_items_agree "actor_mean" sd1 sd2 _ am Hmap).
  destruct (convert_items "actor_mean" sd2 weight_mapping am) as [e|am1];
    [reflexivity |].
  cbv beta iota delta [bind].
  rewrite (convert_items_agree "critic" sd1 sd2 _ cm Hmap).
  destruct (convert_items "critic" sd2 weight_mapping cm) as [e|cm1];
    [reflexivity |].
  cbv beta iota delta [bind ret].
  now rewrite (H "actor_logstd") by (simpl; tauto).
Qed.

Lemma convert_weights_reads_thirteen_keys_witness :
  convert_weights (<[ "obs_rms.mean" := obs_mean ]> sd_full)
                  example_actor_model example_critic_model
  = convert_weights sd_full example_actor_model example_critic_model.
Proof.
  apply (convert_weights_reads_thirteen_keys
           (<[ "obs_rms.mean" := obs_mean ]> sd_full) sd_full).
  intros k Hk. simpl in Hk.
  repeat (destruct Hk as [<- | Hk];
    [now rewrite lookup_insert_ne by discriminate |]).
  contradiction.
Defined.

End V1Reads.

Section V1Fresh.
Import Py Json Torch ConvertWeights Contract.

Lemma declared_checkpoint_lookups sd :
  declared_checkpoint sd = true ->
  (forall k, In k (actor_keys ++ critic_keys) -> sd !! k = Some (sd !!! k)) /\
  sizes (sd !!! "actor_mean.0.weight") = [64; 376] /\
  sizes (sd !!! "actor_mean.0.bias") = [64] /\
  sizes (sd !!! "actor_mean.2.weight") = [64; 64] /\
  sizes (sd !!! "actor_mean.2.bias") = [64] /\
  sizes (sd !!! "actor_mean.4.weight") = [17; 64] /\
  sizes (sd !!! "actor_mean.4.bias") = [17] /\
  sizes (sd !!! "critic.0.weight") = [64; 376] /\
  sizes (sd !!! "critic.0.bias") = [64] /\
  sizes (sd !!! "critic.2.weight") = [64; 64] /\
  sizes (sd !!! "critic.2.bias") = [64] /\
  sizes (sd !!! "critic.4.weight") = [1; 64] /\
  sizes (sd !!! "critic.4.bias") = [1].
Proof.
  unfold declared_checkpoint. intros H.
  repeat (apply andb_prop in H as [H ?]).
  repeat match goal with
         | H : bool_decide _ = true |- _ =>
             apply bool_decide_eq_true in H;
             apply linear_shape_Some in H as (? & ? & ? & ? & ? & ?)
         end.
  split.
  - intros k Hk. rewrite lookup_total_alt. simpl in Hk.
    repeat (destruct Hk as [<- | Hk];
      [match goal with H : sd !! _ = Some _ |- _ => now rewrite H end |]).
    contradiction.
  - rewrite !lookup_total_alt.
    repeat match goal with H : sd !! _ = Some _ |- _ => rewrite H; clear H end.
    simpl. repeat split; assumption.
Qed.

(** Evaluation of the tests on literal names. *)
Ltac literal_test t :=
  let v := eval vm_compute in t in
  match v with
  | true => change t with true
  | false => change t with false
  end.

Ltac literal_tests :=
  repeat match goal with
         | |- context [startswith ?a ?b] => literal_test (startswith a b)
         | |- context [str_contains ?a ?b] => literal_test (str_contains a b)
         | |- context [String.eqb ?a ?b] => literal_test (String.eqb a b)
         end.

Lemma convert_items_hit prefix sd pn tn items m t :
  startswith pn prefix = true -> sd !! pn = Some t ->
  convert_items prefix sd ((pn, tn) :: items) m
  = bind (assign_in_layers m tn (converted_array pn t))
         (convert_items prefix sd items).
Proof. intros Hp Ht. simpl. now rewrite Hp, Ht. Qed.

Lemma convert_items_miss prefix sd pn tn items m :
  startswith pn prefix = false ->
  convert_items prefix sd ((pn, tn) :: items) m
  = convert_items prefix sd items m.
Proof. intros Hp. simpl. now rewrite Hp. Qed.

Lemma sizes_converted_weight pn t out inn :
  str_contains pn "weight" = true -> sizes t = [out; inn] ->
  [inn; out] = sizes (converted_array pn t).
Proof.
  intros Hw Ht. unfold converted_array, numpy. now rewrite Hw, sizes_T, Ht.
Qed.

Lemma sizes_converted_bias pn t n :
  str_contains pn "weight" = false -> sizes t = [n] ->
  [n] = sizes (converted_array pn t).
Proof. intros Hw Ht. unfold converted_array, numpy. now rewrite Hw. Qed.

(** One entry of the mapping, on a model given layer by layer. *)
Ltac convert_step Hget :=
  lazymatch goal with
  | |- context [convert_items ?p ?sd ((?pn, ?tn) :: ?items) ?m] =>
      first
        [ rewrite (convert_items_miss p sd pn tn items m) by reflexivity
        | rewrite (convert_items_hit p sd pn tn items m (sd !!! pn))
            by (first [reflexivity | apply Hget; simpl; tauto]);
          cbn [assign_in_layers assign_in_weights weights var_name layer_name];
          literal_tests;
          cbn [bind ret];
          rewrite assign_fits
            by (cbn [var_shape];
                first [ eapply sizes_converted_weight; [reflexivity | eassumption]
                      | eapply sizes_converted_bias; [reflexivity | eassumption] ]);
          cbn [bind ret with_value var_name var_shape] ]
  end.

(** Names that follow the Keras 2 API give the models that API builds. *)
Lemma create_tfjs_model_keras2 names glorot sd :
  named_as_keras2 names ->
  create_tfjs_model names glorot sd = create_tfjs_model keras2_names glorot sd.
Proof.
  intros Hn. unfold create_tfjs_model, Dense, keras2_names.
  now rewrite !Hn.
Qed.

Lemma keras2_names_named : named_as_keras2 keras2_names.
Proof. intros layer kind. reflexivity. Qed.

Lemma keras3_names_named : named_as_keras3 keras3_names.
Proof. intros layer kind. reflexivity. Qed.

Lemma convert_fresh_actor glorot sd :
  declared_checkpoint sd = true ->
  convert_items "actor_mean" sd weight_mapping
    (fst (create_tfjs_model keras2_names glorot sd)) = inr (loaded_actor sd).
Proof.
  intros H. apply declared_checkpoint_lookups in H
    as (Hget & S0 & S1 & S2 & S3 & S4 & S5 & _).
  unfold create_tfjs_model, weight_mapping, Dense, Input, loaded_actor,
    loaded_layer.
  cbn [fst]. repeat convert_step Hget. reflexivity.
Qed.

Lemma convert_fresh_critic glorot sd :
  declared_checkpoint sd = true ->
  convert_items "critic" sd weight_mapping
    (snd (create_tfjs_model keras2_names glorot sd)) = inr (loaded_critic sd).
Proof.
  intros H. apply declared_checkpoint_lookups in H
    as (Hget & _ & _ & _ & _ & _ & _ & S0 & S1 & S2 & S3 & S4 & S5).
  unfold create_tfjs_model, weight_mapping, Dense, Input, loaded_critic,
    loaded_layer.
  cbn [snd]. repeat convert_step Hget. reflexivity.
Qed.

(** Both passes and the look-up of [actor_logstd], on models whose
    variables carry the Keras 2 names. *)
Lemma convert_weights_fresh names glorot sd :
  named_as_keras2 names ->
  declared_checkpoint sd = true ->
  convert_weights sd (fst (create_tfjs_model names glorot sd))
                     (snd (create_tfjs_model names glorot sd))
  = inr (loaded_actor sd, loaded_critic sd,
         option_map numpy (sd !! "actor_logstd")).
Proof.
  intros Hn H. rewrite (create_tfjs_model_keras2 names glorot sd Hn).
  unfold convert_weights.
  rewrite (convert_fresh_actor glorot sd H).
  cbv beta iota delta [bind].
  rewrite (convert_fresh_critic glorot sd H).
  cbv beta iota delta [bind ret].
  now destruct (sd !! "actor_logstd").
Qed.

(** ** Models whose variables carry other names *)

(** A name no variable carries is assigned nothing, and nothing is
    raised: the loops of lines 122-127 run to their end. *)
Lemma assign_in_weights_absent ws tf_name value :
  Forall (fun w => var_name w <> tf_name) ws ->
  assign_in_weights ws tf_name value = inr ws.
Proof.
  induction 1 as [|w ws Hw _ IH]; [reflexivity |].
  cbn [assign_in_weights].
  destruct (String.eqb_spec (var_name w) tf_name) as [E|_]; [contradiction |].
  now rewrite IH.
Qed.

Lemma assign_in_layers_absent m tf_name value :
  Forall (fun w => var_name w <> tf_name) (variables m) ->
  assign_in_layers m tf_name value = inr m.
Proof.
  induction m as [|l m IH]; [reflexivity |].
  unfold variables. cbn [flat_map]. intros H.
  apply Forall_app in H as [Hl Hm].
  cbn [assign_in_layers].
  rewrite (assign_in_weights_absent _ _ _ Hl). cbv beta iota delta [bind].
  rewrite (IH Hm). cbv beta iota delta [bind ret].
  now destruct l.
Qed.

Lemma convert_items_absent prefix sd items m :
  (forall pn tn, In (pn, tn) items ->
     Forall (fun w => var_name w <> tn) (variables m)) ->
  convert_items prefix sd items m = inr m.
Proof.
  induction items as [|[pn tn] items IH]; [reflexivity |].
  intros H. cbn [convert_items].
  assert (IH' : convert_items prefix sd items m = inr m).
  { apply IH. intros pn' tn' Hin. apply (H pn' tn'). now right. }
  destruct (startswith pn prefix); [| exact IH'].
  destruct (sd !! pn); [| exact IH'].
  rewrite (assign_in_layers_absent m tn _ (H pn tn (or_introl eq_refl))).
  exact IH'.
Qed.

(** Under the names of Keras 3 no variable of the models
    [create_tfjs_model] builds carries a name of [weight_mapping]:
    whatever the checkpoint holds, [convert_weights] assigns nothing
    and raises nothing, and the models keep what the initialiser
    drew. *)
Lemma keras3_models_are_left_as_created names glorot sd :
  named_as_keras3 names ->
  convert_weights sd (fst (create_tfjs_model names glorot sd))
                     (snd (create_tfjs_model names glorot sd))
  = inr (fst (create_tfjs_model names glorot sd),
         snd (create_tfjs_model names glorot sd),
         option_map numpy (sd !! "actor_logstd")).
Proof.
  intros Hn.
  assert (Ha : forall prefix m,
            m = fst (create_tfjs_model names glorot sd) \/
            m = snd (create_tfjs_model names glorot sd) ->
            convert_items prefix sd weight_mapping m = inr m).
  { intros prefix m Hm. apply convert_items_absent. intros pn tn Hin.
    destruct Hm as [-> | ->];
      unfold create_tfjs_model, Dense, Input, variables;
      cbn [fst snd flat_map weights app];
      rewrite !Hn;
      simpl in Hin;
      repeat (destruct Hin as [[= <- <-] | Hin];
              [repeat constructor; cbn [var_name]; discriminate |]);
      contradiction. }
  unfold convert_weights.
  rewrite (Ha "actor_mean" _ (or_introl eq_refl)). cbv beta iota delta [bind].
  rewrite (Ha "critic" _ (or_intror eq_refl)). cbv beta iota delta [bind ret].
  now destruct (sd !! "actor_logstd").
Qed.

End V1Fresh.

Section V1Totality.
Import Py Json Torch ConvertWeights Contract Examples.

(** X11. Where Keras names the variables as its version 2 API does
    (["actor_dense_1/kernel:0"]; the script pins no version, and under
    the names of Keras 3 nothing is loaded, see
    [keras3_models_are_left_as_created]), and on a checkpoint of the
    declared architecture, [convert_weights] applied to the models
    [create_tfjs_model] has just built completes, whatever the
    initialiser drew, and loads every variable: each kernel then holds
    the transposed view of its checkpoint weight, each bias its
    checkpoint bias, under the declared shape. Nothing of the initial
    values is left, and the log-standard-deviation returned is the
    checkpoint's, if it has one. *)
Theorem fresh_models_are_fully_loaded :
  forall (names : naming) (glorot : string -> list nat -> tensor)
         (sd : gmap string tensor),
    named_as_keras2 names ->
    declared_checkpoint sd = true ->
    convert_weights sd (fst (create_tfjs_model names glorot sd))
                       (snd (create_tfjs_model names glorot sd))
    = inr (loaded_actor sd, loaded_critic sd,
           option_map numpy (sd !! "actor_logstd")) /\
    Forall well_shaped (variables (loaded_actor sd)) /\
    Forall well_shaped (variables (loaded_critic sd)).
Proof.
  intros names glorot sd Hn H. split; [| split].
  - now apply convert_weights_fresh.
  - apply declared_checkpoint_lookups in H
      as (_ & S0 & S1 & S2 & S3 & S4 & S5 & _).
    unfold variables, loaded_actor, loaded_layer, well_shaped. simpl.
    repeat constructor; simpl; try assumption;
      rewrite sizes_T; match goal with H : _ = _ |- _ => now rewrite H end.
  - apply declared_checkpoint_lookups in H
      as (_ & _ & _ & _ & _ & _ & _ & S0 & S1 & S2 & S3 & S4 & S5).
    unfold variables, loaded_critic, loaded_layer, well_shaped. simpl.
    repeat constructor; simpl; try assumption;
      rewrite sizes_T; match goal with H : _ = _ |- _ => now rewrite H end.
Qed.

Lemma fresh_models_are_fully_loaded_witness :
  convert_weights sd_full
    (fst (create_tfjs_model keras2_names example_glorot sd_full))
    (snd (create_tfjs_model keras2_names example_glorot sd_full))
  = inr (loaded_actor sd_full, loaded_critic sd_full,
         option_map numpy (sd_full !! "actor_logstd")) /\
  Forall well_shaped (variables (loaded_actor sd_full)) /\
  Forall well_shaped (variables (loaded_critic sd_full)).
Proof.
  apply (fresh_models_are_fully_loaded keras2_names example_glorot sd_full).
  - intros layer kind. reflexivity.
  - vm_compute. reflexivity.
Defined.

End V1Totality.

Section BothConverters.
Import Py Json Torch OS ConvertWeights Contract Examples.

(** X12. The two converters agree. When both complete on one checkpoint,
    every array [convert_weights] has assigned lists to the very field
    [extract_weights_to_json] has stored for the same checkpoint entry:
    for every line of the layer mapping whose target variable exists in
    the model of its network, that variable now holds an array whose
    listing is the field's value; and the log-standard-deviation
    [convert_weights] returns is the tensor whose shape and values make
    up [actor_logstd.json]. *)
Theorem both_converters_store_the_same_arrays :
  forall (sd : gmap string tensor) (am cm am' cm' : model) (l : option tensor)
         (d : string) (fs fs' : filesystem),
    convert_weights sd am cm = inr (am', cm', l) ->
    ConvertWeightsV2.extract_weights_to_json sd d fs = (inr true, fs') ->
    (forall e tn w,
       In e layer_table -> In (src_key e, tn) weight_mapping ->
       find_variable (if startswith (src_key e) "actor_mean" then am else cm) tn
       = Some w ->
       exists w' o,
         find_variable (if startswith (src_key e) "actor_mean" then am' else cm')
                       tn = Some w' /\
         files fs' !! path_join d (out_file e) = Some (JObject o) /\
         dict_get o (out_field e) = Some (tolist (var_value w'))) /\
    (exists t,
       l = Some t /\
       files fs' !! path_join d "actor_logstd.json"
       = Some (JObject [("shape", shape_list t); ("values", tolist t)])).
Proof.
  intros sd am cm am' cm' l d fs fs' H Hx.
  apply extract_inr in Hx as (Hk & _ & ->).
  pose proof (first_missing_None sd required_keys Hk) as Hget.
  unfold convert_weights in H.
  destruct (convert_items "actor_mean" sd _ am) as [e|am1] eqn:Ea;
    cbv beta iota delta [bind] in H; [discriminate |].
  destruct (convert_items "critic" sd _ cm) as [e|cm1] eqn:Ec;
    cbv beta iota delta [bind ret] in H; [discriminate |].
  injection H as <- <- <-.
  split.
  - intros e tn w He Hin Hw.
    assert (Hfind : forall prefix m m',
              convert_items prefix sd weight_mapping m = inr m' ->
              startswith (src_key e) prefix = true ->
              find_variable m tn = Some w ->
              find_variable m' tn
              = Some (with_value (converted_array (src_key e)
                                    (sd !!! src_key e)) w)).
    { intros prefix m m' Hc Hp Hm.
      rewrite (convert_items_find _ _ _ _ _ _ _ (sd !!! src_key e)
                 weight_mapping_NoDup Hc Hin Hp), Hm; [reflexivity |].
      apply Hget. simpl in He.
      repeat (destruct He as [<- | He]; [simpl; tauto |]). contradiction. }
    simpl in He.
    repeat (destruct He as [<- | He];
      [ cbn [src_key out_file out_field] in *;
        eexists _, _;
        split; [first [ exact (Hfind _ _ _ Ea eq_refl Hw)
                      | exact (Hfind _ _ _ Ec eq_refl Hw) ] |];
        split; [first [ apply converted_actor_file
                      | apply converted_critic_file ] |];
        reflexivity
      | ]).
    contradiction.
  - exists (sd !!! "actor_logstd").
    rewrite (Hget "actor_logstd") by (simpl; tauto).
    split; [reflexivity | apply converted_logstd_file].
Qed.

Lemma both_converters_store_the_same_arrays_witness :
  exists t,
    option_map numpy (sd_full !! "actor_logstd") = Some t /\
    files (converted sd_full "out" empty_fs) !! path_join "out" "actor_logstd.json"
    = Some (JObject [("shape", shape_list t); ("values", tolist t)]).
Proof.
  apply (both_converters_store_the_same_arrays sd_full
           (fst (create_tfjs_model keras2_names example_glorot sd_full))
           (snd (create_tfjs_model keras2_names example_glorot sd_full))
           (loaded_actor sd_full) (loaded_critic sd_full)
           (option_map numpy (sd_full !! "actor_logstd"))
           "out" empty_fs (converted sd_full "out" empty_fs)).
  - apply convert_weights_fresh;
      [apply keras2_names_named | vm_compute; reflexivity].
  - rewrite extract_outcome.
    replace (first_missing sd_full required_keys) with (@None string)
      by (vm_compute; reflexivity).
    reflexivity.
Defined.

End BothConverters.

(* --------------------------------------------------------------------- *)
(** ** Further properties of convert_weights.py: the test pass, saving, main *)
(* --------------------------------------------------------------------- *)

Section V1Call.
Import Py Json Torch OS ConvertWeights ConvertWeightsMain Contract.

(** The converted actor model computes the forward pass that
    [test_weights] of [convert_weights_v2.py] writes out. *)
Lemma call_loaded_actor be sd x :
  first_missing sd actor_keys = None ->
  call_model be (loaded_actor sd) x = ConvertWeightsV2.actor_forward be sd x.
Proof.
  intros Hk. pose proof (first_missing_None sd actor_keys Hk) as Hget.
  unfold ConvertWeightsV2.actor_forward, ConvertWeightsV2.getitem.
  rewrite !Hget by (simpl; tauto).
  unfold loaded_actor, loaded_layer, Input.
  cbn [call_model call_layer weights layer_name var_value].
  change (activation_of "actor_dense_1") with (Some "tanh").
  change (activation_of "actor_dense_2") with (Some "tanh").
  change (activation_of "actor_mean") with (@None string).
  cbv beta iota delta [bind ret].
  destruct (matmul be x _) as [e|m0]; [reflexivity |].
  destruct (add m0 _) as [e|s0]; [reflexivity |].
  destruct (matmul be (tanh be s0) _) as [e|m2]; [reflexivity |].
  destruct (add m2 _) as [e|s2]; [reflexivity |].
  destruct (matmul be (tanh be s2) _) as [e|m4]; [reflexivity |].
  destruct (add m4 _) as [e|s4]; reflexivity.
Qed.

Lemma call_loaded_critic be sd x :
  first_missing sd critic_keys = None ->
  call_model be (loaded_critic sd) x = ConvertWeightsV2.critic_forward be sd x.
Proof.
  intros Hk. pose proof (first_missing_None sd critic_keys Hk) as Hget.
  unfold ConvertWeightsV2.critic_forward, ConvertWeightsV2.getitem.
  rewrite !Hget by (simpl; tauto).
  unfold loaded_critic, loaded_layer, Input.
  cbn [call_model call_layer weights layer_name var_value].
  change (activation_of "critic_dense_1") with (Some "tanh").
  change (activation_of "critic_dense_2") with (Some "tanh").
  change (activation_of "critic_value") with (@None string).
  cbv beta iota delta [bind ret].
  destruct (matmul be x _) as [e|m0]; [reflexivity |].
  destruct (add m0 _) as [e|s0]; [reflexivity |].
  destruct (matmul be (tanh be s0) _) as [e|m2]; [reflexivity |].
  destruct (add m2 _) as [e|s2]; [reflexivity |].
  destruct (matmul be (tanh be s2) _) as [e|m4]; [reflexivity |].
  destruct (add m4 _) as [e|s4]; reflexivity.
Qed.

(** A checkpoint of the declared architecture has two well-formed
    networks. *)
Lemma declared_checkpoint_valid sd :
  declared_checkpoint sd = true ->
  valid_network sd actor_keys 376 17 = true /\
  valid_network sd critic_keys 376 1 = true.
Proof.
  unfold declared_checkpoint. intros H.
  repeat (apply andb_prop in H as [H ?]).
  repeat match goal with
         | H : bool_decide _ = true |- _ => apply bool_decide_eq_true in H
         end.
  unfold valid_network, actor_keys, critic_keys.
  repeat match goal with H : linear_shape _ _ _ _ = _ |- _ => rewrite H; clear H end.
  split; reflexivity.
Qed.

Lemma declared_checkpoint_keys sd :
  declared_checkpoint sd = true ->
  first_missing sd actor_keys = None /\ first_missing sd critic_keys = None.
Proof.
  intros H. apply declared_checkpoint_valid in H as [Ha Hc].
  apply valid_network_chained in Ha as [Ha _].
  apply valid_network_chained in Hc as [Hc _].
  split; assumption.
Qed.

(** On a checkpoint of the declared architecture, with the variables
    named as by the Keras 2 API, the test pass of [main] goes
    through. *)
Lemma convert_and_test_passes be names glorot rng sd :
  named_as_keras2 names ->
  multiplies_matrices be -> declared_checkpoint sd = true ->
  convert_and_test be names glorot rng sd
  = inr (loaded_actor sd, loaded_critic sd,
         option_map numpy (sd !! "actor_logstd")).
Proof.
  intros Hn Hbe H. unfold convert_and_test.
  rewrite (convert_weights_fresh names glorot sd Hn H).
  cbv beta iota delta [bind fst snd].
  destruct (declared_checkpoint_keys sd H) as [Ka Kc].
  destruct (declared_checkpoint_valid sd H) as [Va Vc].
  rewrite (call_loaded_actor be sd _ Ka), (call_loaded_critic be sd _ Kc).
  assert (Sx : sizes (randn rng 0 [1; 376]) = [1; 376]) by apply sizes_randn.
  destruct (actor_forward_sizes be sd _ 1 Hbe Va Sx) as (a & -> & Sa).
  destruct (critic_forward_sizes be sd _ 1 Hbe Vc Sx) as (c & -> & Sc).
  cbv beta iota.
  destruct (head5_rows a 1 17 [] Sa ltac:(lia)) as (? & ? & -> & -> & _).
  destruct (index0_rows c 1 [1] Sc ltac:(lia)) as (? & ->).
  reflexivity.
Qed.

(** ** What [save_tfjs_models] leaves *)

Lemma save_tfjs_models_saved am cm l d st :
  saved_models (save_tfjs_models am cm l d st)
  = <[ path_join d "critic" := cm ]>
      (<[ path_join d "actor" := am ]> (saved_models st)).
Proof. unfold save_tfjs_models. destruct l; reflexivity. Qed.

Lemma save_tfjs_models_files am cm l d st :
  files (fs (save_tfjs_models am cm l d st))
  = <[ path_join d "model_info.json" := JObject model_info ]>
      (match l with
       | Some t =>
           <[ path_join d "actor_logstd.json" :=
                JObject [("shape", shape_list t); ("values", tolist t)] ]>
             (files (fs st))
       | None => files (fs st)
       end).
Proof. unfold save_tfjs_models. destruct l; reflexivity. Qed.

End V1Call.

Section V1Equivalence.
Import Py Json Torch OS ConvertWeights ConvertWeightsMain Contract Examples.

(** X13. Where Keras names the variables as its version 2 API does
    (the script pins no version; under the names of Keras 3 the models
    keep their initial kernels), the TensorFlow models [convert_weights]
    leaves compute the forward pass of the checkpoint. On a checkpoint
    of the declared architecture, the freshly created models are
    converted, and called on any input (as lines 214-215 do) they
    return what the manual forward pass of [convert_weights_v2.py]
    returns for the same checkpoint and input on the same arithmetic:
    the same products, sums and [tanh], in the same order, so an error
    of one is the error of the other. *)
Theorem converted_models_compute_the_forward_pass :
  forall (be : backend) (names : naming)
         (glorot : string -> list nat -> tensor)
         (sd : gmap string tensor) (x : tensor),
    named_as_keras2 names ->
    declared_checkpoint sd = true ->
    exists am cm l,
      convert_weights sd (fst (create_tfjs_model names glorot sd))
                         (snd (create_tfjs_model names glorot sd))
      = inr (am, cm, l) /\
      call_model be am x = ConvertWeightsV2.actor_forward be sd x /\
      call_model be cm x = ConvertWeightsV2.critic_forward be sd x.
Proof.
  intros be names glorot sd x Hn H.
  exists (loaded_actor sd), (loaded_critic sd),
         (option_map numpy (sd !! "actor_logstd")).
  destruct (declared_checkpoint_keys sd H) as [Ka Kc].
  split; [now apply convert_weights_fresh |].
  split; [now apply call_loaded_actor | now apply call_loaded_critic].
Qed.

Lemma converted_models_compute_the_forward_pass_witness :
  exists am cm l,
    convert_weights sd_full
      (fst (create_tfjs_model keras2_names example_glorot sd_full))
      (snd (create_tfjs_model keras2_names example_glorot sd_full))
    = inr (am, cm, l) /\
    call_model example_backend am (filled [1; 376] 1)
    = ConvertWeightsV2.actor_forward example_backend sd_full (filled [1; 376] 1) /\
    call_model example_backend cm (filled [1; 376] 1)
    = ConvertWeightsV2.critic_forward example_backend sd_full (filled [1; 376] 1).
Proof.
  apply (converted_models_compute_the_forward_pass example_backend
           keras2_names example_glorot sd_full (filled [1; 376] 1)).
  - intros layer kind. reflexivity.
  - vm_compute. reflexivity.
Defined.

End V1Equivalence.

Section V1Main.
Import Py Json Torch OS ConvertWeights ConvertWeightsMain Contract Examples.

(** X14. [main] of [convert_weights.py] on a checkpoint of the declared
    architecture, on a back end that multiplies matrices, where Keras
    names the variables as its version 2 API does (the script pins no
    version): it reports no failure, whatever the initialiser and the
    generator drew; the two models it hands to [tf.saved_model.save]
    under [tfjs_models] are the fully loaded ones; and
    [model_info.json] holds the fixed record. The checkpoint need not
    hold [actor_logstd]: if it does, [actor_logstd.json] holds its shape
    and values; if it does not, the script still completes and leaves
    at that path whatever was there. *)
Theorem v1_main_saves_the_loaded_models :
  forall (be : backend) (names : naming)
         (glorot : string -> list nat -> tensor)
         (rng : nat -> float) (sd : gmap string tensor) (st : storage),
    named_as_keras2 names ->
    multiplies_matrices be -> declared_checkpoint sd = true ->
    exists st',
      main be names glorot rng sd st = (None, st') /\
      saved_models st' !! "tfjs_models/actor" = Some (loaded_actor sd) /\
      saved_models st' !! "tfjs_models/critic" = Some (loaded_critic sd) /\
      files (fs st') !! "tfjs_models/model_info.json"
      = Some (JObject model_info) /\
      files (fs st') !! "tfjs_models/actor_logstd.json"
      = match sd !! "actor_logstd" with
        | Some t => Some (JObject [("shape", shape_list t); ("values", tolist t)])
        | None => files (fs st) !! "tfjs_models/actor_logstd.json"
        end.
Proof.
  intros be names glorot rng sd st Hn Hbe H. unfold main.
  rewrite (convert_and_test_passes be names glorot rng sd Hn Hbe H).
  eexists. split; [reflexivity |].
  rewrite save_tfjs_models_saved, save_tfjs_models_files.
  change (path_join "tfjs_models" "actor") with "tfjs_models/actor".
  change (path_join "tfjs_models" "critic") with "tfjs_models/critic".
  change (path_join "tfjs_models" "model_info.json")
    with "tfjs_models/model_info.json".
  change (path_join "tfjs_models" "actor_logstd.json")
    with "tfjs_models/actor_logstd.json".
  split; [| split; [| split]].
  - rewrite lookup_insert_ne by discriminate. apply lookup_insert_eq.
  - apply lookup_insert_eq.
  - apply lookup_insert_eq.
  - rewrite lookup_insert_ne by discriminate.
    destruct (sd !! "actor_logstd") as [t|]; simpl; [| reflexivity].
    apply lookup_insert_eq.
Qed.

Lemma v1_main_saves_the_loaded_models_witness :
  exists st',
    main example_backend keras2_names example_glorot zero_rng
         (delete "actor_logstd" sd_full)
         (mk_storage ∅ (mk_fs ∅ {[ "tfjs_models/actor_logstd.json" := JInt 0 ]}))
    = (None, st') /\
    saved_models st' !! "tfjs_models/actor"
    = Some (loaded_actor (delete "actor_logstd" sd_full)) /\
    saved_models st' !! "tfjs_models/critic"
    = Some (loaded_critic (delete "actor_logstd" sd_full)) /\
    files (fs st') !! "tfjs_models/model_info.json"
    = Some (JObject model_info) /\
    files (fs st') !! "tfjs_models/actor_logstd.json"
    = match delete "actor_logstd" sd_full !! "actor_logstd" with
      | Some t => Some (JObject [("shape", shape_list t); ("values", tolist t)])
      | None =>
          files (fs (mk_storage ∅
                       (mk_fs ∅ {[ "tfjs_models/actor_logstd.json" := JInt 0 ]})))
            !! "tfjs_models/actor_logstd.json"
      end.
Proof.
  apply (v1_main_saves_the_loaded_models example_backend keras2_names
           example_glorot zero_rng (delete "actor_logstd" sd_full)).
  - intros layer kind. reflexivity.
  - apply example_backend_multiplies.
  - vm_compute. reflexivity.
Defined.

(** Without [actor_logstd] the first script completes where the second
    one raises [KeyError]. *)
Example only_the_second_script_needs_actor_logstd :
  delete "actor_logstd" sd_full !! "actor_logstd" = None /\
  fst (ConvertWeightsV2.extract_weights_to_json (delete "actor_logstd" sd_full)
         "weights_json" empty_fs)
  = inl (KeyError "actor_logstd").
Proof.
  split; [vm_compute; reflexivity |].
  rewrite extract_outcome.
  replace (first_missing (delete "actor_logstd" sd_full) required_keys)
    with (Some "actor_logstd") by (vm_compute; reflexivity).
  reflexivity.
Qed.

End V1Main.

(* --------------------------------------------------------------------- *)
(** ** Further properties of download-pretrained-humanoid.py *)
(* --------------------------------------------------------------------- *)

Section DownloadMore.
Import Py Json Torch OS DownloadPretrainedHumanoid Contract.

(** The two outcomes of [convert_to_tfjs_format]. *)
Lemma convert_to_tfjs_format_cases ck fs :
  convert_to_tfjs_format ck fs =
  match items_of (state_dict_of ck) with
  | inl e => (inl e, fs)
  | inr items =>
      (inr tt,
       mk_fs (dirs fs)
         (<[ "pretrained_models/model_metadata.json" := JObject metadata ]>
            (<[ "pretrained_models/humanoid_ppo_weights.json" :=
                  JObject (convert_each items []) ]> (files fs))))
  end.
Proof.
  unfold convert_to_tfjs_format, io_bind, lift, write_json.
  destruct (items_of (state_dict_of ck)); reflexivity.
Qed.

(** ** Renaming *)

(** A key is kept, or renamed to one of the fourteen new names. *)
Lemma save_key_of_cases k :
  save_key_of k = k \/
  (In (k, save_key_of k) layer_mapping /\ In (save_key_of k) renamed_targets).
Proof.
  unfold save_key_of, dict_get_default, layer_mapping.
  cbn [dict_get].
  repeat match goal with
         | |- context [String.eqb ?a k] =>
             destruct (String.eqb_spec a k) as [<- | ?];
             [first [ left; reflexivity
                    | right; split; [simpl; tauto | vm_compute; tauto] ] |]
         end.
  now left.
Qed.

(** No two entries of the mapping rename to one name. *)
Lemma layer_mapping_inj k1 k2 s :
  In (k1, s) layer_mapping -> In (k2, s) layer_mapping -> k1 = k2.
Proof.
  unfold layer_mapping. simpl. intros H1 H2.
  repeat (destruct H1 as [H1 | H1];
    [ injection H1 as <- <-;
      repeat (destruct H2 as [H2 | H2];
        [first [discriminate H2 | now injection H2] |]);
      contradiction
    | ]).
  contradiction.
Qed.

Lemma save_key_of_inj k1 k2 :
  save_key_of k1 = save_key_of k2 ->
  k1 = k2 \/ In k1 renamed_targets \/ In k2 renamed_targets.
Proof.
  intros H.
  destruct (save_key_of_cases k1) as [H1 | [M1 R1]];
    destruct (save_key_of_cases k2) as [H2 | [M2 R2]].
  - left. congruence.
  - right. left. rewrite <- H1, H. exact R2.
  - right. right. rewrite <- H2, <- H. exact R1.
  - left. rewrite H in M1. exact (layer_mapping_inj _ _ _ M1 M2).
Qed.

Lemma tensor_keys_In items key t :
  In (key, PyTensor t) items -> In key (tensor_keys items).
Proof.
  unfold tensor_keys. intros H. apply in_flat_map.
  exists (key, PyTensor t). split; [assumption | simpl; tauto].
Qed.

(** With distinct keys, none of them one of the new names, the tensor
    left under the save key of an item is the tensor of that item. *)
Lemma last_tensor_for_own items key t :
  NoDup (tensor_keys items) ->
  (forall k, In k (tensor_keys items) -> ~ In k renamed_targets) ->
  In (key, PyTensor t) items ->
  last_tensor_for items (save_key_of key) = Some t.
Proof.
  induction items as [|[k0 v0] items IH]; intros Hnd Hfresh Hin;
    [contradiction |].
  assert (Hrest_nd : NoDup (tensor_keys items)).
  { destruct v0; simpl in Hnd; try assumption.
    now apply NoDup_cons in Hnd as [_ ?]. }
  assert (Hrest_fresh : forall k, In k (tensor_keys items) ->
                                  ~ In k renamed_targets).
  { intros k Hk. apply Hfresh. destruct v0; simpl; tauto. }
  simpl. destruct Hin as [[= -> ->] | Hin].
  - destruct (last_tensor_for items (save_key_of key)) as [t'|] eqn:E.
    + exfalso. apply last_tensor_for_In in E as (key' & Hin' & Hs).
      apply tensor_keys_In in Hin'.
      simpl in Hnd. apply NoDup_cons in Hnd as [Hnotin _].
      rewrite list_elem_of_In in Hnotin.
      destruct (save_key_of_inj _ _ Hs) as [-> | [Hr | Hr]].
      * contradiction.
      * now apply (Hrest_fresh key').
      * apply (Hfresh key); [simpl; tauto | assumption].
    + now rewrite String.eqb_refl.
  - now rewrite (IH Hrest_nd Hrest_fresh Hin).
Qed.

(** ** One field per tensor *)

Lemma dict_set_keys_fresh {V} (d : dict V) k v :
  ~ In k (map fst d) -> map fst (dict_set d k v) = (map fst d ++ [k])%list.
Proof.
  induction d as [|[k' v'] d IH]; simpl; intros H; [reflexivity |].
  destruct (String.eqb_spec k' k) as [-> | Hne]; [tauto |].
  simpl. rewrite IH by tauto. reflexivity.
Qed.

Lemma convert_each_keys items acc :
  NoDup (map save_key_of (tensor_keys items)) ->
  (forall k, In k (tensor_keys items) -> ~ In (save_key_of k) (map fst acc)) ->
  map fst (convert_each items acc)
  = (map fst acc ++ map save_key_of (tensor_keys items))%list.
Proof.
  revert acc. induction items as [|[k0 v0] items IH]; intros acc Hnd Hacc; simpl.
  - now rewrite app_nil_r.
  - destruct v0 as [t | | |]; simpl in *; try (now apply IH).
    apply NoDup_cons in Hnd as [Hnotin Hnd].
    rewrite list_elem_of_In in Hnotin.
    assert (Hk0 : ~ In (save_key_of k0) (map fst acc)) by (apply Hacc; tauto).
    rewrite IH.
    + rewrite (dict_set_keys_fresh _ _ _ Hk0), <- app_assoc. reflexivity.
    + assumption.
    + intros k Hk. rewrite (dict_set_keys_fresh _ _ _ Hk0).
      rewrite in_app_iff. simpl. intros [Hin | [Heq | []]].
      * apply (Hacc k); tauto.
      * apply Hnotin. rewrite Heq. now apply in_map.
Qed.

Lemma save_keys_NoDup ks :
  NoDup ks -> (forall k, In k ks -> ~ In k renamed_targets) ->
  NoDup (map save_key_of ks).
Proof.
  induction ks as [|k ks IH]; intros Hnd Hfresh; simpl; [constructor |].
  apply NoDup_cons in Hnd as [Hnotin Hnd].
  rewrite list_elem_of_In in Hnotin.
  apply NoDup_cons. split.
  - rewrite list_elem_of_In. intros Hin. apply in_map_iff in Hin.
    destruct Hin as (k' & Hs & Hk').
    destruct (save_key_of_inj _ _ Hs) as [-> | [Hr | Hr]].
    + contradiction.
    + apply (Hfresh k'); simpl; tauto.
    + apply (Hfresh k); simpl; tauto.
  - apply IH; [assumption |]. intros k' Hk'. apply Hfresh. simpl. tauto.
Qed.

End DownloadMore.

Section DownloadAtomic.
Import Py Json Torch OS DownloadPretrainedHumanoid Contract Examples.

(** X15. [convert_to_tfjs_format] writes both files or none. It fails only
    when what it takes for the state dict is no dictionary (a bare
    tensor, a [model_state_dict] entry that is no dictionary, an object
    without [state_dict]): the exception is the [AttributeError] of
    [.items()], raised before anything is written. On a dictionary,
    even an empty one or one that holds no tensor, it completes: the
    weights file holds the object built by the loop (the empty object
    when no item is a tensor), the metadata file the fixed record, and
    every other file is as it was. *)
Theorem download_conversion_writes_both_files_or_none :
  forall (ck : pyobj) (fs : filesystem),
    (forall e fs', convert_to_tfjs_format ck fs = (inl e, fs') ->
       fs' = fs /\ exn_class e = "AttributeError" /\
       forall items, state_dict_of ck <> PyDict items) /\
    (forall items, state_dict_of ck = PyDict items ->
       exists fs',
         convert_to_tfjs_format ck fs = (inr tt, fs') /\
         files fs' !! "pretrained_models/humanoid_ppo_weights.json"
         = Some (JObject (convert_each items [])) /\
         files fs' !! "pretrained_models/model_metadata.json"
         = Some (JObject metadata) /\
         (tensor_keys items = [] -> convert_each items [] = []) /\
         forall p, p <> "pretrained_models/humanoid_ppo_weights.json" ->
                   p <> "pretrained_models/model_metadata.json" ->
                   files fs' !! p = files fs !! p).
Proof.
  intros ck fs. rewrite convert_to_tfjs_format_cases.
  split.
  - intros e fs'. unfold items_of.
    destruct (state_dict_of ck); intros [= <- <-];
      (split; [reflexivity | split; [reflexivity | discriminate]]).
  - intros items ->. simpl. eexists. split; [reflexivity |].
    simpl. split; [| split; [| split]].
    + rewrite lookup_insert_ne by discriminate. apply lookup_insert_eq.
    + apply lookup_insert_eq.
    + generalize (@nil (string * json)).
      induction items as [|[k v] items IH]; intros acc Hk; [reflexivity |].
      destruct v; simpl in *; try discriminate; now apply IH.
    + intros p H1 H2. now rewrite !lookup_insert_ne by congruence.
Qed.

Lemma download_conversion_writes_both_files_or_none_witness :
  exists fs',
    convert_to_tfjs_format loaded_checkpoint empty_fs = (inr tt, fs') /\
    files fs' !! "pretrained_models/humanoid_ppo_weights.json"
    = Some (JObject (convert_each
                       [ ("actor.0.weight", PyTensor (ramp [2; 3] 1));
                         ("actor.0.bias", PyTensor (ramp [2] 100));
                         ("global_step", PyOther) ] [])) /\
    files fs' !! "pretrained_models/model_metadata.json"
    = Some (JObject metadata) /\
    (tensor_keys [ ("actor.0.weight", PyTensor (ramp [2; 3] 1));
                   ("actor.0.bias", PyTensor (ramp [2] 100));
                   ("global_step", PyOther) ] = [] ->
     convert_each [ ("actor.0.weight", PyTensor (ramp [2; 3] 1));
                    ("actor.0.bias", PyTensor (ramp [2] 100));
                    ("global_step", PyOther) ] [] = []) /\
    forall p, p <> "pretrained_models/humanoid_ppo_weights.json" ->
              p <> "pretrained_models/model_metadata.json" ->
              files fs' !! p = files empty_fs !! p.
Proof.
  apply (proj2 (download_conversion_writes_both_files_or_none
                  loaded_checkpoint empty_fs)).
  reflexivity.
Defined.

(** A bare tensor is no state dict. *)
Example a_bare_tensor_is_refused :
  convert_to_tfjs_format (PyTensor (ramp [2] 1)) empty_fs
  = (inl (AttributeError "object has no attribute 'items'"), empty_fs).
Proof. reflexivity. Qed.

End DownloadAtomic.

Section DownloadLossless.
Import Py Json Torch OS DownloadPretrainedHumanoid Contract Examples.

(** X16. The download script's loop loses no tensor when names do not
    collide. If the tensor-valued keys of the state dict are distinct
    and none of them is itself one of the names the mapping renames to,
    the object written has exactly one field per tensor, in the order of
    the state dict, named by the mapping (or by the key itself when the
    mapping has no entry for it), and the field of each tensor holds the
    listing of that tensor. *)
Theorem distinct_keys_lose_no_tensor :
  forall (ck : pyobj) (fs : filesystem) (items : list (string * pyobj)),
    state_dict_of ck = PyDict items ->
    NoDup (tensor_keys items) ->
    (forall k, In k (tensor_keys items) -> ~ In k renamed_targets) ->
    exists o,
      files (snd (convert_to_tfjs_format ck fs))
        !! "pretrained_models/humanoid_ppo_weights.json" = Some (JObject o) /\
      map fst o = map save_key_of (tensor_keys items) /\
      forall key t, In (key, PyTensor t) items ->
        dict_get o (save_key_of key) = Some (tolist t).
Proof.
  intros ck fs items Hsd Hnd Hfresh.
  exists (convert_each items []).
  rewrite convert_to_tfjs_format_cases, Hsd. simpl.
  split; [| split].
  - rewrite lookup_insert_ne by discriminate. apply lookup_insert_eq.
  - rewrite convert_each_keys; [reflexivity | | intros k _ []].
    now apply save_keys_NoDup.
  - intros key t Hin. rewrite convert_each_get.
    now rewrite (last_tensor_for_own items key t Hnd Hfresh Hin).
Qed.

Lemma distinct_keys_lose_no_tensor_witness :
  exists o,
    files (snd (convert_to_tfjs_format (PyDict cleanrl_items) empty_fs))
      !! "pretrained_models/humanoid_ppo_weights.json" = Some (JObject o) /\
    map fst o = map save_key_of (tensor_keys cleanrl_items) /\
    forall key t, In (key, PyTensor t) cleanrl_items ->
      dict_get o (save_key_of key) = Some (tolist t).
Proof.
  apply (distinct_keys_lose_no_tensor (PyDict cleanrl_items) empty_fs
           cleanrl_items).
  - reflexivity.
  - apply (bool_decide_unpack _). vm_compute. exact I.
  - intros k Hk Hr. vm_compute in Hk, Hr.
    repeat (destruct Hk as [<- | Hk];
      [repeat (destruct Hr as [Hr | Hr]; [discriminate Hr |]); exact Hr |]).
    exact Hk.
Defined.

(** When names do collide, the later tensor takes the field: of
    [actor_fc1_weight] and [actor.0.weight], which is renamed to it,
    only the second is written. *)
Example colliding_keys_lose_a_tensor :
  convert_each colliding_items []
  = [("actor_fc1_weight", tolist (ramp [2; 3] 7))].
Proof. vm_compute. reflexivity. Qed.

End DownloadLossless.

(* --------------------------------------------------------------------- *)
(** ** Properties of convert-weights-example.py *)
(* --------------------------------------------------------------------- *)

Section ExampleFacts.
Import Py Json Torch OS ConvertWeightsExample Contract.

(** ** Reading one parameter *)

Lemma weight_at_inr seq i t :
  weight_at seq i = inr t -> exists b, nth_error seq i = Some (Linear t b).
Proof.
  unfold weight_at, getitem.
  destruct (nth_error seq i) as [[w b|]|]; simpl; try discriminate.
  intros [= <-]. eauto.
Qed.

Lemma bias_at_inr seq i t :
  bias_at seq i = inr t -> exists w, nth_error seq i = Some (Linear w t).
Proof.
  unfold bias_at, getitem.
  destruct (nth_error seq i) as [[w b|]|]; simpl; try discriminate.
  intros [= <-]. eauto.
Qed.

Lemma weight_at_inl seq i e :
  weight_at seq i = inl e ->
  exn_class e = "IndexError" \/ exn_class e = "AttributeError".
Proof.
  unfold weight_at, getitem.
  destruct (nth_error seq i) as [[w b|]|]; simpl; try discriminate;
    intros [= <-]; simpl; tauto.
Qed.

Lemma bias_at_inl seq i e :
  bias_at seq i = inl e ->
  exn_class e = "IndexError" \/ exn_class e = "AttributeError".
Proof.
  unfold bias_at, getitem.
  destruct (nth_error seq i) as [[w b|]|]; simpl; try discriminate;
    intros [= <-]; simpl; tauto.
Qed.

Lemma weight_of_inl m e :
  weight_of m = inl e ->
  exn_class e = "IndexError" \/ exn_class e = "AttributeError".
Proof. destruct m; simpl; [discriminate |]. intros [= <-]. simpl. tauto. Qed.

Lemma bias_of_inl m e :
  bias_of m = inl e ->
  exn_class e = "IndexError" \/ exn_class e = "AttributeError".
Proof. destruct m; simpl; [discriminate |]. intros [= <-]. simpl. tauto. Qed.

(** Cutting a [Sequential] after its third module changes nothing of
    what is read at the indices 0 and 2. *)
Lemma weight_at_firstn seq i :
  i < 3 -> weight_at (firstn 3 seq) i = weight_at seq i.
Proof.
  intros H. unfold weight_at, getitem.
  rewrite nth_error_firstn. destruct (Nat.ltb_spec i 3); [reflexivity | lia].
Qed.

Lemma bias_at_firstn seq i :
  i < 3 -> bias_at (firstn 3 seq) i = bias_at seq i.
Proof.
  intros H. unfold bias_at, getitem.
  rewrite nth_error_firstn. destruct (Nat.ltb_spec i 3); [reflexivity | lia].
Qed.

(** ** The dictionary of the twelve arrays *)

(** One step of [weights_of] that returned. *)
Ltac read_step H :=
  match type of H with
  | match ?m with inl _ => _ | inr _ => _ end = inr _ =>
      let E := fresh "R" in
      destruct m eqn:E; [discriminate H |]
  end.

Lemma weights_of_inr p ws :
  weights_of p = inr ws ->
  exists w1 b1 w2 b2 wa ba v1 c1 v2 c2 wv bv,
    nth_error (policy_net p) 0 = Some (Linear w1 b1) /\
    nth_error (policy_net p) 2 = Some (Linear w2 b2) /\
    action_net p = Linear wa ba /\
    nth_error (extractor_value_net p) 0 = Some (Linear v1 c1) /\
    nth_error (extractor_value_net p) 2 = Some (Linear v2 c2) /\
    value_net p = Linear wv bv /\
    ws = [ ("actor_fc1_weight", w1); ("actor_fc1_bias", b1);
           ("actor_fc2_weight", w2); ("actor_fc2_bias", b2);
           ("actor_mean_weight", wa); ("actor_mean_bias", ba);
           ("value_fc1_weight", v1); ("value_fc1_bias", c1);
           ("value_fc2_weight", v2); ("value_fc2_bias", c2);
           ("value_out_weight", wv); ("value_out_bias", bv) ].
Proof.
  unfold weights_of. intros H.
  cbv beta iota zeta delta [bind ret] in H.
  repeat read_step H.
  injection H as <-.
  repeat match goal with
         | H : weight_at _ _ = inr _ |- _ => apply weight_at_inr in H as [? ?]
         | H : bias_at _ _ = inr _ |- _ => apply bias_at_inr in H as [? ?]
         end.
  destruct (action_net p) as [wa ba|]; [| discriminate].
  destruct (value_net p) as [wv bv|]; [| discriminate].
  unfold weight_of, bias_of, ret in *.
  repeat match goal with
         | H : inr _ = inr _ |- _ => injection H as <-
         end.
  repeat match goal with
         | H1 : nth_error ?l ?i = Some _, H2 : nth_error ?l ?i = Some _ |- _ =>
             rewrite H1 in H2; injection H2 as <- <-
         end.
  eexists _, _, _, _, _, _, _, _, _, _, _, _.
  repeat (split; [eassumption || reflexivity |]). reflexivity.
Qed.

Lemma weights_of_inl p e :
  weights_of p = inl e ->
  exn_class e = "IndexError" \/ exn_class e = "AttributeError".
Proof.
  unfold weights_of. intros H.
  cbv beta iota zeta delta [bind ret] in H.
  repeat match type of H with
         | match ?m with inl _ => _ | inr _ => _ end = inl _ =>
             let E := fresh "R" in
             destruct m eqn:E;
             [ injection H as <-;
               first [ now apply weight_at_inl in E
                     | now apply bias_at_inl in E
                     | now apply weight_of_inl in E
                     | now apply bias_of_inl in E ]
             | ]
         end.
  discriminate H.
Qed.

Lemma weights_of_first_two_layers p :
  weights_of (first_two_layers p) = weights_of p.
Proof.
  unfold weights_of, first_two_layers. cbn [policy_net extractor_value_net
    action_net value_net].
  now rewrite !weight_at_firstn, !bias_at_firstn by lia.
Qed.

Lemma convert_sb3_to_tfjs_cases p fs :
  convert_sb3_to_tfjs p fs =
  match weights_of p with
  | inl e => (inl e, fs)
  | inr ws =>
      (inr tt,
       mk_fs (dirs fs)
             (<[ "humanoid_ppo_weights.json" := JObject (tolist_each ws []) ]>
                (files fs)))
  end.
Proof.
  unfold convert_sb3_to_tfjs, io_bind, lift, write_json.
  destruct (weights_of p); reflexivity.
Qed.

End ExampleFacts.

Section ExampleExport.
Import Py Json Torch OS ConvertWeightsExample Contract Examples.

(** X17. [convert_sb3_to_tfjs] writes the twelve arrays or nothing. Every
    parameter is read before the file is opened: when the script fails,
    with the [IndexError] of a [Sequential] that has no module at index
    0 or 2 or the [AttributeError] of a module without [weight], storage
    is as it was; in particular an extractor of fewer than three modules
    (a single hidden layer) makes it fail. When it completes, the
    modules at the indices 0 and 2 of both extractors and the two output
    layers are linear, and the file holds one object of twelve fields in
    the order of the script, each the listing of the tensor as it is,
    weights in their own (out, in) orientation. *)
Theorem sb3_export_writes_twelve_arrays_or_nothing :
  forall (p : policy) (fs : filesystem),
    (forall e fs', convert_sb3_to_tfjs p fs = (inl e, fs') ->
       fs' = fs /\
       (exn_class e = "IndexError" \/ exn_class e = "AttributeError")) /\
    (length (policy_net p) < 3 \/ length (extractor_value_net p) < 3 ->
     exists e, convert_sb3_to_tfjs p fs = (inl e, fs)) /\
    (forall u fs', convert_sb3_to_tfjs p fs = (inr u, fs') ->
       exists w1 b1 w2 b2 wa ba v1 c1 v2 c2 wv bv,
         nth_error (policy_net p) 0 = Some (Linear w1 b1) /\
         nth_error (policy_net p) 2 = Some (Linear w2 b2) /\
         action_net p = Linear wa ba /\
         nth_error (extractor_value_net p) 0 = Some (Linear v1 c1) /\
         nth_error (extractor_value_net p) 2 = Some (Linear v2 c2) /\
         value_net p = Linear wv bv /\
         dirs fs' = dirs fs /\
         files fs' =
         <[ "humanoid_ppo_weights.json" :=
              JObject [ ("actor_fc1_weight", tolist w1);
                        ("actor_fc1_bias", tolist b1);
                        ("actor_fc2_weight", tolist w2);
                        ("actor_fc2_bias", tolist b2);
                        ("actor_mean_weight", tolist wa);
                        ("actor_mean_bias", tolist ba);
                        ("value_fc1_weight", tolist v1);
                        ("value_fc1_bias", tolist c1);
                        ("value_fc2_weight", tolist v2);
                        ("value_fc2_bias", tolist c2);
                        ("value_out_weight", tolist wv);
                        ("value_out_bias", tolist bv) ] ]> (files fs)).
Proof.
  intros p fs. rewrite convert_sb3_to_tfjs_cases. split; [| split].
  - intros e fs'. destruct (weights_of p) as [e'|ws] eqn:E; [| discriminate].
    intros [= <- <-]. split; [reflexivity | now apply weights_of_inl in E].
  - intros Hshort. destruct (weights_of p) as [e'|ws] eqn:E; [eauto |].
    exfalso. apply weights_of_inr in E
      as (w1 & b1 & w2 & b2 & wa & ba & v1 & c1 & v2 & c2 & wv & bv
          & _ & Hp & _ & _ & Hv & _).
    assert (Hp' : 2 < length (policy_net p))
      by (apply nth_error_Some; congruence).
    assert (Hv' : 2 < length (extractor_value_net p))
      by (apply nth_error_Some; congruence).
    lia.
  - intros u fs'. destruct (weights_of p) as [e'|ws] eqn:E; [discriminate |].
    intros [= <- <-].
    apply weights_of_inr in E
      as (w1 & b1 & w2 & b2 & wa & ba & v1 & c1 & v2 & c2 & wv & bv
          & H1 & H2 & H3 & H4 & H5 & H6 & ->).
    exists w1, b1, w2, b2, wa, ba, v1, c1, v2, c2, wv, bv.
    repeat split; try assumption; reflexivity.
Qed.

Lemma sb3_export_writes_twelve_arrays_or_nothing_witness :
  exists e, convert_sb3_to_tfjs sb3_shallow_policy empty_fs = (inl e, empty_fs).
Proof.
  apply (proj1 (proj2 (sb3_export_writes_twelve_arrays_or_nothing
                         sb3_shallow_policy empty_fs))).
  left. simpl. lia.
Defined.

(** The example policy is exported; the one with a single hidden layer
    stops at index 2. *)
Example sb3_export_examples :
  fst (convert_sb3_to_tfjs sb3_policy empty_fs) = inr tt /\
  (exn_class <$> match fst (convert_sb3_to_tfjs sb3_shallow_policy empty_fs) with
                 | inl e => Some e
                 | inr _ => None
                 end) = Some "IndexError".
Proof. split; vm_compute; reflexivity. Qed.

End ExampleExport.

Section ExampleDepth.
Import Py Json Torch OS ConvertWeightsExample Contract Examples.

(** X18. [convert_sb3_to_tfjs] exports two hidden layers, however many the
    policy has. It reads the modules at the indices 0 and 2 of each
    extractor and no other: a policy and the same policy with both
    extractors cut after their third module give the same result and
    leave the same storage, so a third hidden layer never reaches the
    file, and nothing reports it. *)
Theorem sb3_export_reads_two_hidden_layers_only :
  forall (p : policy) (fs : filesystem),
    convert_sb3_to_tfjs (first_two_layers p) fs = convert_sb3_to_tfjs p fs.
Proof.
  intros p fs.
  now rewrite !convert_sb3_to_tfjs_cases, weights_of_first_two_layers.
Qed.

(** The policy with a third hidden layer is exported as the one
    without. *)
Example a_third_hidden_layer_is_left_out :
  policy_net sb3_deep_policy <> policy_net sb3_policy /\
  convert_sb3_to_tfjs sb3_deep_policy empty_fs
  = convert_sb3_to_tfjs sb3_policy empty_fs.
Proof.
  split; [vm_compute; discriminate | vm_compute; reflexivity].
Qed.

End ExampleDepth.

